(** * Reporting API: inventory and sales route handlers

    Shallow embedding of [inventory_routes.py] and [sales_routes.py].
    Each Flask view function becomes a Rocq function from the request's query
    string and the database executor to an HTTP response, written in a small
    monad that records every query handed to [execute_query] and propagates
    Python exceptions to the enclosing [try]/[except].

    Layout: the Python built-ins the handlers rely on ([Py]), the HTTP and
    database plumbing ([Http]), the two route groups ([Inventory], [Sales]),
    the table of their routes ([Routes]), the vocabulary of the properties
    ([Spec]), and then the properties themselves. *)

From Stdlib Require Import ZArith NArith Bool List String Ascii Lia.
From Stdlib Require Import DecimalString DecimalPos.
From Stdlib Require DecimalFacts.
From Stdlib Require Import Floats.SpecFloat.
Import ListNotations.

Local Open Scope string_scope.
Local Open Scope Z_scope.

(* ===================================================================== *)
(** * Python built-ins *)
(* ===================================================================== *)

Module Py.

(** ** Exceptions

    Every [except] clause of the two modules either ignores the exception
    ([except ValueError:]) or uses only [str(e)], so an exception is carried
    as its message. *)

Inductive result (A : Type) : Type :=
| Ok (a : A)
| Raise (msg : string).
Arguments Ok {A} a.
Arguments Raise {A} msg.

Definition bind {A B} (r : result A) (k : A -> result B) : result B :=
  match r with
  | Ok a => k a
  | Raise msg => Raise msg
  end.

Fixpoint mapM {A B} (f : A -> result B) (l : list A) : result (list B) :=
  match l with
  | [] => Ok []
  | x :: xs => bind (f x) (fun y => bind (mapM f xs) (fun ys => Ok (y :: ys)))
  end.

(** [l.append(x)] *)
Definition append {A} (l : list A) (x : A) : list A := (l ++ [x])%list.

(** ** Strings

    A Python [str] is modelled by a [string] whose characters are the code
    points 0..255. *)

(** [str.isspace] on one code point below 256: U+0009..U+000D,
    U+001C..U+0020, U+0085 and U+00A0. *)
Definition isspace (c : ascii) : bool :=
  let n := N_of_ascii c in
  (((9 <=? n) && (n <=? 13)) || ((28 <=? n) && (n <=? 32))
   || (n =? 133) || (n =? 160))%N.

(** Removal of the leading and of the trailing characters that satisfy
    [p]. *)
Fixpoint lstrip_by (p : ascii -> bool) (s : string) : string :=
  match s with
  | EmptyString => EmptyString
  | String c s' => if p c then lstrip_by p s' else s
  end.

Fixpoint rstrip_by (p : ascii -> bool) (s : string) : string :=
  match s with
  | EmptyString => EmptyString
  | String c s' =>
      match rstrip_by p s' with
      | EmptyString => if p c then EmptyString else String c EmptyString
      | r => String c r
      end
  end.

(** [s.strip()] *)
Definition strip (s : string) : string :=
  rstrip_by isspace (lstrip_by isspace s).

(** [s.split(sep)] for a one-character separator: the pieces between the
    occurrences of [sep], the empty ones included; never the empty list. *)
Fixpoint split (sep : ascii) (s : string) : list string :=
  match s with
  | EmptyString => [EmptyString]
  | String c s' =>
      if Ascii.eqb c sep then EmptyString :: split sep s'
      else match split sep s' with
           | piece :: rest => String c piece :: rest
           | [] => [String c EmptyString]
           end
  end.

(** [sep.join(l)] *)
Fixpoint join (sep : string) (l : list string) : string :=
  match l with
  | [] => EmptyString
  | [x] => x
  | x :: xs => x ++ sep ++ join sep xs
  end.

(** Truth value of a [str]: non-empty. *)
Definition str_truthy (s : string) : bool :=
  match s with
  | EmptyString => false
  | String _ _ => true
  end.

(** ** Integers *)

(** The decimal digits of [z], with its sign: [str(z)] when [z] has at
    most 4300 digits, as has every [int] the view functions format: the
    literal [0] and the values that [int] returns for a [str]. *)
Definition str_of_int (z : Z) : string := NilZero.string_of_int (Z.to_int z).

Definition digit_of (c : ascii) : option Z :=
  let n := N_of_ascii c in
  if ((48 <=? n) && (n <=? 57))%N then Some (Z.of_N (n - 48)) else None.

(** The digits of a base-10 literal: decimal digits, with single
    underscores allowed between two digits.  [after_digit] tells whether
    the previous character was a digit. *)
Fixpoint parse_digits (acc : Z) (after_digit : bool) (s : string) : option Z :=
  match s with
  | EmptyString => if after_digit then Some acc else None
  | String c s' =>
      match digit_of c with
      | Some d => parse_digits (10 * acc + d) true s'
      | None =>
          if Ascii.eqb c "_"%char && after_digit
          then parse_digits acc false s'
          else None
      end
  end.

(** The whitespace [int] ignores around a literal: the ASCII whitespace
    and the non-ASCII spaces, but not the separators U+001C..U+001F. *)
Definition int_space (c : ascii) : bool :=
  let n := N_of_ascii c in
  (((9 <=? n) && (n <=? 13)) || (n =? 32) || (n =? 133) || (n =? 160))%N.

(** [sys.int_info.default_max_str_digits]: the interpreter converts no
    [str] of more decimal digits to an [int], and no [int] of more decimal
    digits to a [str]; it raises [ValueError] instead. *)
Definition max_str_digits : nat := 4300.

(** The number of decimal digits written in a literal: leading zeros
    count, the sign, underscores and surrounding whitespace do not. *)
Fixpoint digit_count (s : string) : nat :=
  match s with
  | EmptyString => O
  | String c s' =>
      match digit_of c with
      | Some _ => S (digit_count s')
      | None => digit_count s'
      end
  end.

(** [int(s)] for a [str]: surrounding whitespace is ignored, then an
    optional sign and the digits, of which there are at most
    [max_str_digits].  [None] stands for [ValueError], the only exception
    [int] raises on a [str]. *)
Definition int_of_str (s : string) : option Z :=
  let literal := rstrip_by int_space (lstrip_by int_space s) in
  if (max_str_digits <? digit_count literal)%nat then None
  else
    match literal with
    | String "+"%char r => parse_digits 0 false r
    | String "-"%char r => option_map Z.opp (parse_digits 0 false r)
    | r => parse_digits 0 false r
    end.

(** The least magnitude of more than [max_str_digits] digits. *)
Definition int_str_bound : Z :=
  Eval vm_compute in 10 ^ Z.of_nat max_str_digits.

(** Whether [str(z)] has at most [max_str_digits] digits, the sign not
    counted. *)
Definition within_str_digits (z : Z) : bool := Z.abs z <? int_str_bound.

Definition int_str_limit_message : string :=
  "Exceeds the limit (4300 digits) for integer string conversion; " ++
  "use sys.set_int_max_str_digits() to increase the limit".

(** ** Floats: IEEE 754 binary64, as specified by [SpecFloat] *)

Definition prec : Z := 53.
Definition emax : Z := 1024.

Definition float : Type := spec_float.

Definition fzero : float := S754_zero false.
Definition fmul : float -> float -> float := SFmul prec emax.
Definition fsub : float -> float -> float := SFsub prec emax.
Definition fdiv : float -> float -> float := SFdiv prec emax.

Definition is_finite (f : float) : bool :=
  match f with
  | S754_zero _ | S754_finite _ _ _ => true
  | S754_infinity _ | S754_nan => false
  end.

Definition is_zero (f : float) : bool :=
  match f with
  | S754_zero _ => true
  | _ => false
  end.

(** The double nearest to the integer [z] (ties to even); an infinity when
    [z] is out of range. *)
Definition round_int (z : Z) : float := binary_normalize prec emax z 0 false.

(** The double nearest to the quotient [a / b] of two integers, [b <> 0]:
    the division is carried out on the exact operands and rounded once. *)
Definition round_ratio (a b : Z) : float :=
  match a, b with
  | Z0, _ => S754_zero (b <? 0)
  | _, Z0 => S754_nan
  | Zpos p, Zpos q => fdiv (S754_finite false p 0) (S754_finite false q 0)
  | Zpos p, Zneg q => fdiv (S754_finite false p 0) (S754_finite true q 0)
  | Zneg p, Zpos q => fdiv (S754_finite true p 0) (S754_finite false q 0)
  | Zneg p, Zneg q => fdiv (S754_finite true p 0) (S754_finite true q 0)
  end.

(** [float(z)] for an [int] *)
Definition float_of_int (z : Z) : result float :=
  let f := round_int z in
  if is_finite f then Ok f else Raise "int too large to convert to float".

(** [int(f)] for a [float]: truncation towards zero. *)
Definition int_of_float (f : float) : result Z :=
  match f with
  | S754_nan => Raise "cannot convert float NaN to integer"
  | S754_infinity _ => Raise "cannot convert float infinity to integer"
  | S754_zero _ => Ok 0
  | S754_finite s m e =>
      let magnitude :=
        match e with
        | Zneg k => Z.shiftr (Zpos m) (Zpos k)
        | _ => Z.shiftl (Zpos m) e
        end in
      Ok (if s then - magnitude else magnitude)
  end.

(** [f > 0] for a [float]: false on a NaN. *)
Definition float_gt_zero (f : float) : bool :=
  match f with
  | S754_finite false _ _ | S754_infinity false => true
  | _ => false
  end.

(** *** [round(f, 1)]

    The decimal with one digit after the point nearest to the exact value of
    [f] (ties to even), converted back to the nearest double. *)

(** The exact magnitude [m * 2^e] as a fraction. *)
Definition magnitude (m : positive) (e : Z) : Z * Z :=
  match e with
  | Zneg k => (Zpos m, 2 ^ Zpos k)
  | _ => (Zpos m * 2 ^ e, 1)
  end.

(** The integer nearest to [num / den], ties to even ([0 <= num], [0 < den]). *)
Definition nearest_even (num den : Z) : Z :=
  let q := num / den in
  match 2 * (num mod den) ?= den with
  | Lt => q
  | Gt => q + 1
  | Eq => if Z.even q then q else q + 1
  end.

Definition round1 (f : float) : float :=
  match f with
  | S754_finite s m e =>
      let '(num, den) := magnitude m e in
      let tenths := nearest_even (10 * num) den in
      if tenths =? 0 then S754_zero s
      else round_ratio (if s then - tenths else tenths) 10
  | _ => f
  end.

(** *** [repr(f)]

    The shortest decimal string that converts back to [f], the nearest to
    [f] among those of that length, laid out the way [repr] does. *)

(** The double nearest to [d * 10^k]. *)
Definition round_decimal (d k : Z) : float :=
  match k with
  | Zneg p => round_ratio d (10 ^ Zpos p)
  | _ => round_int (d * 10 ^ k)
  end.

Definition same_magnitude (m : positive) (e : Z) (f : float) : bool :=
  match f with
  | S754_finite _ m' e' => Pos.eqb m m' && Z.eqb e e'
  | _ => false
  end.

Fixpoint count_digits (fuel : nat) (z : Z) : Z :=
  match fuel with
  | O => 1
  | S n => if z <? 10 then 1 else 1 + count_digits n (z / 10)
  end.

Fixpoint count_leading_zeros (fuel : nat) (num den : Z) : Z :=
  match fuel with
  | O => 0
  | S n => if den <=? 10 * num then 0
           else 1 + count_leading_zeros n (10 * num) den
  end.

(** The position of the decimal point: the [k] with
    [10^(k-1) <= num/den < 10^k]. *)
Definition decimal_point (num den : Z) : Z :=
  if den <=? num
  then count_digits (Z.to_nat (Z.log2 num)) (num / den)
  else - count_leading_zeros (Z.to_nat (Z.log2 den)) num den.

(** [num/den] scaled by [10^(-k)], as a fraction. *)
Definition scale (num den k : Z) : Z * Z :=
  match k with
  | Zpos _ => (num, den * 10 ^ k)
  | _ => (num * 10 ^ (- k), den)
  end.

(** The [n]-digit decimals just below and just above [num/den], and the
    one of them that converts back to the float [m * 2^e], if any; the
    nearer one when both do. *)
Definition candidate (m : positive) (e : Z) (num den point n : Z) : option Z :=
  let k := point - n in
  let '(num', den') := scale num den k in
  let lo := num' / den' in
  let hi := lo + 1 in
  let lo_ok := same_magnitude m e (round_decimal lo k) in
  let hi_ok := same_magnitude m e (round_decimal hi k) in
  match lo_ok, hi_ok with
  | true, true => Some (if nearest_even num' den' =? lo then lo else hi)
  | true, false => Some lo
  | false, true => Some hi
  | false, false => None
  end.

(** The first length, from [n] on, at which a decimal converts back.
    Seventeen digits always do for a double. *)
Fixpoint shortest_from (fuel : nat) (m : positive) (e : Z)
    (num den point n : Z) : Z * Z :=
  match fuel with
  | O => let '(num', den') := scale num den (point - n) in
         (nearest_even num' den', n)
  | S fuel' =>
      match candidate m e num den point n with
      | Some d => (d, n)
      | None => shortest_from fuel' m e num den point (n + 1)
      end
  end.

Fixpoint drop_trailing_zeros (s : string) : string :=
  match s with
  | EmptyString => EmptyString
  | String c s' =>
      match drop_trailing_zeros s' with
      | EmptyString => if Ascii.eqb c "0"%char then EmptyString
                       else String c EmptyString
      | r => String c r
      end
  end.

(** The shortest digit string of [m * 2^e] and the position of its decimal
    point: the value is [0.DIGITS * 10^point]. *)
Definition shortest_digits (m : positive) (e : Z) : string * Z :=
  let '(num, den) := magnitude m e in
  let point := decimal_point num den in
  let '(d, n) := shortest_from 16 m e num den point 1 in
  let all := str_of_int d in
  (drop_trailing_zeros all, point + (Z.of_nat (String.length all) - n)).

Fixpoint zeros (n : nat) : string :=
  match n with
  | O => EmptyString
  | S n' => String "0"%char (zeros n')
  end.

(** Layout of [repr]: scientific notation when the decimal point falls
    more than 16 places to the right or 4 or more to the left of the
    digits, positional notation with at least one fractional digit
    otherwise. *)
Definition layout (digits : string) (point : Z) : string :=
  let n := Z.of_nat (String.length digits) in
  if (point <=? -4) || (16 <? point) then
    let x := point - 1 in
    let mantissa :=
      match digits with
      | String c EmptyString => digits
      | String c rest => String c ("." ++ rest)
      | EmptyString => digits
      end in
    let xs := str_of_int (Z.abs x) in
    mantissa ++ "e" ++ (if x <? 0 then "-" else "+")
             ++ (if Z.abs x <? 10 then "0" ++ xs else xs)
  else if point <=? 0 then
    "0." ++ zeros (Z.to_nat (- point)) ++ digits
  else if n <=? point then
    digits ++ zeros (Z.to_nat (point - n)) ++ ".0"
  else
    substring 0 (Z.to_nat point) digits ++ "."
      ++ substring (Z.to_nat point) (Z.to_nat (n - point)) digits.

Definition repr_float (f : float) : string :=
  match f with
  | S754_nan => "nan"
  | S754_infinity s => if s then "-inf" else "inf"
  | S754_zero s => if s then "-0.0" else "0.0"
  | S754_finite s m e =>
      let '(digits, point) := shortest_digits m e in
      (if s then "-" else "") ++ layout digits point
  end.

(** ** Numbers: the [int]s and [float]s of a numeric column *)

Inductive number : Type :=
| NInt (z : Z)
| NFloat (f : float).

Definition type_name (n : number) : string :=
  match n with
  | NInt _ => "int"
  | NFloat _ => "float"
  end.

(** Truth value: a number is false when it is zero. *)
Definition truthy (n : number) : bool :=
  match n with
  | NInt z => negb (z =? 0)
  | NFloat f => negb (is_zero f)
  end.

(** [n > 0] *)
Definition gt_zero (n : number) : bool :=
  match n with
  | NInt z => 0 <? z
  | NFloat f => float_gt_zero f
  end.

(** [float(n)] *)
Definition to_float (n : number) : result float :=
  match n with
  | NInt z => float_of_int z
  | NFloat f => Ok f
  end.

(** [int(n)] *)
Definition to_int (n : number) : result Z :=
  match n with
  | NInt z => Ok z
  | NFloat f => int_of_float f
  end.

(** [a - b] *)
Definition sub (a b : number) : result number :=
  match a, b with
  | NInt x, NInt y => Ok (NInt (x - y))
  | _, _ =>
      bind (to_float a) (fun x =>
      bind (to_float b) (fun y => Ok (NFloat (fsub x y))))
  end.

(** [a / b] *)
Definition truediv (a b : number) : result number :=
  match a, b with
  | NInt x, NInt y =>
      if y =? 0 then Raise "division by zero"
      else
        let q := round_ratio x y in
        if is_finite q then Ok (NFloat q)
        else Raise "integer division result too large for a float"
  | _, _ =>
      bind (to_float a) (fun x =>
      bind (to_float b) (fun y =>
      if is_zero y then Raise "float division by zero"
      else Ok (NFloat (fdiv x y))))
  end.

(** [a * b] *)
Definition mul (a b : number) : result number :=
  match a, b with
  | NInt x, NInt y => Ok (NInt (x * y))
  | _, _ =>
      bind (to_float a) (fun x =>
      bind (to_float b) (fun y => Ok (NFloat (fmul x y))))
  end.

(** [round(n, 1)]: an [int] is returned unchanged. *)
Definition round_1 (n : number) : number :=
  match n with
  | NInt z => NInt z
  | NFloat f => NFloat (round1 f)
  end.

(** [f"{n}"] *)
Definition format (n : number) : string :=
  match n with
  | NInt z => str_of_int z
  | NFloat f => repr_float f
  end.

End Py.

(* ===================================================================== *)
(** * HTTP and database plumbing *)
(* ===================================================================== *)

Module Http.
Import Py.

(** ** JSON bodies

    The Python object handed to [jsonify].  A [dict] keeps the order of
    its literal; [int] and [float] stay distinct, as they do in the
    serialised body ([0] against [0.0]). *)

#[warnings="-register-all"]
Inductive json : Type :=
| JNull
| JInt (z : Z)
| JFloat (f : float)
| JStr (s : string)
| JList (items : list json)
| JObj (fields : list (string * json)).

(** What a view function returns: a serialised body and a status. *)
Record response : Type := Response { body : json; status : Z }.

(** [json.dumps] writes an [int] with [int.__repr__], which raises
    [ValueError] above [max_str_digits] digits; every other value of a
    body is written, [nan] and the infinities included. *)
Fixpoint serialisable (j : json) : bool :=
  match j with
  | JNull | JFloat _ | JStr _ => true
  | JInt z => within_str_digits z
  | JList items => forallb serialisable items
  | JObj fields => forallb (fun kv => serialisable (snd kv)) fields
  end.

(** The pair [jsonify(body), status]: [jsonify] serialises the body when
    it is called. *)
Definition jsonify (body : json) (status : Z) : result response :=
  if serialisable body then Ok (Response body status)
  else Raise int_str_limit_message.

(** The answer of the framework to an exception that leaves a view
    function: status 500, with a page of its own in place of a body. *)
Definition internal_server_error : response := Response JNull 500.

(** The value stored under [key] in a JSON object. *)
Fixpoint lookup (key : string) (fields : list (string * json)) : option json :=
  match fields with
  | [] => None
  | (k, v) :: rest => if String.eqb k key then Some v else lookup key rest
  end.

Definition field (key : string) (j : json) : option json :=
  match j with
  | JObj fields => lookup key fields
  | _ => None
  end.

(** ** Result rows

    A row is the tuple of the columns of its [SELECT], in order.  A column
    that the handler only copies into the body is a [cell]; a column it
    computes with is an [option number] or an [option string], [None] being
    SQL [NULL]. *)

Inductive cell : Type :=
| CNull
| CNum (n : number)
| CStr (s : string).

Definition json_of_number (n : number) : json :=
  match n with
  | NInt z => JInt z
  | NFloat f => JFloat f
  end.

Definition json_of_cell (c : cell) : json :=
  match c with
  | CNull => JNull
  | CNum n => json_of_number n
  | CStr s => JStr s
  end.

Definition json_of_column (c : option number) : json :=
  match c with
  | None => JNull
  | Some n => json_of_number n
  end.

(** Truth value of a list ([if result:]): non-empty. *)
Definition list_truthy {A} (l : list A) : bool :=
  match l with
  | [] => false
  | _ :: _ => true
  end.

(** ** The request

    [request.args]: the pairs of the query string, in order. *)
Definition query_args : Type := list (string * string).

(** [request.args.get(key, default)]: the first value given for [key]. *)
Fixpoint args_get (args : query_args) (key default : string) : string :=
  match args with
  | [] => default
  | (k, v) :: rest => if String.eqb k key then v else args_get rest key default
  end.

(** ** The database executor

    [execute_query] of [database.connection] is outside the two modules:
    it is a function from the query text to the rows it returns or the
    exception it raises. *)
Definition executor (R : Type) : Type := string -> result (list R).

(** ** The handler monad

    A computation runs against the log of the queries issued so far. *)
Definition M (A : Type) : Type := list string -> result A * list string.

Definition ret {A} (a : A) : M A := fun log => (Ok a, log).

Definition bindM {A B} (m : M A) (k : A -> M B) : M B :=
  fun log =>
    match m log with
    | (Ok a, log') => k a log'
    | (Raise msg, log') => (Raise msg, log')
    end.

Definition lift {A} (r : result A) : M A := fun log => (r, log).

(** The call [execute_query(query)]: the query is logged, whether the
    executor returns or raises. *)
Definition execute {R} (execute_query : executor R) (query : string)
  : M (list R) :=
  fun log => (execute_query query, append log query).

(** What a view function does: the response and the queries it issued. *)
Definition reply : Type := response * list string.

(** A [return] outside of any [try] block: what [jsonify] raises there
    leaves the view function. *)
Definition returned (r : result response) : response :=
  match r with
  | Ok r => r
  | Raise _ => internal_server_error
  end.

(** [try: body  except Exception as e: handler(str(e))], from an empty log. *)
Definition try_except (body : M response)
  (handler : string -> result response) : reply :=
  match body [] with
  | (Ok r, log) => (r, log)
  | (Raise msg, log) => (returned (handler msg), log)
  end.

(** A [return] before any [try] block: no query has been issued. *)
Definition early (r : result response) : reply := (returned r, []).

(** A multi-line string literal, one element per line. *)
Definition text (lines : list string) : string :=
  join (String (ascii_of_nat 10) EmptyString) lines.

End Http.

Declare Scope handler_scope.
Delimit Scope handler_scope with handler.
Notation "x <- m ;; k" := (Http.bindM m (fun x => k))
  (at level 61, m at next level, right associativity) : handler_scope.

(* ===================================================================== *)
(** * inventory_routes.py *)
(* ===================================================================== *)

Module Inventory.
Import Py Http.
Local Open Scope handler_scope.

(** The dict [{"status": code, "message": message}]. *)
Definition status_message (code : Z) (message : string) : json :=
  JObj [("status", JInt code); ("message", JStr message)].

(** ** Query texts *)

(** [query] of [unique_product_categories] *)
Definition unique_product_categories_query : string :=
  "SELECT DISTINCT product_category FROM tbl_available_stock_anom".

(** [query] of [unique_warehouse_locations] *)
Definition unique_warehouse_locations_query : string :=
  "SELECT DISTINCT warehouse_location FROM tbl_available_stock_anom".

(** [query] of [stocked_out_products_all_locations] *)
Definition stocked_out_products_all_locations_query : string :=
  text
    ["";
     "            SELECT ";
     "                warehouse_location,";
     "                COUNT(*) as total_stocked_out_products,";
     "                STUFF((";
     "                    SELECT ', ' + product_code";
     "                    FROM tbl_oos_anom t2";
     "                    WHERE t2.warehouse_location = t1.warehouse_location";
     "                    AND t2.stock_out_reason = 'stockout due to less supply'";
     "                    FOR XML PATH('')";
     "                ), 1, 2, '') as stockout_product_codes";
     "            FROM tbl_oos_anom t1";
     "            WHERE stock_out_reason = 'stockout due to less supply'";
     "            GROUP BY warehouse_location";
     "            ORDER BY total_stocked_out_products DESC";
     "        "].

(** [query] of [overstocked_products_by_location_and_product] *)
Definition overstocked_products_by_location_and_product_query : string :=
  text
    ["";
     "            SELECT TOP 10 ";
     "                product_code,";
     "                warehouse_location,";
     "                cover_days,";
     "                stock_at_hand,";
     "                ideal_required_quantity,";
     "                stock_diff";
     "            FROM tbl_available_stock_anom ";
     "            WHERE stock_status = 'excess'";
     "            ORDER BY stock_diff DESC";
     "        "].

(** [query] of [understocked_products_by_location_and_product] *)
Definition understocked_products_by_location_and_product_query : string :=
  text
    ["";
     "            SELECT TOP 10";
     "                product_code, ";
     "                warehouse_location,";
     "                cover_days,";
     "                stock_at_hand,";
     "                ideal_required_quantity,";
     "                stock_diff";
     "            FROM tbl_available_stock_anom ";
     "            WHERE stock_status = 'shortage'";
     "            ORDER BY stock_diff ASC";
     "        "].

(** [stock_levels_query] of [stock_distribution_and_status_across_all_locations] *)
Definition stock_distribution_and_status_across_all_locations_stock_levels_query : string :=
  text
    ["";
     "            WITH available_stock_summary AS (";
     "                SELECT ";
     "                    warehouse_location,";
     "                    SUM(CASE WHEN stock_status = 'shortage' THEN 1 ELSE 0 END) as partially_stocked,";
     "                    SUM(CASE WHEN stock_status = 'excess' THEN 1 ELSE 0 END) as fully_stocked";
     "                FROM ";
     "                    tbl_available_stock_anom";
     "                GROUP BY ";
     "                    warehouse_location";
     "            ),";
     "            oos_summary AS (";
     "                SELECT ";
     "                    warehouse_location,";
     "                    COUNT(*) as completely_stockout";
     "                FROM ";
     "                    tbl_oos_anom";
     "                GROUP BY ";
     "                    warehouse_location";
     "            )";
     "            SELECT ";
     "                a.warehouse_location,";
     "                a.partially_stocked,";
     "                a.fully_stocked,";
     "                ISNULL(o.completely_stockout, 0) as completely_stockout";
     "            FROM ";
     "                available_stock_summary a";
     "            LEFT JOIN ";
     "                oos_summary o ON a.warehouse_location = o.warehouse_location";
     "            ORDER BY ";
     "                a.warehouse_location";
     "        "].

(** [positive_query] of [inventory_variance_analysis_across_locations] *)
Definition inventory_variance_analysis_across_locations_positive_query : string :=
  text
    ["";
     "            SELECT TOP 5";
     "                warehouse_location, ";
     "                product_code, ";
     "                product_category,";
     "                stock_diff,";
     "                stock_at_hand,";
     "                ideal_required_quantity";
     "            FROM tbl_available_stock_anom ";
     "            WHERE stock_diff > 0";
     "            ORDER BY stock_diff DESC";
     "        "].

(** [negative_query] of [inventory_variance_analysis_across_locations] *)
Definition inventory_variance_analysis_across_locations_negative_query : string :=
  text
    ["";
     "            SELECT TOP 5";
     "                warehouse_location, ";
     "                product_code, ";
     "                product_category,";
     "                stock_diff,";
     "                stock_at_hand,";
     "                ideal_required_quantity";
     "            FROM tbl_available_stock_anom ";
     "            WHERE stock_diff < 0";
     "            ORDER BY stock_diff ASC";
     "        "].

(** [query] of [expected_stock_requirements_for_products_till_month_ends] *)
Definition expected_stock_requirements_for_products_till_month_ends_query : string :=
  text
    ["";
     "            SELECT TOP 10";
     "                product_code,";
     "                SUM(required_stock) as total_required_stock,";
     "                COUNT(DISTINCT warehouse_location) as location_count";
     "            FROM ";
     "                tbl_available_stock_anom";
     "            GROUP BY ";
     "                product_code";
     "            ORDER BY ";
     "                total_required_stock DESC";
     "        "].

(** [query] of [cover_days_summary] *)
Definition cover_days_summary_query : string :=
  text
    ["";
     "            SELECT ";
     "                CASE ";
     "                    WHEN cover_days BETWEEN 0 AND 5 THEN '0-5 days'";
     "                    WHEN cover_days BETWEEN 6 AND 10 THEN '6-10 days'";
     "                    WHEN cover_days BETWEEN 11 AND 30 THEN '11-30 days'";
     "                    WHEN cover_days BETWEEN 31 AND 60 THEN '31-60 days'";
     "                    WHEN cover_days > 60 THEN 'Over 60 days'";
     "                END as cover_days_range,";
     "                COUNT(*) as product_count";
     "            FROM ";
     "                tbl_available_stock_anom";
     "            GROUP BY ";
     "                CASE ";
     "                    WHEN cover_days BETWEEN 0 AND 5 THEN '0-5 days'";
     "                    WHEN cover_days BETWEEN 6 AND 10 THEN '6-10 days'";
     "                    WHEN cover_days BETWEEN 11 AND 30 THEN '11-30 days'";
     "                    WHEN cover_days BETWEEN 31 AND 60 THEN '31-60 days'";
     "                    WHEN cover_days > 60 THEN 'Over 60 days'";
     "                END";
     "            ORDER BY ";
     "                MIN(cover_days)";
     "        "].

(** [query] of [discontinued_products_across_all_warehouse_locations] *)
Definition discontinued_products_across_all_warehouse_locations_query : string :=
  text
    ["";
     "            SELECT ";
     "                warehouse_location,";
     "                COUNT(DISTINCT product_code) as discontinued_products_count,";
     "                STUFF((";
     "                    SELECT ', ' + product_code";
     "                    FROM tbl_oos_anom t2";
     "                    WHERE t2.warehouse_location = t1.warehouse_location";
     "                    AND t2.stock_out_reason = 'stockout due to discontinuation'";
     "                    FOR XML PATH('')";
     "                ), 1, 2, '') as discontinued_product_codes";
     "            FROM ";
     "                tbl_oos_anom t1";
     "            WHERE ";
     "                stock_out_reason = 'stockout due to discontinuation'";
     "            GROUP BY ";
     "                warehouse_location";
     "            ORDER BY ";
     "                discontinued_products_count DESC";
     "        "].

(** [query] of [get_inventory_level_for_products_and_locations] *)
Definition get_inventory_level_for_products_and_locations_query (where_clause : string) : string :=
  text
    ["";
     "            SELECT ";
     "                warehouse_location,";
     "                product_code,";
     "                stock_at_hand";
     "            FROM tbl_available_stock_anom";
     "            WHERE " ++ where_clause;
     "            ORDER BY warehouse_location, stock_at_hand DESC";
     "        "].

(** [query] of [estimated_stockout_of_products_by_cover_days] *)
Definition estimated_stockout_of_products_by_cover_days_query (cover_days : Z) : string :=
  text
    ["";
     "            SELECT ";
     "                warehouse_location,";
     "                COUNT(*) as total_products,";
     "                SUM(CASE WHEN cover_days <= " ++ str_of_int cover_days ++ " THEN 1 ELSE 0 END) as products_below_threshold";
     "            FROM tbl_available_stock_anom";
     "            GROUP BY warehouse_location";
     "            HAVING SUM(CASE WHEN cover_days <= " ++ str_of_int cover_days ++ " THEN 1 ELSE 0 END) > 0";
     "            ORDER BY products_below_threshold DESC";
     "        "].
(** ** View functions *)

Definition unique_product_categories (execute_query : executor cell) : reply :=
  try_except
    (result <- execute execute_query unique_product_categories_query ;;
     if list_truthy result then
       lift (jsonify (JList (map json_of_cell result)) 200)
     else
       lift (jsonify (status_message 404 "No product categories found") 404))
    (fun e =>
       jsonify (status_message 500
                  ("Error retrieving product categories: " ++ e)) 500).

Definition unique_warehouse_locations (execute_query : executor cell) : reply :=
  try_except
    (result <- execute execute_query unique_warehouse_locations_query ;;
     if list_truthy result then
       lift (jsonify (JList (map json_of_cell result)) 200)
     else
       lift (jsonify (status_message 404 "No warehouse locations found") 404))
    (fun e =>
       jsonify (status_message 500
                  ("Error retrieving warehouse locations: " ++ e)) 500).

(** Rows of the two reports that list product codes per location:
    location, count, concatenated codes. *)
Definition codes_row : Type := cell * cell * option string.

(** [product_codes = row[2].split(",") if row[2] else []] followed by
    [[code.strip() for code in product_codes if code.strip()]]. *)
Definition product_codes_of (row2 : option string) : list string :=
  let product_codes :=
    match row2 with
    | Some s => if str_truthy s then split "," s else []
    | None => []
    end in
  map strip (filter (fun code => str_truthy (strip code)) product_codes).

Definition stocked_out_location_data (row : codes_row) : json :=
  let '(row0, row1, row2) := row in
  let product_codes := product_codes_of row2 in
  JObj [("Warehouse location", json_of_cell row0);
        ("Total stocked out products", json_of_cell row1);
        ("Product codes", JList (map JStr product_codes))].

Definition stocked_out_products_all_locations
    (execute_query : executor codes_row) : reply :=
  try_except
    (result <- execute execute_query stocked_out_products_all_locations_query ;;
     if list_truthy result then
       lift (jsonify (JList (map stocked_out_location_data result)) 200)
     else
       lift (jsonify (status_message 404 "No stocked out products found") 404))
    (fun e =>
       jsonify (status_message 500
                  ("Error retrieving stocked out products: " ++ e)) 500).

(** Rows of the over- and understocked reports: six copied columns. *)
Definition stock_item_row : Type := cell * cell * cell * cell * cell * cell.

Definition stock_item (row : stock_item_row) : json :=
  let '(row0, row1, row2, row3, row4, row5) := row in
  JObj [("Product Code", json_of_cell row0);
        ("Warehouse Location", json_of_cell row1);
        ("Cover Days", json_of_cell row2);
        ("Current Stock", json_of_cell row3);
        ("Ideal Stock", json_of_cell row4);
        ("Stock Difference", json_of_cell row5)].

Definition overstocked_products_by_location_and_product
    (execute_query : executor stock_item_row) : reply :=
  try_except
    (result <- execute execute_query
                 overstocked_products_by_location_and_product_query ;;
     if list_truthy result then
       lift (jsonify (JList (map stock_item result)) 200)
     else
       lift (jsonify (status_message 404 "No overstocked items found.") 404))
    (fun e =>
       jsonify (status_message 500
                  ("Error retrieving overstocked items: " ++ e)) 500).

Definition understocked_products_by_location_and_product
    (execute_query : executor stock_item_row) : reply :=
  try_except
    (result <- execute execute_query
                 understocked_products_by_location_and_product_query ;;
     if list_truthy result then
       lift (jsonify (JList (map stock_item result)) 200)
     else
       lift (jsonify (JObj [("message", JStr "No understocked items found")])
              404))
    (fun e =>
       jsonify (JObj [("error",
                       JStr ("Failed to retrieve understocked products: " ++ e));
                      ("status", JStr "error")]) 500).

(** Rows of the stock distribution summary: location and three counts. *)
Definition stock_levels_row : Type :=
  option string * option number * option number * option number.

(** [max(0, int(c)) if c is not None else 0] *)
Definition clamped_count (c : option number) : result Z :=
  match c with
  | Some n => bind (to_int n) (fun i => Ok (Z.max 0 i))
  | None => Ok 0
  end.

(** The variables of the [for row in results] loop: the list built so far
    and the three running totals. *)
Record stock_levels_state : Type := {
  stock_levels_data : list json;
  total_partially_stocked : Z;
  total_fully_stocked : Z;
  total_completely_stockout : Z
}.

Definition stock_levels_init : stock_levels_state :=
  {| stock_levels_data := [];
     total_partially_stocked := 0;
     total_fully_stocked := 0;
     total_completely_stockout := 0 |}.

(** One iteration of the loop. *)
Definition stock_levels_step (st : stock_levels_state) (row : stock_levels_row)
  : result stock_levels_state :=
  let '(row0, row1, row2, row3) := row in
  let warehouse :=
    match row0 with
    | Some s => if str_truthy s then s else "Unknown Location"
    | None => "Unknown Location"
    end in
  bind (clamped_count row1) (fun partially_stocked =>
  bind (clamped_count row2) (fun fully_stocked =>
  bind (clamped_count row3) (fun completely_stockout =>
  let total_items := partially_stocked + fully_stocked + completely_stockout in
  Ok {| stock_levels_data :=
          append (stock_levels_data st)
            (JObj [("Warehouse Location", JStr warehouse);
                   ("Partially Stocked", JInt partially_stocked);
                   ("Fully Stocked", JInt fully_stocked);
                   ("Stocked Out", JInt completely_stockout);
                   ("Total Items", JInt total_items)]);
        total_partially_stocked :=
          total_partially_stocked st + partially_stocked;
        total_fully_stocked := total_fully_stocked st + fully_stocked;
        total_completely_stockout :=
          total_completely_stockout st + completely_stockout |}))).

Fixpoint stock_levels_loop (results : list stock_levels_row)
    (st : stock_levels_state) : result stock_levels_state :=
  match results with
  | [] => Ok st
  | row :: rest => bind (stock_levels_step st row) (stock_levels_loop rest)
  end.

Definition stock_distribution_and_status_across_all_locations
    (execute_query : executor stock_levels_row) : reply :=
  try_except
    (results <- execute execute_query
                  stock_distribution_and_status_across_all_locations_stock_levels_query ;;
     if negb (list_truthy results) then
       lift (jsonify (JObj [("message", JStr "No stock level data found");
                           ("status", JStr "empty");
                           ("data", JList [])]) 404)
     else
       st <- lift (stock_levels_loop results stock_levels_init) ;;
       lift (jsonify (JList (stock_levels_data st)) 200))
    (fun e =>
       jsonify (JObj [("error", JStr ("Error retrieving stock levels: " ++ e));
                      ("status", JStr "error");
                      ("data", JNull)]) 500).

(** Rows of the variance analysis: four copied columns, then
    [stock_at_hand] and [ideal_required_quantity]. *)
Definition variance_row : Type :=
  cell * cell * cell * cell * option number * option number.

(** [((current_stock - ideal_stock) / ideal_stock * 100)
     if ideal_stock > 0 else 0] *)
Definition variance_percentage (current_stock ideal_stock : option number)
  : result number :=
  match ideal_stock with
  | None =>
      Raise "'>' not supported between instances of 'NoneType' and 'int'"
  | Some ideal =>
      if gt_zero ideal then
        match current_stock with
        | None =>
            Raise ("unsupported operand type(s) for -: 'NoneType' and '"
                   ++ type_name ideal ++ "'")
        | Some current =>
            bind (sub current ideal) (fun difference =>
            bind (truediv difference ideal) (fun ratio =>
            mul ratio (NInt 100)))
        end
      else Ok (NInt 0)
  end.

(** The body of the loop of [process_variance_data]. *)
Definition variance_item (row : variance_row) : result json :=
  let '(row0, row1, row2, row3, row4, row5) := row in
  let current_stock := row4 in
  let ideal_stock := row5 in
  bind (variance_percentage current_stock ideal_stock)
    (fun variance_percentage =>
  Ok (JObj [("Warehouse Location", json_of_cell row0);
            ("Product Code", json_of_cell row1);
            ("Product Category", json_of_cell row2);
            ("Stock Difference", json_of_cell row3);
            ("Current Stock", json_of_column current_stock);
            ("Ideal Stock Requirement", json_of_column ideal_stock);
            ("Variancy", JStr (format (round_1 variance_percentage) ++ "%"))])).

Definition process_variance_data (results : list variance_row)
  : result (list json) :=
  mapM variance_item results.

Definition inventory_variance_analysis_across_locations
    (execute_query : executor variance_row) : reply :=
  try_except
    (positive_results <- execute execute_query
        inventory_variance_analysis_across_locations_positive_query ;;
     negative_results <- execute execute_query
        inventory_variance_analysis_across_locations_negative_query ;;
     positive <- lift (process_variance_data positive_results) ;;
     negative <- lift (process_variance_data negative_results) ;;
     lift (jsonify (JObj [("positive_variance_data", JList positive);
                         ("negative_variance_data", JList negative)]) 200))
    (fun e =>
       jsonify (status_message 500
                  ("Error processing stock variance data: " ++ e)) 500).

(** Rows of the expected stock requirements: product code, total required
    stock, number of locations. *)
Definition expected_stock_row : Type := cell * option number * option number.

(** [int(c)] on a column *)
Definition int_of_column (c : option number) : result Z :=
  match c with
  | Some n => to_int n
  | None =>
      Raise ("int() argument must be a string, a bytes-like object or a "
             ++ "real number, not 'NoneType'")
  end.

Definition expected_stock_level (row : expected_stock_row) : result json :=
  let '(row0, row1, row2) := row in
  bind (int_of_column row1) (fun required_stock =>
  bind (int_of_column row2) (fun location_count =>
  Ok (JObj [("Product Code", json_of_cell row0);
            ("Required Stock", JInt required_stock);
            ("Warehouse Location Count", JInt location_count)]))).

Definition expected_stock_requirements_for_products_till_month_ends
    (execute_query : executor expected_stock_row) : reply :=
  try_except
    (result <- execute execute_query
                 expected_stock_requirements_for_products_till_month_ends_query ;;
     if negb (list_truthy result) then
       lift (jsonify (status_message 404 "No stock level data found") 404)
     else
       expected_stock_levels <- lift (mapM expected_stock_level result) ;;
       lift (jsonify (JList expected_stock_levels) 200))
    (fun e =>
       jsonify (status_message 500
                  ("Error retrieving expected stock levels: " ++ e)) 500).

(** Rows of the cover days summary: range label and count. *)
Definition cover_days_row : Type := cell * cell.

Definition cover_days_item (row : cover_days_row) : json :=
  let '(row0, row1) := row in
  JObj [("Cover Days Range", json_of_cell row0);
        ("Product Code and Location pair count", json_of_cell row1)].

Definition cover_days_summary (execute_query : executor cover_days_row)
  : reply :=
  try_except
    (results <- execute execute_query cover_days_summary_query ;;
     if negb (list_truthy results) then
       lift (jsonify (status_message 404
                       "No cover days distribution data found") 404)
     else
       lift (jsonify (JList (map cover_days_item results)) 200))
    (fun e =>
       jsonify (status_message 500
                  ("Error retrieving cover days distribution: " ++ e)) 500).

Definition discontinued_data (row : codes_row) : json :=
  let '(row0, row1, row2) := row in
  let product_codes := product_codes_of row2 in
  JObj [("Warehouse Location", json_of_cell row0);
        ("Discontinued Product Count", json_of_cell row1);
        ("Discontinued Product Codes", JList (map JStr product_codes))].

Definition discontinued_products_across_all_warehouse_locations
    (execute_query : executor codes_row) : reply :=
  try_except
    (results <- execute execute_query
                  discontinued_products_across_all_warehouse_locations_query ;;
     if list_truthy results then
       lift (jsonify (JList (map discontinued_data results)) 200)
     else
       lift (jsonify (status_message 404
                       "No discontinued products data found") 404))
    (fun e =>
       jsonify (status_message 500
                  ("Error retrieving discontinued products data: " ++ e)) 500).

(** Rows of the inventory level report: location, product code, stock. *)
Definition inventory_row : Type := cell * cell * cell.

Definition inventory_item (row : inventory_row) : json :=
  let '(row0, row1, row2) := row in
  JObj [("Warehouse Location", json_of_cell row0);
        ("Product Code", json_of_cell row1);
        ("Available stock at hand", json_of_cell row2)].

(** The [conditions] list of the [WHERE] clause. *)
Definition inventory_conditions (location product_code : string)
  : list string :=
  let conditions := [] in
  let conditions :=
    if str_truthy location
    then append conditions ("warehouse_location = '" ++ location ++ "'")
    else conditions in
  let conditions :=
    if str_truthy product_code
    then append conditions ("product_code = '" ++ product_code ++ "'")
    else conditions in
  conditions.

(** The [search_criteria] list of the 404 message. *)
Definition inventory_search_criteria (location product_code : string)
  : list string :=
  let search_criteria := [] in
  let search_criteria :=
    if str_truthy location
    then append search_criteria ("location: " ++ location)
    else search_criteria in
  let search_criteria :=
    if str_truthy product_code
    then append search_criteria ("product code: " ++ product_code)
    else search_criteria in
  search_criteria.

Definition get_inventory_level_for_products_and_locations
    (execute_query : executor inventory_row) (args : query_args) : reply :=
  try_except
    (let location := strip (args_get args "location" "") in
     let product_code := strip (args_get args "product_code" "") in
     if negb (str_truthy location) && negb (str_truthy product_code) then
       lift (jsonify (status_message 400
              "At least one parameter (location or product_code) is required")
              400)
     else
       let conditions := inventory_conditions location product_code in
       let where_clause := join " AND " conditions in
       let query :=
         get_inventory_level_for_products_and_locations_query where_clause in
       results <- execute execute_query query ;;
       if list_truthy results then
         lift (jsonify (JList (map inventory_item results)) 200)
       else
         let search_criteria :=
           inventory_search_criteria location product_code in
         lift (jsonify (status_message 404
                ("No inventory data found for "
                 ++ join " and " search_criteria)) 404))
    (fun e =>
       jsonify (status_message 500
                  ("An error occurred while retrieving inventory data: " ++ e))
         500).

(** Rows of the stockout estimate: location, total, count below the
    threshold. *)
Definition estimate_row : Type := cell * cell * cell.

Definition stock_estimate (row : estimate_row) : json :=
  let '(row0, row1, row2) := row in
  JObj [("Warehouse Location", json_of_cell row0);
        ("Total Products", json_of_cell row1);
        ("Count of Products under given days", json_of_cell row2)].

Definition estimated_stockout_of_products_by_cover_days
    (execute_query : executor estimate_row) (args : query_args) : reply :=
  let cover_days := strip (args_get args "cover_days" "") in
  if negb (str_truthy cover_days) then
    early (jsonify (status_message 400 "Cover days parameter is required") 400)
  else
    match int_of_str cover_days with
    | None =>
        early (jsonify (status_message 400
                          "Invalid cover_days. Must be a valid number.") 400)
    | Some cover_days =>
        if cover_days <=? 0 then
          early (jsonify (status_message 400
                   "Invalid cover_days. Must be a positive integer.") 400)
        else
          try_except
            (let query :=
               estimated_stockout_of_products_by_cover_days_query cover_days in
             result <- execute execute_query query ;;
             if list_truthy result then
               lift (jsonify (JList (map stock_estimate result)) 200)
             else
               lift (jsonify (status_message 404
                      "No estimates found for the given criteria") 404))
            (fun e =>
               jsonify (status_message 500
                 ("An error occurred while retrieving stock estimates: " ++ e))
                 500)
    end.

End Inventory.

(* ===================================================================== *)
(** * sales_routes.py *)
(* ===================================================================== *)

Module Sales.
Import Py Http.
Local Open Scope handler_scope.

(** The dict [{"status": code, "message": message}]. *)
Definition status_message (code : Z) (message : string) : json :=
  JObj [("status", JInt code); ("message", JStr message)].

(** The dict [{"status": "error", "message": message}]. *)
Definition error_message (message : string) : json :=
  JObj [("status", JStr "error"); ("message", JStr message)].

(** ** Query texts *)

(** [query] of [unique_product_categories] *)
Definition unique_product_categories_query : string :=
  "SELECT DISTINCT product_category FROM tbl_sales_forecast".

(** [query] of [unique_warehouse_locations] *)
Definition unique_warehouse_locations_query : string :=
  "SELECT DISTINCT warehouse_location FROM tbl_sales_forecast".

(** [query] of [top_products_and_their_projected_demand] *)
Definition top_products_and_their_projected_demand_query : string :=
  text
    ["";
     "            SELECT TOP 10";
     "                Product_Code,";
     "                AVG(MTDSalesRate) As CurrentSalesRatePerDay,";
     "                AVG(M1ForecastRate) As CurrentForecastRatePerDay,";
     "                AVG(M2Forecast/26) AS NextMonthsForecastRatePerDay";
     "            FROM ";
     "                tbl_sales_forecast";
     "            GROUP BY ";
     "                Product_Code";
     "            ORDER BY ";
     "                NextMonthsForecastRatePerDay DESC";
     "        "].

(** [query] of [overselling_products_based_on_sales] *)
Definition overselling_products_based_on_sales_query : string :=
  text
    ["";
     "            SELECT ";
     "                Product_Code,";
     "                AVG(MTDSalesRate) AS TotalSalesPerDay,";
     "                AVG(M1ForecastRate) AS TotalForecastRatePerDay,";
     "                AVG(ForecastError) AS SalesDifference";
     "            FROM tbl_sales_forecast";
     "            WHERE Selling_Status = 'Overselling'";
     "            GROUP BY Product_Code";
     "            ORDER BY SalesDifference ASC";
     "        "].

(** [query] of [underselling_products_based_on_sales] *)
Definition underselling_products_based_on_sales_query : string :=
  text
    ["";
     "            SELECT ";
     "                Product_Code,";
     "                AVG(MTDSalesRate) AS TotalSalesPerDay,";
     "                AVG(M1ForecastRate) AS TotalForecastRatePerDay,";
     "                AVG(ForecastError) AS SalesDifference";
     "            FROM tbl_sales_forecast";
     "            WHERE Selling_Status = 'Underselling'";
     "            GROUP BY Product_Code";
     "            ORDER BY TotalSalesPerDay DESC";
     "        "].

(** [query] of [sales_rate_by_product_and_location] *)
Definition sales_rate_by_product_and_location_query (product_code : Z) : string :=
  text
    ["";
     "            SELECT ";
     "                warehouse_location,";
     "                AVG(MTDSalesRate) AS Sales";
     "            FROM";
     "                tbl_sales_forecast";
     "            WHERE";
     "                Product_Code = " ++ str_of_int product_code;
     "            GROUP BY";
     "                warehouse_location";
     "            ORDER BY";
     "                Sales DESC";
     "        "].

(** [query] of [forecast_sales_vs_actual_sales_for_products_and_locations] *)
Definition forecast_sales_vs_actual_sales_for_products_and_locations_query (product_code : Z) : string :=
  text
    ["";
     "          SELECT";
     "                warehouse_location,";
     "                product_code,";
     "                AVG(M1ForecastRate) AS Total_Forecast,";
     "                AVG(MTDSalesRate) AS Total_Actual_Sales,";
     "                AVG(ForecastError) AS Total_Forecast_Error";
     "            FROM";
     "                tbl_sales_forecast";
     "            WHERE   ";
     "                product_code = " ++ str_of_int product_code;
     "            GROUP BY";
     "                warehouse_location, product_code";
     "            ORDER BY";
     "                Total_Forecast DESC";
     "        "].
(** ** View functions *)

Definition unique_product_categories (execute_query : executor cell) : reply :=
  try_except
    (result <- execute execute_query unique_product_categories_query ;;
     if list_truthy result then
       lift (jsonify (JList (map json_of_cell result)) 200)
     else
       lift (jsonify (status_message 404 "No product categories found") 404))
    (fun e =>
       jsonify (status_message 500
                  ("Error retrieving product categories: " ++ e)) 500).

Definition unique_warehouse_locations (execute_query : executor cell) : reply :=
  try_except
    (result <- execute execute_query unique_warehouse_locations_query ;;
     if list_truthy result then
       lift (jsonify (JList (map json_of_cell result)) 200)
     else
       lift (jsonify (status_message 404 "No warehouse locations found") 404))
    (fun e =>
       jsonify (status_message 500
                  ("Error retrieving warehouse locations: " ++ e)) 500).

(** [abs(int(float(c))) if c else 0.0] *)
Definition abs_int_float (c : option number) : result json :=
  match c with
  | Some n =>
      if truthy n then
        bind (to_float n) (fun f =>
        bind (int_of_float f) (fun i => Ok (JInt (Z.abs i))))
      else Ok (JFloat fzero)
  | None => Ok (JFloat fzero)
  end.

(** [abs(int(c)) if c else 0.0] *)
Definition abs_int (c : option number) : result json :=
  match c with
  | Some n =>
      if truthy n then bind (to_int n) (fun i => Ok (JInt (Z.abs i)))
      else Ok (JFloat fzero)
  | None => Ok (JFloat fzero)
  end.

(** Rows of the three per-product reports: product code and three
    averages. *)
Definition product_row : Type :=
  cell * option number * option number * option number.

Definition projected_demand (row : product_row) : result json :=
  let '(row0, row1, row2, row3) := row in
  bind (abs_int_float row1) (fun sales_rate =>
  bind (abs_int_float row2) (fun forecast_rate =>
  bind (abs_int_float row3) (fun next_rate =>
  Ok (JObj [("Product Code", json_of_cell row0);
            ("Current Month Sales Rate", sales_rate);
            ("Current Month Forecast Rate", forecast_rate);
            ("Next Month Forecast Rate", next_rate)])))).

Definition top_products_and_their_projected_demand
    (execute_query : executor product_row) : reply :=
  try_except
    (results <- execute execute_query
                  top_products_and_their_projected_demand_query ;;
     response <- lift (mapM projected_demand results) ;;
     lift (jsonify (JList response) 200))
    (fun e => jsonify (error_message e) 500).

Definition oversold (row : product_row) : result json :=
  let '(row0, row1, row2, row3) := row in
  bind (abs_int_float row2) (fun forecast =>
  bind (abs_int_float row1) (fun sales =>
  bind (abs_int_float row3) (fun difference =>
  Ok (JObj [("Product Code", json_of_cell row0);
            ("Total Forecast per day", forecast);
            ("Total Sales per day", sales);
            ("Oversold per day", difference)])))).

Definition overselling_products_based_on_sales
    (execute_query : executor product_row) : reply :=
  try_except
    (results <- execute execute_query
                  overselling_products_based_on_sales_query ;;
     response <- lift (mapM oversold results) ;;
     lift (jsonify
            (JObj [("message",
                    JStr "All overselling products across all locations.");
                   ("data", JList response)]) 200))
    (fun e => jsonify (error_message e) 500).

Definition undersold (row : product_row) : result json :=
  let '(row0, row1, row2, row3) := row in
  bind (abs_int_float row2) (fun forecast =>
  bind (abs_int_float row1) (fun sales =>
  bind (abs_int_float row3) (fun difference =>
  Ok (JObj [("Product Code", json_of_cell row0);
            ("Total Forecast per day", forecast);
            ("Total Sales per day", sales);
            ("Undersold per day", difference)])))).

Definition underselling_products_based_on_sales
    (execute_query : executor product_row) : reply :=
  try_except
    (results <- execute execute_query
                  underselling_products_based_on_sales_query ;;
     response <- lift (mapM undersold results) ;;
     lift (jsonify
            (JObj [("message",
                    JStr "All underselling products across all locations.");
                   ("data", JList response)]) 200))
    (fun e => jsonify (error_message e) 500).

(** Rows of the sales rate report: location and average sales. *)
Definition sales_rate_row : Type := cell * option number.

Definition sales_rate (row : sales_rate_row) : result json :=
  let '(row0, row1) := row in
  bind (abs_int row1) (fun rate =>
  Ok (JObj [("Warehouse Location", json_of_cell row0);
            ("Sales rate per day", rate)])).

Definition sales_rate_by_product_and_location
    (execute_query : executor sales_rate_row) (args : query_args) : reply :=
  let product_code := strip (args_get args "product_code" "") in
  if negb (str_truthy product_code) then
    early (jsonify (error_message "Product code is required") 400)
  else
    match int_of_str product_code with
    | None =>
        early (jsonify (error_message "Product code must be an integer") 400)
    | Some product_code =>
        try_except
          (let query := sales_rate_by_product_and_location_query product_code in
           results <- execute execute_query query ;;
           response <- lift (mapM sales_rate results) ;;
           lift (jsonify (JList response) 200))
          (fun e => jsonify (error_message e) 500)
    end.

(** Rows of the forecast against actual report: location, product code and
    three averages. *)
Definition forecast_row : Type :=
  cell * cell * option number * option number * option number.

Definition forecast_vs_actual (row : forecast_row) : result json :=
  let '(row0, row1, row2, row3, row4) := row in
  bind (abs_int_float row2) (fun forecast_rate =>
  bind (abs_int_float row3) (fun sales_rate =>
  bind (abs_int_float row4) (fun forecast_error =>
  Ok (JObj [("Warehouse Location", json_of_cell row0);
            ("Product Code", json_of_cell row1);
            ("Average Forecast Rate", forecast_rate);
            ("Average Sales Rate", sales_rate);
            ("Average Forecast Error", forecast_error)])))).

Definition forecast_sales_vs_actual_sales_for_products_and_locations
    (execute_query : executor forecast_row) (args : query_args) : reply :=
  let product_code := strip (args_get args "product_code" "") in
  if negb (str_truthy product_code) then
    early (jsonify (error_message "Product code is required") 400)
  else
    match int_of_str product_code with
    | None =>
        early (jsonify (error_message "Product code must be an integer") 400)
    | Some product_code =>
        try_except
          (let query :=
             forecast_sales_vs_actual_sales_for_products_and_locations_query
               product_code in
           results <- execute execute_query query ;;
           response <- lift (mapM forecast_vs_actual results) ;;
           lift (jsonify (JList response) 200))
          (fun e => jsonify (error_message e) 500)
    end.

End Sales.

(* ===================================================================== *)
(** * The routes of the two blueprints *)
(* ===================================================================== *)

Module Routes.
Import Py Http.

(** One constructor per [@inventory_routes.route] and
    [@sales_routes.route] decorator, in source order. *)
Inductive endpoint : Type :=
| InventoryUniqueProductCategories
| InventoryUniqueWarehouseLocations
| StockedOutProducts
| OverstockedProducts
| UnderstockedProducts
| StockDistribution
| VarianceAnalysis
| ExpectedStockRequirements
| CoverDaysSummary
| DiscontinuedProducts
| InventoryLevel
| EstimatedStockout
| SalesUniqueProductCategories
| SalesUniqueWarehouseLocations
| TopProducts
| OversellingProducts
| UndersellingProducts
| SalesRate
| ForecastVsActual.

(** The rule of the route, below the prefix of its blueprint. *)
Definition path (ep : endpoint) : string :=
  match ep with
  | InventoryUniqueProductCategories => "/unique_product_categories"
  | InventoryUniqueWarehouseLocations => "/unique_warehouse_locations"
  | StockedOutProducts => "/stocked_out_products_all_locations"
  | OverstockedProducts => "/overstocked_products_by_location_and_product"
  | UnderstockedProducts => "/understocked_products_by_location_and_product"
  | StockDistribution => "/stock_distribution_and_status_across_all_locations"
  | VarianceAnalysis => "/inventory_variance_analysis_across_locations"
  | ExpectedStockRequirements =>
      "/expected_stock_requirements_for_products_till_month_ends"
  | CoverDaysSummary => "/cover_days_summary"
  | DiscontinuedProducts =>
      "/discontinued_products_across_all_warehouse_locations"
  | InventoryLevel => "/get_inventory_level_for_products_and_locations"
  | EstimatedStockout => "/estimated_stockout_of_products_by_cover_days"
  | SalesUniqueProductCategories => "/unique_product_categories"
  | SalesUniqueWarehouseLocations => "/unique_warehouse_locations"
  | TopProducts => "/top_products_and_their_projected_demand"
  | OversellingProducts => "/overselling_products_based_on_sales"
  | UndersellingProducts => "/underselling_products_based_on_sales"
  | SalesRate => "/sales_rate_by_product_and_location"
  | ForecastVsActual =>
      "/forecast_sales_vs_actual_sales_for_products_and_locations"
  end.

(** The shape of the rows of the query of each route. *)
Definition row_of (ep : endpoint) : Type :=
  match ep with
  | InventoryUniqueProductCategories | InventoryUniqueWarehouseLocations
  | SalesUniqueProductCategories | SalesUniqueWarehouseLocations => cell
  | StockedOutProducts | DiscontinuedProducts => Inventory.codes_row
  | OverstockedProducts | UnderstockedProducts => Inventory.stock_item_row
  | StockDistribution => Inventory.stock_levels_row
  | VarianceAnalysis => Inventory.variance_row
  | ExpectedStockRequirements => Inventory.expected_stock_row
  | CoverDaysSummary => Inventory.cover_days_row
  | InventoryLevel => Inventory.inventory_row
  | EstimatedStockout => Inventory.estimate_row
  | TopProducts | OversellingProducts | UndersellingProducts =>
      Sales.product_row
  | SalesRate => Sales.sales_rate_row
  | ForecastVsActual => Sales.forecast_row
  end.

(** The view function bound to each route, applied to the executor and to
    [request.args]. *)
Definition view (ep : endpoint)
  : executor (row_of ep) -> query_args -> reply :=
  match ep with
  | InventoryUniqueProductCategories =>
      fun db _ => Inventory.unique_product_categories db
  | InventoryUniqueWarehouseLocations =>
      fun db _ => Inventory.unique_warehouse_locations db
  | StockedOutProducts =>
      fun db _ => Inventory.stocked_out_products_all_locations db
  | OverstockedProducts =>
      fun db _ => Inventory.overstocked_products_by_location_and_product db
  | UnderstockedProducts =>
      fun db _ => Inventory.understocked_products_by_location_and_product db
  | StockDistribution =>
      fun db _ =>
        Inventory.stock_distribution_and_status_across_all_locations db
  | VarianceAnalysis =>
      fun db _ => Inventory.inventory_variance_analysis_across_locations db
  | ExpectedStockRequirements =>
      fun db _ =>
        Inventory.expected_stock_requirements_for_products_till_month_ends db
  | CoverDaysSummary => fun db _ => Inventory.cover_days_summary db
  | DiscontinuedProducts =>
      fun db _ =>
        Inventory.discontinued_products_across_all_warehouse_locations db
  | InventoryLevel =>
      Inventory.get_inventory_level_for_products_and_locations
  | EstimatedStockout =>
      Inventory.estimated_stockout_of_products_by_cover_days
  | SalesUniqueProductCategories =>
      fun db _ => Sales.unique_product_categories db
  | SalesUniqueWarehouseLocations =>
      fun db _ => Sales.unique_warehouse_locations db
  | TopProducts =>
      fun db _ => Sales.top_products_and_their_projected_demand db
  | OversellingProducts =>
      fun db _ => Sales.overselling_products_based_on_sales db
  | UndersellingProducts =>
      fun db _ => Sales.underselling_products_based_on_sales db
  | SalesRate => Sales.sales_rate_by_product_and_location
  | ForecastVsActual =>
      Sales.forecast_sales_vs_actual_sales_for_products_and_locations
  end.

End Routes.

(* ===================================================================== *)
(** * Vocabulary of the properties *)
(* ===================================================================== *)

Module Spec.
Import Py Http Routes.


(** The message of the no-data branch of each view function; [None] for
    the view functions that have no such branch. *)
Definition no_data_message (ep : endpoint) (args : query_args)
  : option string :=
  match ep with
  | InventoryUniqueProductCategories | SalesUniqueProductCategories =>
      Some "No product categories found"
  | InventoryUniqueWarehouseLocations | SalesUniqueWarehouseLocations =>
      Some "No warehouse locations found"
  | StockedOutProducts => Some "No stocked out products found"
  | OverstockedProducts => Some "No overstocked items found."
  | UnderstockedProducts => Some "No understocked items found"
  | StockDistribution => Some "No stock level data found"
  | ExpectedStockRequirements => Some "No stock level data found"
  | CoverDaysSummary => Some "No cover days distribution data found"
  | DiscontinuedProducts => Some "No discontinued products data found"
  | InventoryLevel =>
      Some ("No inventory data found for "
            ++ join " and "
                 (Inventory.inventory_search_criteria
                    (strip (args_get args "location" ""))
                    (strip (args_get args "product_code" ""))))
  | EstimatedStockout => Some "No estimates found for the given criteria"
  | VarianceAnalysis | TopProducts | OversellingProducts
  | UndersellingProducts | SalesRate | ForecastVsActual => None
  end.


(** The query parameter a view function requires, if it requires one. *)
Definition required_parameter (ep : endpoint) : option string :=
  match ep with
  | EstimatedStockout => Some "cover_days"
  | SalesRate | ForecastVsActual => Some "product_code"
  | _ => None
  end.

(** The first value the query string gives for [key], if it gives one. *)
Fixpoint args_find (args : query_args) (key : string) : option string :=
  match args with
  | [] => None
  | (k, v) :: rest => if String.eqb k key then Some v else args_find rest key
  end.

(** The parameter [key] is absent, or empty once trimmed. *)
Definition missing (args : query_args) (key : string) : Prop :=
  match args_find args key with
  | None => True
  | Some v => strip v = ""
  end.

(** A view function that answers [code] without issuing any query. *)
Definition rejects (r : reply) (code : Z) : Prop :=
  status (fst r) = code /\ snd r = [].

(** [needle in text] *)
Definition contains (needle text : string) : bool :=
  match index 0 needle text with
  | Some _ => true
  | None => false
  end.

(** A string whose characters all satisfy [p]. *)
Fixpoint all_by (p : ascii -> bool) (w : string) : bool :=
  match w with
  | EmptyString => true
  | String c w' => p c && all_by p w'
  end.

(** A string made of whitespace only. *)
Definition all_space (w : string) : bool := all_by isspace w.

(** Nothing is left to remove on the left of a string that is empty or
    starts with a character outside [p]. *)
Definition left_clean (p : ascii -> bool) (s : string) : Prop :=
  match s with
  | EmptyString => True
  | String c _ => p c = false
  end.

(** A string in which [sep] does not occur. *)
Fixpoint free_of (sep : ascii) (s : string) : bool :=
  match s with
  | EmptyString => true
  | String c s' => negb (Ascii.eqb c sep) && free_of sep s'
  end.

(** The record of the stock distribution summary for a location with [p]
    partially stocked, [f] fully stocked and [c] stocked out products. *)
Definition summary_record (warehouse : string) (p f c : Z) : json :=
  JObj [("Warehouse Location", JStr warehouse);
        ("Partially Stocked", JInt p);
        ("Fully Stocked", JInt f);
        ("Stocked Out", JInt c);
        ("Total Items", JInt (p + f + c))].

(** The integer stored under [key] in a record. *)
Definition int_field (key : string) (item : json) : Z :=
  match field key item with
  | Some (JInt z) => z
  | _ => 0
  end.

(** The sum of the field [key] over a list of records. *)
Definition sum_field (key : string) (items : list json) : Z :=
  fold_right (fun item total => int_field key item + total) 0 items.

(** [item] is the summary record of [row]: its three counts are the
    clamped counts of the row, a [NULL] count being 0. *)
Definition summarises (row : Inventory.stock_levels_row) (item : json)
  : Prop :=
  let '(_, row1, row2, row3) := row in
  exists warehouse p f c,
    item = summary_record warehouse p f c /\
    Inventory.clamped_count row1 = Ok p /\
    Inventory.clamped_count row2 = Ok f /\
    Inventory.clamped_count row3 = Ok c.

(** The integer part of a number, rounded towards zero (0 for a NaN and
    for an infinity, which have none). *)
Definition truncation (n : number) : Z :=
  match n with
  | NInt z => z
  | NFloat (S754_finite s m e) =>
      let '(num, den) := magnitude m e in
      Z.quot (if s then - num else num) den
  | NFloat _ => 0
  end.

(** The integer a JSON number is equal to, if it is equal to one: [0.0]
    and [0] are both equal to 0. *)
Definition integer_value (j : json) : option Z :=
  match j with
  | JInt z => Some z
  | JFloat (S754_zero _) => Some 0
  | JFloat (S754_finite s m e) =>
      let '(num, den) := magnitude m e in
      if num mod den =? 0
      then Some (if s then - (num / den) else num / den)
      else None
  | _ => None
  end.

(** Numbers whose conversion to a double loses nothing: the finite floats
    and the integers up to [2^53] in magnitude. *)
Definition exact_in_double (n : number) : Prop :=
  match n with
  | NInt z => Z.abs z <= 2 ^ 53
  | NFloat f => is_finite f = true
  end.

(** A column that is [NULL] or holds such a number. *)
Definition exact_column (c : option number) : Prop :=
  match c with
  | None => True
  | Some n => exact_in_double n
  end.

(** [float(n)]: the number itself, or the double nearest to an integer. *)
Definition as_double (n : number) : float :=
  match n with
  | NInt z => round_int z
  | NFloat f => f
  end.

(** A rate column the top-products report can convert: [NULL], or a number
    within the range of a double (an integer that [float] does not
    overflow on, a float that is neither a NaN nor an infinity). *)
Definition rate_in_range (c : option number) : Prop :=
  match c with
  | None => True
  | Some n => is_finite (as_double n) = true
  end.

(** A number [float] converts without loss: it is within the range of a
    double and the double has its integer part.  Every finite float is
    one, and so is every integer that a double represents. *)
Definition lossless (n : number) : Prop :=
  is_finite (as_double n) = true /\
  truncation (NFloat (as_double n)) = truncation n.

(** What the top-products report shows for a rate column: [0.0] for
    [NULL]; otherwise the magnitude of the integer part of the value as a
    double, which is the magnitude of the integer part of the value itself
    exactly when [float] converts the value without loss. *)
Definition magnitude_field (c : option number) (shown : json) : Prop :=
  match c with
  | None => shown = JFloat fzero
  | Some n =>
      integer_value shown
        = Some (Z.abs (truncation (NFloat (as_double n)))) /\
      (integer_value shown = Some (Z.abs (truncation n)) <-> lossless n)
  end.

(** A column that is [NULL] or zero: the integer 0, or one of the floats
    0.0 and -0.0. *)
Definition zero_or_null (c : option number) : bool :=
  match c with
  | None => true
  | Some (NInt z) => z =? 0
  | Some (NFloat f) => is_zero f
  end.

(** What a sales report shows under [key] for a metric column: the float
    [0.0] when the column is [NULL] or zero, an [int] otherwise. *)
Definition reported (item : json) (key : string) (c : option number) : Prop :=
  if zero_or_null c
  then field key item = Some (JFloat fzero)
  else exists z, field key item = Some (JInt z).

(** Two values of a column that are the same, or both [NULL] or zero. *)
Definition alike (c c' : option number) : Prop :=
  c = c' \/ (zero_or_null c = true /\ zero_or_null c' = true).

(** The routes whose view function reads [request.args]. *)
Definition takes_parameters (ep : endpoint) : bool :=
  match ep with
  | InventoryLevel | EstimatedStockout | SalesRate | ForecastVsActual => true
  | _ => false
  end.



(** The records of a 200 body: the list itself, the "data" list of the
    overselling and underselling envelopes, the positive followed by the
    negative list of the variance analysis. *)
Definition records (ep : endpoint) (b : json) : option (list json) :=
  match ep with
  | VarianceAnalysis =>
      match field "positive_variance_data" b,
            field "negative_variance_data" b with
      | Some (JList p), Some (JList n) => Some (p ++ n)%list
      | _, _ => None
      end
  | OversellingProducts | UndersellingProducts =>
      match field "data" b with
      | Some (JList d) => Some d
      | _ => None
      end
  | _ =>
      match b with
      | JList items => Some items
      | _ => None
      end
  end.

(** The number of rows the executor returns for a list of queries. *)
Definition rows_returned {R} (db : executor R) (queries : list string) : nat :=
  fold_right
    (fun query n =>
       match db query with
       | Ok rows => (List.length rows + n)%nat
       | Raise _ => n
       end)
    O queries.

(** The request reduced to what a view function reads of it: the trimmed
    first value of each of its own parameters. *)
Definition normalised (ep : endpoint) (args : query_args) : query_args :=
  match ep with
  | InventoryLevel =>
      [("location", strip (args_get args "location" ""));
       ("product_code", strip (args_get args "product_code" ""))]
  | EstimatedStockout =>
      [("cover_days", strip (args_get args "cover_days" ""))]
  | SalesRate | ForecastVsActual =>
      [("product_code", strip (args_get args "product_code" ""))]
  | _ => []
  end.

(** A product code that survives the concatenation of the query and the
    splitting of the row mapper: not empty, without whitespace at its ends
    and without a comma. *)
Definition clean_code (code : string) : Prop :=
  code <> "" /\ strip code = code /\ free_of "," code = true.

(** A count column the summary can convert: [NULL], an integer or a
    finite float. *)
Definition convertible (c : option number) : Prop :=
  match c with
  | Some (NFloat f) => is_finite f = true
  | _ => True
  end.

(** The count shown for a convertible column: 0 for [NULL] and for a
    negative value, the integer part of the value otherwise. *)
Definition shown_count (c : option number) : Z :=
  match c with
  | Some n => Z.max 0 (truncation n)
  | None => 0
  end.

(** The location shown for a row: "Unknown Location" for [NULL] and for
    the empty string. *)
Definition shown_location (c : option string) : string :=
  match c with
  | Some (String a s) => String a s
  | _ => "Unknown Location"
  end.

(** The summary record of a row of convertible counts. *)
Definition summary_of (row : Inventory.stock_levels_row) : json :=
  let '(row0, row1, row2, row3) := row in
  summary_record (shown_location row0)
    (shown_count row1) (shown_count row2) (shown_count row3).

Definition convertible_row (row : Inventory.stock_levels_row) : Prop :=
  let '(_, row1, row2, row3) := row in
  convertible row1 /\ convertible row2 /\ convertible row3.

(** A row whose shown counts fit a signed integer of 64 bits. *)
Definition small_counts (row : Inventory.stock_levels_row) : Prop :=
  let '(_, row1, row2, row3) := row in
  shown_count row1 < 2 ^ 63 /\
  shown_count row2 < 2 ^ 63 /\
  shown_count row3 < 2 ^ 63.

(** A row of the expected stock report whose counts are integers, one
    of them possibly [NULL]. *)
Definition integer_or_null (c : option number) : Prop :=
  match c with
  | Some (NFloat _) => False
  | _ => True
  end.

(** The message of the [TypeError] that [int(None)] raises. *)
Definition int_of_none : string :=
  "int() argument must be a string, a bytes-like object or a "
  ++ "real number, not 'NoneType'".

(** The record of the expected stock report for a row of two integers. *)
Definition expected_record (row : Inventory.expected_stock_row) : json :=
  let '(row0, row1, row2) := row in
  JObj [("Product Code", json_of_cell row0);
        ("Required Stock",
         JInt (match row1 with Some n => truncation n | None => 0 end));
        ("Warehouse Location Count",
         JInt (match row2 with Some n => truncation n | None => 0 end))].

(** [c * n]: the character [c], [n] times. *)
Fixpoint repeated (c : ascii) (n : nat) : string :=
  match n with
  | O => EmptyString
  | S n' => String c (repeated c n')
  end.

(** The decimal digit [d] put in front of a decimal number. *)
Definition digit_cons (d : Z) (u : Decimal.uint) : Decimal.uint :=
  match d with
  | 0 => Decimal.D0 u
  | 1 => Decimal.D1 u
  | 2 => Decimal.D2 u
  | 3 => Decimal.D3 u
  | 4 => Decimal.D4 u
  | 5 => Decimal.D5 u
  | 6 => Decimal.D6 u
  | 7 => Decimal.D7 u
  | 8 => Decimal.D8 u
  | _ => Decimal.D9 u
  end.

(** The decimal number made of the digits of a string, the other
    characters left out. *)
Fixpoint literal_digits (s : string) : Decimal.uint :=
  match s with
  | EmptyString => Decimal.Nil
  | String c s' =>
      match digit_of c with
      | Some d => digit_cons d (literal_digits s')
      | None => literal_digits s'
      end
  end.

(** A JSON number that is a magnitude: a non-negative [int], or the
    float [0.0]. *)
Definition magnitude_shown (j : json) : Prop :=
  match j with
  | JInt z => 0 <= z
  | JFloat f => f = fzero
  | _ => False
  end.

(** [-n] *)
Definition opposite (n : number) : number :=
  match n with
  | NInt z => NInt (- z)
  | NFloat f => NFloat (SFopp f)
  end.

(** A column with the sign of its value changed. *)
Definition negated (c : option number) : option number :=
  option_map opposite c.

End Spec.

(* ===================================================================== *)
(** * Properties *)
(* ===================================================================== *)

Import Py Http Routes Spec.

(** ** The response of a handler *)

Lemma try_except_log (body : M response)
    (handler : string -> result response) :
  snd (try_except body handler) = snd (body []).
Proof.
  unfold try_except. destruct (body []) as [[r|msg] log]; reflexivity.
Qed.

Lemma jsonify_ok (b : json) (code : Z) :
  serialisable b = true -> jsonify b code = Ok (Response b code).
Proof. intros H. unfold jsonify. rewrite H. reflexivity. Qed.

Lemma jsonify_raise (b : json) (code : Z) :
  serialisable b = false -> jsonify b code = Raise int_str_limit_message.
Proof. intros H. unfold jsonify. rewrite H. reflexivity. Qed.

(** ** The handlers at work *)

Example int_of_str_samples :
  map int_of_str [" 5 "; "+12"; "-3"; "1_000"; "0005"; "abc"; "5_"; ""; "1.0"]
  = [Some 5; Some 12; Some (-3); Some 1000; Some 5; None; None; None; None].
Proof. reflexivity. Qed.

(** [int] takes a literal of 4300 digits and no more, leading zeros
    counted. *)
Example int_of_str_limit :
  int_of_str (repeated "0" 4300) = Some 0 /\
  int_of_str (" -" ++ repeated "0" 4299 ++ "7 ") = Some (-7) /\
  int_of_str (repeated "0" 4300 ++ "7") = None /\
  int_of_str ("1" ++ repeated "0" 4300) = None /\
  int_of_str ("-1" ++ repeated "0" 4300) = None.
Proof. vm_compute. repeat split. Qed.

(** [jsonify] writes an integer of 4300 digits and raises on the least
    integer of 4301 digits, [int_str_bound]. *)
Example jsonify_limit :
  jsonify (JList [JInt (int_str_bound - 1); JInt (1 - int_str_bound)]) 200
  = Ok (Response
          (JList [JInt (int_str_bound - 1); JInt (1 - int_str_bound)]) 200) /\
  jsonify (JObj [("Total Items", JInt int_str_bound)]) 200
  = Raise int_str_limit_message /\
  jsonify (JList [JFloat S754_nan; JInt (- int_str_bound)]) 200
  = Raise int_str_limit_message.
Proof.
  split; [apply jsonify_ok | split; apply jsonify_raise];
    vm_compute; reflexivity.
Qed.

Example format_samples :
  map (fun n => format (round_1 n))
    [NInt 0; NInt 7; NFloat (round_int 50); NFloat (round_ratio 1 3);
     NFloat (round_ratio (-1) 25); NFloat (round_ratio 10001 2);
     NFloat (round_int (10 ^ 16))]
  = ["0"; "7"; "50.0"; "0.3"; "-0.0"; "5000.5"; "1e+16"].
Proof. vm_compute. reflexivity. Qed.

Example estimated_stockout_found :
  Inventory.estimated_stockout_of_products_by_cover_days
    (fun _ => Ok [(CStr "Pune", CNum (NInt 10), CNum (NInt 4))])
    [("cover_days", "5")]
  = (Response
       (JList [JObj [("Warehouse Location", JStr "Pune");
                     ("Total Products", JInt 10);
                     ("Count of Products under given days", JInt 4)]]) 200,
     [Inventory.estimated_stockout_of_products_by_cover_days_query 5]).
Proof. reflexivity. Qed.

Example estimated_stockout_beyond_digit_limit :
  Inventory.estimated_stockout_of_products_by_cover_days
    (fun _ => Ok [(CStr "Pune", CNum (NInt 10), CNum (NInt 4))])
    [("cover_days", "1" ++ repeated "0" 4300)]
  = (Response
       (Inventory.status_message 400
          "Invalid cover_days. Must be a valid number.") 400,
     []).
Proof. vm_compute. reflexivity. Qed.

Example stock_distribution_beyond_digit_limit :
  Inventory.stock_distribution_and_status_across_all_locations
    (fun _ => Ok [(Some "Pune", Some (NInt int_str_bound), None, None)])
  = (Response
       (JObj [("error",
               JStr ("Error retrieving stock levels: "
                     ++ int_str_limit_message));
              ("status", JStr "error");
              ("data", JNull)]) 500,
     [Inventory.stock_distribution_and_status_across_all_locations_stock_levels_query]).
Proof. vm_compute. reflexivity. Qed.

Example inventory_level_not_found :
  fst (Inventory.get_inventory_level_for_products_and_locations
         (fun _ => Ok []) [("location", " Pune "); ("product_code", "SKU1")])
  = Response
      (JObj [("status", JInt 404);
             ("message",
              JStr ("No inventory data found for location: Pune and "
                    ++ "product code: SKU1"))]) 404.
Proof. reflexivity. Qed.

Example sales_rate_executor_failure :
  Sales.sales_rate_by_product_and_location
    (fun _ => Raise "connection lost") [("product_code", "123")]
  = (Response (JObj [("status", JStr "error");
                    ("message", JStr "connection lost")]) 500,
     [Sales.sales_rate_by_product_and_location_query 123]).
Proof. reflexivity. Qed.

Example variance_analysis_of_two_rows :
  fst (Inventory.inventory_variance_analysis_across_locations
         (fun query =>
            if String.eqb query
                 Inventory.inventory_variance_analysis_across_locations_positive_query
            then Ok [(CStr "Pune", CStr "P1", CStr "Tools", CNum (NInt 50),
                      Some (NInt 150), Some (NInt 100))]
            else Ok [(CStr "Pune", CStr "P2", CStr "Tools", CNum (NInt (-20)),
                      Some (NInt 40), Some (NInt 60))]))
  = Response
      (JObj [("positive_variance_data",
              JList [JObj [("Warehouse Location", JStr "Pune");
                           ("Product Code", JStr "P1");
                           ("Product Category", JStr "Tools");
                           ("Stock Difference", JInt 50);
                           ("Current Stock", JInt 150);
                           ("Ideal Stock Requirement", JInt 100);
                           ("Variancy", JStr "50.0%")]]);
             ("negative_variance_data",
              JList [JObj [("Warehouse Location", JStr "Pune");
                           ("Product Code", JStr "P2");
                           ("Product Category", JStr "Tools");
                           ("Stock Difference", JInt (-20));
                           ("Current Stock", JInt 40);
                           ("Ideal Stock Requirement", JInt 60);
                           ("Variancy", JStr "-33.3%")]])]) 200.
Proof. vm_compute. reflexivity. Qed.

(** ** Empty result sets *)




(** ** Validation of the query parameters *)

Lemma str_truthy_false (s : string) : str_truthy s = false <-> s = "".
Proof. destruct s; simpl; split; congruence. Qed.

Lemma str_truthy_true (s : string) : str_truthy s = true <-> s <> "".
Proof. destruct s; simpl; split; congruence. Qed.

Lemma args_get_find (args : query_args) (key default : string) :
  args_get args key default =
  match args_find args key with
  | Some v => v
  | None => default
  end.
Proof.
  induction args as [|[k v] rest IH]; simpl; [reflexivity|].
  destruct (String.eqb k key); [reflexivity | exact IH].
Qed.

Lemma missing_strip (args : query_args) (key : string) :
  missing args key -> strip (args_get args key "") = "".
Proof.
  unfold missing. rewrite args_get_find.
  destruct (args_find args key); [auto | reflexivity].
Qed.

(** C3: a route that requires a query parameter answers 400, without
    calling the executor, whenever that parameter is absent or empty once
    trimmed. *)
Theorem required_parameter_missing (ep : endpoint) (key : string)
    (db : executor (row_of ep)) (args : query_args) :
  required_parameter ep = Some key ->
  missing args key ->
  status (fst (view ep db args)) = 400 /\ snd (view ep db args) = [].
Proof.
  intros Hreq Hmiss. apply missing_strip in Hmiss.
  destruct ep; simpl in Hreq; try discriminate;
    injection Hreq as <-; cbn [view].
  - unfold Inventory.estimated_stockout_of_products_by_cover_days.
    rewrite Hmiss. split; reflexivity.
  - unfold Sales.sales_rate_by_product_and_location.
    rewrite Hmiss. split; reflexivity.
  - unfold Sales.forecast_sales_vs_actual_sales_for_products_and_locations.
    rewrite Hmiss. split; reflexivity.
Qed.

Lemma required_parameter_missing_witness :
  status (fst (view SalesRate (fun _ => Ok []) [("product_code", "  ")])) = 400
  /\ snd (view SalesRate (fun _ => Ok []) [("product_code", "  ")]) = [].
Proof.
  apply (required_parameter_missing SalesRate "product_code"
           (fun _ => Ok []) [("product_code", "  ")]).
  - reflexivity.
  - reflexivity.
Defined.

(** C4: the stockout estimate rejects with 400, and without a query, a
    [cover_days] that parses to zero or to a negative integer and one that
    does not parse, such as "abc"; a [cover_days] that parses to a positive
    integer issues exactly one query, and for 5 that query counts the
    products of each location with [cover_days <= 5]. *)
Theorem cover_days_threshold (db : executor Inventory.estimate_row)
    (args : query_args) :
  let cover_days := strip (args_get args "cover_days" "") in
  let reply := Inventory.estimated_stockout_of_products_by_cover_days db args in
  (forall n, int_of_str cover_days = Some n -> n <= 0 -> rejects reply 400) /\
  (int_of_str cover_days = None -> rejects reply 400) /\
  (cover_days = "abc" -> rejects reply 400) /\
  (forall n, int_of_str cover_days = Some n -> 0 < n ->
     snd reply =
       [Inventory.estimated_stockout_of_products_by_cover_days_query n]) /\
  (cover_days = "5" ->
     exists query, snd reply = [query] /\
       contains
         ("SUM(CASE WHEN cover_days <= 5 THEN 1 ELSE 0 END) "
          ++ "as products_below_threshold") query = true).
Proof.
  intros cover_days reply.
  assert (Hneg : forall n, int_of_str cover_days = Some n -> n <= 0 ->
                           rejects reply 400).
  { intros n Hn Hle. subst reply.
    unfold Inventory.estimated_stockout_of_products_by_cover_days.
    fold cover_days. rewrite Hn.
    destruct (negb (str_truthy cover_days)); [split; reflexivity|].
    apply Z.leb_le in Hle. rewrite Hle. split; reflexivity. }
  assert (Hnone : int_of_str cover_days = None -> rejects reply 400).
  { intros Hn. subst reply.
    unfold Inventory.estimated_stockout_of_products_by_cover_days.
    fold cover_days. rewrite Hn.
    destruct (negb (str_truthy cover_days)); split; reflexivity. }
  assert (Hpos : forall n, int_of_str cover_days = Some n -> 0 < n ->
            snd reply =
            [Inventory.estimated_stockout_of_products_by_cover_days_query n]).
  { intros n Hn Hlt. subst reply.
    unfold Inventory.estimated_stockout_of_products_by_cover_days.
    fold cover_days. rewrite Hn.
    destruct (str_truthy cover_days) eqn:Ht.
    - simpl negb. cbv iota.
      assert (Hle : (n <=? 0) = false) by (apply Z.leb_gt; exact Hlt).
      rewrite Hle. rewrite try_except_log. unfold bindM, execute.
      destruct (db _) as [rows|msg]; [destruct rows|]; reflexivity.
    - apply str_truthy_false in Ht. rewrite Ht in Hn. discriminate. }
  split; [exact Hneg | split; [exact Hnone | split; [| split; [exact Hpos|]]]].
  - intros Habc. apply Hnone. rewrite Habc. reflexivity.
  - intros H5.
    exists (Inventory.estimated_stockout_of_products_by_cover_days_query 5).
    split; [apply Hpos; [rewrite H5; reflexivity | lia] | reflexivity].
Qed.

Lemma cover_days_threshold_witness :
  rejects (Inventory.estimated_stockout_of_products_by_cover_days
             (fun _ => Ok []) [("cover_days", "0")]) 400 /\
  rejects (Inventory.estimated_stockout_of_products_by_cover_days
             (fun _ => Ok []) [("cover_days", "-3")]) 400 /\
  rejects (Inventory.estimated_stockout_of_products_by_cover_days
             (fun _ => Ok []) [("cover_days", "abc")]) 400 /\
  snd (Inventory.estimated_stockout_of_products_by_cover_days
         (fun _ => Ok []) [("cover_days", " 5 ")]) =
    [Inventory.estimated_stockout_of_products_by_cover_days_query 5].
Proof.
  split; [| split; [| split]].
  - apply (proj1 (cover_days_threshold (fun _ => Ok [])
                    [("cover_days", "0")]) 0); [reflexivity | lia].
  - apply (proj1 (cover_days_threshold (fun _ => Ok [])
                    [("cover_days", "-3")]) (-3)); [reflexivity | lia].
  - apply (proj1 (proj2 (proj2 (cover_days_threshold (fun _ => Ok [])
                    [("cover_days", "abc")])))); reflexivity.
  - apply (proj1 (proj2 (proj2 (proj2 (cover_days_threshold (fun _ => Ok [])
                    [("cover_days", " 5 ")])))) 5); [reflexivity | lia].
Defined.

(** C7: the inventory level report issues its query as soon as one of
    [location] and [product_code] is given, and answers 400 with the body
    [{"status": 400, "message": "At least one parameter (location or
    product_code) is required"}], without a query, when both are absent or
    empty once trimmed. *)
Theorem inventory_level_parameters (db : executor Inventory.inventory_row)
    (args : query_args) :
  let location := strip (args_get args "location" "") in
  let product_code := strip (args_get args "product_code" "") in
  let reply :=
    Inventory.get_inventory_level_for_products_and_locations db args in
  (location <> "" \/ product_code <> "" ->
     status (fst reply) <> 400 /\
     snd reply =
       [Inventory.get_inventory_level_for_products_and_locations_query
          (join " AND "
             (Inventory.inventory_conditions location product_code))]) /\
  (location = "" /\ product_code = "" ->
     reply =
       (Response
          (JObj [("status", JInt 400);
                 ("message",
                  JStr ("At least one parameter (location or product_code) "
                        ++ "is required"))]) 400,
        [])).
Proof.
  intros location product_code reply. subst reply.
  unfold Inventory.get_inventory_level_for_products_and_locations.
  fold location. fold product_code. split.
  - intros Hsome.
    assert (Hgate : negb (str_truthy location) &&
                    negb (str_truthy product_code) = false).
    { destruct Hsome as [H|H]; apply str_truthy_true in H; rewrite H;
        [reflexivity | apply andb_false_r]. }
    rewrite Hgate. unfold try_except, bindM, execute.
    destruct (db _) as [rows|msg]; [destruct rows|]; unfold jsonify;
      try destruct (serialisable (JList _)); cbn;
      split; (discriminate || reflexivity).
  - intros [Hl Hp]. rewrite Hl, Hp. reflexivity.
Qed.

Lemma inventory_level_parameters_witness :
  (status (fst (Inventory.get_inventory_level_for_products_and_locations
                  (fun _ => Ok []) [("product_code", "SKU1")])) <> 400 /\
   snd (Inventory.get_inventory_level_for_products_and_locations
          (fun _ => Ok []) [("product_code", "SKU1")]) =
     [Inventory.get_inventory_level_for_products_and_locations_query
        "product_code = 'SKU1'"]) /\
  Inventory.get_inventory_level_for_products_and_locations
    (fun _ => Ok []) [("location", " ")] =
    (Response
       (JObj [("status", JInt 400);
              ("message",
               JStr ("At least one parameter (location or product_code) "
                     ++ "is required"))]) 400,
     []).
Proof.
  split.
  - apply (proj1 (inventory_level_parameters (fun _ => Ok [])
                    [("product_code", "SKU1")])).
    right. discriminate.
  - apply (proj2 (inventory_level_parameters (fun _ => Ok [])
                    [("location", " ")])).
    split; reflexivity.
Defined.

(** ** Splitting and trimming of the product codes *)

Section Strip.
Variable p : ascii -> bool.

Lemma lstrip_by_app (w s : string) :
  all_by p w = true -> lstrip_by p (w ++ s) = lstrip_by p s.
Proof.
  induction w as [|c w IH]; simpl; [reflexivity|].
  intros H. apply andb_true_iff in H as [Hc Hw]. rewrite Hc. auto.
Qed.

Lemma rstrip_by_all (w : string) :
  all_by p w = true -> rstrip_by p w = "".
Proof.
  induction w as [|c w IH]; simpl; [reflexivity|].
  intros H. apply andb_true_iff in H as [Hc Hw].
  rewrite (IH Hw), Hc. reflexivity.
Qed.

Lemma rstrip_by_app (s w : string) :
  all_by p w = true -> rstrip_by p (s ++ w) = rstrip_by p s.
Proof.
  intros Hw. induction s as [|c s IH]; simpl.
  - apply rstrip_by_all, Hw.
  - rewrite IH. reflexivity.
Qed.

Lemma rstrip_by_idempotent (s : string) :
  rstrip_by p (rstrip_by p s) = rstrip_by p s.
Proof.
  induction s as [|c s IH]; simpl; [reflexivity|].
  destruct (rstrip_by p s) as [|c' r] eqn:Hr.
  - destruct (p c) eqn:Hc; simpl; [reflexivity|]. rewrite Hc. reflexivity.
  - change (rstrip_by p (String c (String c' r)))
      with (match rstrip_by p (String c' r) with
            | EmptyString => if p c then EmptyString else String c EmptyString
            | x => String c x
            end).
    rewrite IH. reflexivity.
Qed.

Lemma lstrip_by_clean (s : string) : left_clean p (lstrip_by p s).
Proof.
  induction s as [|c s IH]; simpl; [exact I|].
  destruct (p c) eqn:Hc; [exact IH | exact Hc].
Qed.

Lemma lstrip_by_fixed (s : string) : left_clean p s -> lstrip_by p s = s.
Proof. destruct s; simpl; [reflexivity|]. intros ->. reflexivity. Qed.

Lemma rstrip_by_clean (s : string) :
  left_clean p s -> left_clean p (rstrip_by p s).
Proof.
  destruct s as [|c s]; simpl; [auto|]. intros Hc.
  destruct (rstrip_by p s); [rewrite Hc|]; exact Hc.
Qed.
End Strip.

Lemma strip_idempotent (s : string) : strip (strip s) = strip s.
Proof.
  unfold strip.
  rewrite (lstrip_by_fixed isspace (rstrip_by isspace (lstrip_by isspace s))).
  - apply rstrip_by_idempotent.
  - apply rstrip_by_clean, lstrip_by_clean.
Qed.

(** Whitespace around a piece that starts with a character that is not
    whitespace is removed, and nothing else. *)
Lemma strip_padded (w1 w2 : string) (c : ascii) (rest : string) :
  all_space w1 = true -> all_space w2 = true -> isspace c = false ->
  strip (w1 ++ String c rest ++ w2) = rstrip_by isspace (String c rest).
Proof.
  intros H1 H2 Hc. unfold strip.
  rewrite lstrip_by_app by exact H1.
  rewrite lstrip_by_fixed by exact Hc.
  apply rstrip_by_app. exact H2.
Qed.

Lemma append_assoc (a b c : string) : (a ++ b) ++ c = a ++ b ++ c.
Proof. induction a as [|x a IH]; simpl; [reflexivity | now rewrite IH]. Qed.

Lemma free_of_app (sep : ascii) (a b : string) :
  free_of sep (a ++ b) = free_of sep a && free_of sep b.
Proof.
  induction a as [|c a IH]; simpl; [reflexivity|].
  rewrite IH. apply andb_assoc.
Qed.

Lemma all_space_free_of_comma (w : string) :
  all_space w = true -> free_of "," w = true.
Proof.
  induction w as [|c w IH]; simpl; [reflexivity|].
  intros H. apply andb_true_iff in H as [Hc Hw]. rewrite (IH Hw), andb_true_r.
  destruct (Ascii.eqb_spec c ","); [subst c; discriminate | reflexivity].
Qed.

Lemma split_free (sep : ascii) (s : string) :
  free_of sep s = true -> split sep s = [s].
Proof.
  induction s as [|c s IH]; simpl; [reflexivity|].
  intros H. apply andb_true_iff in H as [Hc Hs].
  apply negb_true_iff in Hc. rewrite Hc, (IH Hs). reflexivity.
Qed.

Lemma split_app (sep : ascii) (a b : string) :
  free_of sep a = true ->
  split sep (a ++ String sep b) = a :: split sep b.
Proof.
  induction a as [|c a IH]; simpl.
  - intros _. rewrite Ascii.eqb_refl. reflexivity.
  - intros H. apply andb_true_iff in H as [Hc Ha].
    apply negb_true_iff in Hc. rewrite Hc, (IH Ha). reflexivity.
Qed.

Lemma product_codes_clean (row2 : option string) (code : string) :
  In code (Inventory.product_codes_of row2) ->
  code <> "" /\ strip code = code.
Proof.
  unfold Inventory.product_codes_of. intros H.
  apply in_map_iff in H as (piece & <- & Hin).
  apply filter_In in Hin as [_ Hne].
  split; [apply str_truthy_true, Hne | apply strip_idempotent].
Qed.

Lemma stocked_out_codes_field (row0 row1 : cell) (row2 : option string) :
  field "Product codes" (Inventory.stocked_out_location_data (row0, row1, row2))
  = Some (JList (map JStr (Inventory.product_codes_of row2))).
Proof. reflexivity. Qed.

(** C5: the row mapper of the stocked-out report splits the concatenated
    codes on commas, trims each piece and drops the empty ones.  "A1, B2,
    C3", with any whitespace around the three codes, maps to the list
    ["A1"; "B2"; "C3"]; and whatever the string, no code of the mapped list
    is empty or carries whitespace at its ends. *)
Theorem stocked_out_product_codes (row0 row1 : cell) :
  (forall w1 w2 w3 w4 w5 w6 : string,
     all_space w1 = true -> all_space w2 = true -> all_space w3 = true ->
     all_space w4 = true -> all_space w5 = true -> all_space w6 = true ->
     field "Product codes"
       (Inventory.stocked_out_location_data
          (row0, row1,
           Some (w1 ++ "A1" ++ w2 ++ "," ++ w3 ++ "B2" ++ w4 ++ ","
                 ++ w5 ++ "C3" ++ w6)))
     = Some (JList [JStr "A1"; JStr "B2"; JStr "C3"])) /\
  (forall codes : string,
     codes <> "" ->
     field "Product codes"
       (Inventory.stocked_out_location_data (row0, row1, Some codes))
     = Some (JList (map JStr
               (map strip
                  (filter (fun piece => str_truthy (strip piece))
                     (split "," codes)))))) /\
  (forall (row2 : option string) (items : list json),
     field "Product codes"
       (Inventory.stocked_out_location_data (row0, row1, row2))
     = Some (JList items) ->
     forall item, In item items ->
       exists code, item = JStr code /\ code <> "" /\ strip code = code).
Proof.
  split; [| split].
  - intros w1 w2 w3 w4 w5 w6 H1 H2 H3 H4 H5 H6.
    rewrite stocked_out_codes_field. do 2 f_equal.
    unfold Inventory.product_codes_of.
    assert (Hne : str_truthy (w1 ++ "A1" ++ w2 ++ "," ++ w3 ++ "B2" ++ w4
                              ++ "," ++ w5 ++ "C3" ++ w6) = true).
    { apply str_truthy_true. destruct w1; discriminate. }
    rewrite Hne.
    replace (w1 ++ "A1" ++ w2 ++ "," ++ w3 ++ "B2" ++ w4 ++ ","
             ++ w5 ++ "C3" ++ w6)
      with ((w1 ++ "A1" ++ w2) ++ String ","
              ((w3 ++ "B2" ++ w4) ++ String "," (w5 ++ "C3" ++ w6))).
    2: { rewrite !append_assoc. reflexivity. }
    rewrite split_app, split_app, split_free.
    2-4: rewrite !free_of_app,
           ?(all_space_free_of_comma _ H1), ?(all_space_free_of_comma _ H2),
           ?(all_space_free_of_comma _ H3), ?(all_space_free_of_comma _ H4),
           ?(all_space_free_of_comma _ H5), ?(all_space_free_of_comma _ H6);
         reflexivity.
    cbn [filter].
    rewrite !strip_padded by (assumption || reflexivity).
    change (rstrip_by isspace "A1") with "A1".
    change (rstrip_by isspace "B2") with "B2".
    change (rstrip_by isspace "C3") with "C3".
    cbn [str_truthy map].
    rewrite !strip_padded by (assumption || reflexivity).
    reflexivity.
  - intros codes Hne. apply str_truthy_true in Hne.
    rewrite stocked_out_codes_field.
    unfold Inventory.product_codes_of. rewrite Hne. reflexivity.
  - intros row2 items Hfield item Hin.
    rewrite stocked_out_codes_field in Hfield. injection Hfield as <-.
    apply in_map_iff in Hin as (code & <- & Hcode).
    exists code. split; [reflexivity|].
    apply (product_codes_clean row2), Hcode.
Qed.

Lemma stocked_out_product_codes_witness :
  field "Product codes"
    (Inventory.stocked_out_location_data
       (CStr "Pune", CNum (NInt 3), Some "A1, B2, C3"))
  = Some (JList [JStr "A1"; JStr "B2"; JStr "C3"]) /\
  field "Product codes"
    (Inventory.stocked_out_location_data
       (CStr "Pune", CNum (NInt 3), Some "  A1 ,B2  , C3 "))
  = Some (JList [JStr "A1"; JStr "B2"; JStr "C3"]).
Proof.
  split.
  - apply (proj1 (stocked_out_product_codes (CStr "Pune") (CNum (NInt 3)))
             "" "" " " "" " " ""); reflexivity.
  - apply (proj1 (stocked_out_product_codes (CStr "Pune") (CNum (NInt 3)))
             "  " " " "" "  " " " " "); reflexivity.
Defined.

(** ** The stock distribution summary *)

Lemma clamped_count_nonneg (c : option number) (n : Z) :
  Inventory.clamped_count c = Ok n -> 0 <= n.
Proof.
  destruct c as [x|]; simpl.
  - destruct (to_int x); simpl; [|discriminate].
    intros H. injection H as <-. apply Z.le_max_l.
  - intros H. injection H as <-. lia.
Qed.

Lemma sum_field_app (key : string) (l1 l2 : list json) :
  sum_field key (l1 ++ l2) = sum_field key l1 + sum_field key l2.
Proof.
  unfold sum_field. induction l1 as [|x l1 IH]; simpl; [reflexivity|].
  rewrite IH. lia.
Qed.

(** One iteration appends the record of the row and adds its counts to the
    running totals. *)
Lemma stock_levels_step_spec (st st' : Inventory.stock_levels_state)
    (row : Inventory.stock_levels_row) :
  Inventory.stock_levels_step st row = Ok st' ->
  exists item,
    summarises row item /\
    Inventory.stock_levels_data st' =
      (Inventory.stock_levels_data st ++ [item])%list /\
    Inventory.total_partially_stocked st' =
      Inventory.total_partially_stocked st
      + int_field "Partially Stocked" item /\
    Inventory.total_fully_stocked st' =
      Inventory.total_fully_stocked st + int_field "Fully Stocked" item /\
    Inventory.total_completely_stockout st' =
      Inventory.total_completely_stockout st + int_field "Stocked Out" item.
Proof.
  destruct row as [[[row0 row1] row2] row3].
  unfold Inventory.stock_levels_step.
  destruct (Inventory.clamped_count row1) as [p|] eqn:Hp; [|discriminate].
  destruct (Inventory.clamped_count row2) as [f|] eqn:Hf; [|discriminate].
  destruct (Inventory.clamped_count row3) as [c|] eqn:Hc; [|discriminate].
  cbn [bind]. intros H. injection H as <-.
  eexists. split; [| cbn; repeat split; reflexivity].
  unfold summarises. rewrite Hp, Hf, Hc.
  eexists _, p, f, c. repeat split; reflexivity.
Qed.

Lemma stock_levels_loop_spec (rows : list Inventory.stock_levels_row) :
  forall st st' : Inventory.stock_levels_state,
  Inventory.stock_levels_loop rows st = Ok st' ->
  exists items,
    Forall2 summarises rows items /\
    Inventory.stock_levels_data st' =
      (Inventory.stock_levels_data st ++ items)%list /\
    Inventory.total_partially_stocked st' =
      Inventory.total_partially_stocked st
      + sum_field "Partially Stocked" items /\
    Inventory.total_fully_stocked st' =
      Inventory.total_fully_stocked st + sum_field "Fully Stocked" items /\
    Inventory.total_completely_stockout st' =
      Inventory.total_completely_stockout st + sum_field "Stocked Out" items.
Proof.
  induction rows as [|row rows IH]; intros st st'; cbn [Inventory.stock_levels_loop].
  - intros H. injection H as <-. exists []. rewrite app_nil_r.
    cbn. repeat split; solve [constructor | lia].
  - destruct (Inventory.stock_levels_step st row) as [st1|] eqn:Hstep;
      [|discriminate].
    cbn [bind]. intros Hloop.
    apply stock_levels_step_spec in Hstep
      as (item & Hitem & Hdata & Hp & Hf & Hc).
    apply IH in Hloop as (items & Hitems & Hdata' & Hp' & Hf' & Hc').
    exists (item :: items). split; [constructor; assumption|].
    rewrite Hdata', Hdata, <- app_assoc, Hp', Hp, Hf', Hf, Hc', Hc.
    unfold sum_field. cbn [fold_right app]. repeat split; lia.
Qed.

(** A 200 response of the summary is the list built by the loop over the
    rows the executor returned. *)
Lemma stock_distribution_ok (db : executor Inventory.stock_levels_row) :
  let reply :=
    Inventory.stock_distribution_and_status_across_all_locations db in
  status (fst reply) = 200 ->
  exists rows st,
    db Inventory.stock_distribution_and_status_across_all_locations_stock_levels_query
      = Ok rows /\
    Inventory.stock_levels_loop rows Inventory.stock_levels_init = Ok st /\
    body (fst reply) = JList (Inventory.stock_levels_data st).
Proof.
  cbv zeta.
  unfold Inventory.stock_distribution_and_status_across_all_locations,
    try_except, bindM, execute, lift.
  destruct (db _) as [rows|msg]; [|discriminate].
  destruct rows as [|row rows]; [discriminate|].
  cbn [list_truthy negb].
  destruct (Inventory.stock_levels_loop (row :: rows) _) as [st|] eqn:Hloop;
    [|discriminate].
  unfold jsonify.
  destruct (serialisable (JList (Inventory.stock_levels_data st)));
    [|discriminate].
  intros _. exists (row :: rows), st. repeat split; assumption || reflexivity.
Qed.

(** C8: in a response of the stock distribution summary every record is
    the record of its row: a [NULL] out-of-stock count is reported as 0 and
    'Total Items' is the sum of the three counts of the record.  The grand
    totals are accumulated by the loop, and the body is the list of the
    records alone. *)
Theorem stock_distribution_totals (db : executor Inventory.stock_levels_row)
    (rows : list Inventory.stock_levels_row) :
  let reply :=
    Inventory.stock_distribution_and_status_across_all_locations db in
  db Inventory.stock_distribution_and_status_across_all_locations_stock_levels_query
    = Ok rows ->
  status (fst reply) = 200 ->
  exists st,
    Inventory.stock_levels_loop rows Inventory.stock_levels_init = Ok st /\
    body (fst reply) = JList (Inventory.stock_levels_data st) /\
    Forall2
      (fun row item =>
         exists warehouse p f c,
           item = JObj [("Warehouse Location", JStr warehouse);
                        ("Partially Stocked", JInt p);
                        ("Fully Stocked", JInt f);
                        ("Stocked Out", JInt c);
                        ("Total Items", JInt (p + f + c))] /\
           (snd row = None -> c = 0))
      rows (Inventory.stock_levels_data st) /\
    Inventory.total_partially_stocked st =
      sum_field "Partially Stocked" (Inventory.stock_levels_data st) /\
    Inventory.total_fully_stocked st =
      sum_field "Fully Stocked" (Inventory.stock_levels_data st) /\
    Inventory.total_completely_stockout st =
      sum_field "Stocked Out" (Inventory.stock_levels_data st).
Proof.
  intros reply Hdb H200.
  destruct (stock_distribution_ok db H200) as (rows' & st & Hdb' & Hloop & Hbody).
  rewrite Hdb in Hdb'. injection Hdb' as <-.
  exists st. split; [exact Hloop|]. split; [exact Hbody|].
  apply stock_levels_loop_spec in Hloop as (items & Hitems & Hdata & Hp & Hf & Hc).
  cbn in Hdata, Hp, Hf, Hc. subst items. repeat split; try assumption.
  eapply Forall2_impl; [|exact Hitems].
  intros [[[row0 row1] row2] row3] item (w & p & f & c & -> & _ & _ & Hc3).
  exists w, p, f, c. split; [reflexivity|].
  cbn. intros ->. cbn in Hc3. now injection Hc3.
Qed.

Lemma stock_distribution_totals_witness :
  exists st,
    Inventory.stock_levels_loop
      [(Some "Pune", Some (NInt 3), Some (NInt 2), None);
       (None, Some (NInt 1), None, Some (NInt 4))]
      Inventory.stock_levels_init = Ok st /\
    body (fst (Inventory.stock_distribution_and_status_across_all_locations
                 (fun _ => Ok [(Some "Pune", Some (NInt 3), Some (NInt 2), None);
                               (None, Some (NInt 1), None, Some (NInt 4))])))
      = JList (Inventory.stock_levels_data st) /\
    Forall2
      (fun row item =>
         exists warehouse p f c,
           item = JObj [("Warehouse Location", JStr warehouse);
                        ("Partially Stocked", JInt p);
                        ("Fully Stocked", JInt f);
                        ("Stocked Out", JInt c);
                        ("Total Items", JInt (p + f + c))] /\
           (snd row = None -> c = 0))
      [(Some "Pune", Some (NInt 3), Some (NInt 2), None);
       (None, Some (NInt 1), None, Some (NInt 4))]
      (Inventory.stock_levels_data st) /\
    Inventory.total_partially_stocked st =
      sum_field "Partially Stocked" (Inventory.stock_levels_data st) /\
    Inventory.total_fully_stocked st =
      sum_field "Fully Stocked" (Inventory.stock_levels_data st) /\
    Inventory.total_completely_stockout st =
      sum_field "Stocked Out" (Inventory.stock_levels_data st).
Proof.
  apply (stock_distribution_totals
           (fun _ => Ok [(Some "Pune", Some (NInt 3), Some (NInt 2), None);
                         (None, Some (NInt 1), None, Some (NInt 4))])
           [(Some "Pune", Some (NInt 3), Some (NInt 2), None);
            (None, Some (NInt 1), None, Some (NInt 4))]); reflexivity.
Defined.

Lemma summarises_nonnegative (rows : list Inventory.stock_levels_row)
    (items : list json) :
  Forall2 summarises rows items ->
  Forall
    (fun item =>
       exists warehouse p f c,
         item = summary_record warehouse p f c /\
         0 <= p /\ 0 <= f /\ 0 <= c /\ 0 <= p + f + c)
    items.
Proof.
  induction 1 as [|row item rows items Hitem _ IH]; constructor; [|exact IH].
  destruct row as [[[row0 row1] row2] row3].
  destruct Hitem as (w & p & f & c & -> & Hp & Hf & Hc).
  apply clamped_count_nonneg in Hp, Hf, Hc.
  exists w, p, f, c. repeat split; try assumption; lia.
Qed.

(** C9: in every record of a response of the stock distribution summary
    the three counts are at least 0, whatever the rows hold, and so is
    'Total Items'. *)
Theorem stock_distribution_counts_nonnegative
    (db : executor Inventory.stock_levels_row) :
  let reply :=
    Inventory.stock_distribution_and_status_across_all_locations db in
  status (fst reply) = 200 ->
  exists items,
    body (fst reply) = JList items /\
    Forall
      (fun item =>
         exists warehouse p f c,
           item = JObj [("Warehouse Location", JStr warehouse);
                        ("Partially Stocked", JInt p);
                        ("Fully Stocked", JInt f);
                        ("Stocked Out", JInt c);
                        ("Total Items", JInt (p + f + c))] /\
           0 <= p /\ 0 <= f /\ 0 <= c /\ 0 <= p + f + c)
      items.
Proof.
  intros reply H200.
  destruct (stock_distribution_ok db H200) as (rows & st & _ & Hloop & Hbody).
  exists (Inventory.stock_levels_data st). split; [exact Hbody|].
  apply stock_levels_loop_spec in Hloop as (items & Hitems & Hdata & _).
  cbn in Hdata. rewrite Hdata.
  exact (summarises_nonnegative rows items Hitems).
Qed.

Lemma stock_distribution_counts_nonnegative_witness :
  exists items,
    body (fst (Inventory.stock_distribution_and_status_across_all_locations
                 (fun _ => Ok [(Some "Pune", Some (NInt (-4)),
                                Some (NFloat (S754_finite true 5 (-1))),
                                None)])))
      = JList items /\
    Forall
      (fun item =>
         exists warehouse p f c,
           item = JObj [("Warehouse Location", JStr warehouse);
                        ("Partially Stocked", JInt p);
                        ("Fully Stocked", JInt f);
                        ("Stocked Out", JInt c);
                        ("Total Items", JInt (p + f + c))] /\
           0 <= p /\ 0 <= f /\ 0 <= c /\ 0 <= p + f + c)
      items.
Proof.
  apply (stock_distribution_counts_nonnegative
           (fun _ => Ok [(Some "Pune", Some (NInt (-4)),
                          Some (NFloat (S754_finite true 5 (-1))), None)])).
  reflexivity.
Defined.

(** ** Conversions between integers and doubles *)

Lemma digits2_pos_iter (m : positive) (k : positive) :
  digits2_pos (Pos.iter xO m k) = (digits2_pos m + k)%positive.
Proof.
  revert m. induction k using Pos.peano_ind; intros m.
  - simpl. lia.
  - rewrite Pos.iter_succ. simpl. rewrite IHk. lia.
Qed.

Lemma shiftr_iter (m : positive) (k : positive) :
  Z.shiftr (Zpos (Pos.iter xO m k)) (Zpos k) = Zpos m.
Proof.
  rewrite Z.shiftr_div_pow2 by lia.
  assert (H : Zpos (Pos.iter xO m k) = Zpos m * 2 ^ Zpos k).
  { clear. revert m. induction k using Pos.peano_ind; intros m.
    - simpl. lia.
    - rewrite Pos.iter_succ, Pos2Z.inj_succ, Z.pow_succ_r by lia.
      rewrite Pos2Z.inj_xO, IHk. lia. }
  rewrite H. apply Z.div_mul. apply Z.pow_nonzero; lia.
Qed.

Lemma digits2_pos_bound (m : positive) :
  Zpos m < 2 ^ 53 -> Zpos (digits2_pos m) <= 53.
Proof.
  intros H.
  assert (Hd : forall p, 2 ^ (Zpos (digits2_pos p) - 1) <= Zpos p).
  { clear. induction p; simpl digits2_pos.
    - rewrite Pos2Z.inj_succ. replace (Z.succ (Zpos (digits2_pos p)) - 1) with (Z.succ (Zpos (digits2_pos p) - 1)) by lia.
      rewrite Z.pow_succ_r by lia. lia.
    - rewrite Pos2Z.inj_succ. replace (Z.succ (Zpos (digits2_pos p)) - 1) with (Z.succ (Zpos (digits2_pos p) - 1)) by lia.
      rewrite Z.pow_succ_r by lia. lia.
    - simpl. lia. }
  specialize (Hd m).
  destruct (Z_le_gt_dec (Zpos (digits2_pos m)) 53) as [|Hgt]; [assumption|].
  exfalso.
  assert (2 ^ 53 <= 2 ^ (Zpos (digits2_pos m) - 1)) by (apply Z.pow_le_mono_r; lia).
  lia.
Qed.

Lemma binary_round_aux_exact (s : bool) (mz : positive) (ez : Z) :
  Zpos (digits2_pos mz) = 53 -> -1074 <= ez <= 971 ->
  binary_round_aux prec emax s (Zpos mz) ez loc_Exact = S754_finite s mz ez.
Proof.
  intros Hd He.
  assert (Hz : fexp prec emax (Zpos (digits2_pos mz) + ez) - ez = 0).
  { rewrite Hd. unfold fexp, emin, prec, emax. lia. }
  unfold binary_round_aux, shr_fexp.
  cbn [Zdigits2 shr_record_of_loc]. rewrite Hz.
  cbn [shr shr_m loc_of_shr_record round_nearest_even Zdigits2].
  rewrite Hz. cbn [shr shr_m].
  replace (ez <=? emax - prec) with true; [reflexivity|].
  symmetry. apply Z.leb_le. unfold emax, prec. lia.
Qed.

Lemma binary_round_small (s : bool) (m : positive) :
  Zpos m < 2 ^ 53 ->
  exists m' e', binary_round prec emax s m 0 = S754_finite s m' e' /\
    int_of_float (S754_finite s m' e') = Ok (if s then - Zpos m else Zpos m).
Proof.
  intros Hm. pose proof (digits2_pos_bound m Hm) as Hd.
  unfold binary_round.
  assert (Hfexp : fexp prec emax (Zpos (digits2_pos m) + 0)
                  = Zpos (digits2_pos m) - 53).
  { unfold fexp, emin, prec, emax. lia. }
  rewrite Hfexp. unfold shl_align.
  destruct (Zpos (digits2_pos m) - 53 - 0) as [|k|k] eqn:Hk; try lia.
  - exists m, 0. rewrite binary_round_aux_exact by lia.
    split; [reflexivity|]. destruct s; reflexivity.
  - exists (Pos.iter xO m k), (Zpos (digits2_pos m) - 53).
    rewrite binary_round_aux_exact.
    + split; [reflexivity|]. cbn [int_of_float].
      replace (Zpos (digits2_pos m) - 53) with (Zneg k) by lia.
      rewrite shiftr_iter. reflexivity.
    + rewrite digits2_pos_iter. lia.
    + lia.
Qed.

Lemma float_of_int_exact (z : Z) :
  Z.abs z <= 2 ^ 53 ->
  exists f, float_of_int z = Ok f /\ int_of_float f = Ok z.
Proof.
  intros Hz. unfold float_of_int, round_int, binary_normalize.
  destruct (Z.eq_dec (Z.abs z) (2 ^ 53)) as [Htop|Hsmall].
  - destruct z as [|m|m]; [discriminate| |]; cbn in Htop;
      injection Htop as ->; eexists; split; reflexivity.
  - destruct z as [|m|m].
    + eexists; split; reflexivity.
    + destruct (binary_round_small false m) as (m' & e' & -> & Hback);
        [cbn in Hz, Hsmall; lia|].
      eexists; split; [reflexivity | exact Hback].
    + destruct (binary_round_small true m) as (m' & e' & -> & Hback);
        [cbn in Hz, Hsmall; lia|].
      eexists; split; [reflexivity | exact Hback].
Qed.

Lemma int_of_float_truncation (f : float) :
  is_finite f = true -> int_of_float f = Ok (truncation (NFloat f)).
Proof.
  destruct f as [s|s| |s m e]; try discriminate; intros _; [reflexivity|].
  cbn [int_of_float truncation]. unfold magnitude. f_equal.
  destruct e as [|k|k].
  - rewrite Z.shiftl_0_r. cbn [Z.pow]. rewrite Z.mul_1_r.
    destruct s; rewrite Z.quot_1_r; reflexivity.
  - rewrite Z.shiftl_mul_pow2 by lia.
    destruct s; rewrite Z.quot_1_r; reflexivity.
  - rewrite Z.shiftr_div_pow2 by lia.
    assert (Hpow : 0 < 2 ^ Zpos k) by (apply Z.pow_pos_nonneg; lia).
    destruct s.
    + rewrite Z.quot_opp_l by lia. rewrite Z.quot_div_nonneg by lia.
      reflexivity.
    + rewrite Z.quot_div_nonneg by lia. reflexivity.
Qed.

(** ** The rate columns of the sales reports *)

Lemma abs_int_float_exact (c : option number) :
  exact_column c -> exists shown, Sales.abs_int_float c = Ok shown.
Proof.
  destruct c as [[z|f]|]; cbn [exact_column exact_in_double Sales.abs_int_float].
  - intros Hz. cbn [truthy].
    destruct (Z.eqb_spec z 0) as [->|Hnz]; cbn [negb].
    + eexists; reflexivity.
    + destruct (float_of_int_exact z Hz) as (f & Hf & Hback).
      cbn [to_float]. rewrite Hf. cbn [bind]. rewrite Hback. cbn [bind].
      eexists; reflexivity.
  - intros Hfin. cbn [truthy to_float bind].
    destruct (is_zero f) eqn:Hzero; cbn [negb].
    + eexists; reflexivity.
    + rewrite (int_of_float_truncation f Hfin). cbn [bind].
      eexists; reflexivity.
  - intros _. eexists; reflexivity.
Qed.

Lemma magnitude_positive (m : positive) (e : Z) :
  0 < fst (magnitude m e) /\ 0 < snd (magnitude m e).
Proof.
  unfold magnitude. destruct e as [|k|k]; cbn [fst snd]; split; lia.
Qed.

(** Rounding keeps the sign. *)
Lemma binary_round_aux_sign (s : bool) (mx ex : Z) (lx : location) :
  match binary_round_aux prec emax s mx ex lx with
  | S754_finite s' _ _ => s' = s
  | _ => True
  end.
Proof.
  unfold binary_round_aux.
  destruct (shr_fexp prec emax mx ex lx) as [mrs' e'].
  destruct (shr_fexp prec emax _ e' loc_Exact) as [mrs'' e''].
  destruct (shr_m mrs''); [exact I | | exact I].
  destruct (e'' <=? emax - prec); [reflexivity | exact I].
Qed.

Lemma truncation_sign (s : bool) (m : positive) (e : Z) :
  if s then truncation (NFloat (S754_finite s m e)) <= 0
  else 0 <= truncation (NFloat (S754_finite s m e)).
Proof.
  cbn [truncation]. pose proof (magnitude_positive m e) as [Hn Hd].
  destruct (magnitude m e) as [num den]. cbn [fst snd] in Hn, Hd.
  destruct s.
  - rewrite Z.quot_opp_l by lia.
    pose proof (Z.quot_pos num den). lia.
  - apply Z.quot_pos; lia.
Qed.

Lemma binary_round_sign (s : bool) (m : positive) :
  if s then truncation (NFloat (binary_round prec emax s m 0)) <= 0
  else 0 <= truncation (NFloat (binary_round prec emax s m 0)).
Proof.
  unfold binary_round. destruct (shl_align m 0 _) as [mz ez].
  pose proof (binary_round_aux_sign s (Zpos mz) ez loc_Exact) as Hs.
  destruct (binary_round_aux prec emax s (Zpos mz) ez loc_Exact)
    as [s'|s'| |s' m' e'].
  - destruct s; cbn [truncation]; lia.
  - destruct s; cbn [truncation]; lia.
  - destruct s; cbn [truncation]; lia.
  - subst s'. exact (truncation_sign s m' e').
Qed.

Lemma round_int_sign (z : Z) :
  (0 <= z -> 0 <= truncation (NFloat (round_int z))) /\
  (z <= 0 -> truncation (NFloat (round_int z)) <= 0).
Proof.
  unfold round_int, binary_normalize.
  destruct z as [|m|m]; split; intros Hz; try lia; try reflexivity.
  - exact (binary_round_sign false m).
  - exact (binary_round_sign true m).
Qed.

(** An integer is converted without loss when it and its double have the
    same magnitude. *)
Lemma lossless_magnitude (z : Z) :
  is_finite (round_int z) = true ->
  Z.abs (truncation (NFloat (round_int z))) = Z.abs z <-> lossless (NInt z).
Proof.
  intros Hfin. unfold lossless. cbn [as_double].
  change (truncation (NInt z)) with z.
  destruct (round_int_sign z) as [Hpos Hneg].
  split.
  - intros Habs. split; [exact Hfin | lia].
  - intros [_ ->]. reflexivity.
Qed.

Lemma lossless_zero : lossless (NInt 0).
Proof. split; reflexivity. Qed.

Lemma lossless_float (f : float) : is_finite f = true -> lossless (NFloat f).
Proof. intros H. split; [exact H | reflexivity]. Qed.

Lemma lossless_small (z : Z) : Z.abs z <= 2 ^ 53 -> lossless (NInt z).
Proof.
  intros Hz. destruct (float_of_int_exact z Hz) as (f & Hf & Hback).
  unfold float_of_int in Hf.
  destruct (is_finite (round_int z)) eqn:Hfin; [|discriminate].
  injection Hf as <-.
  rewrite (int_of_float_truncation _ Hfin) in Hback. injection Hback as Ht.
  split; [exact Hfin | exact Ht].
Qed.

(** What [abs_int_float] shows when it returns, and when it returns. *)
Lemma abs_int_float_shown (c : option number) (shown : json) :
  Sales.abs_int_float c = Ok shown ->
  rate_in_range c /\ magnitude_field c shown.
Proof.
  destruct c as [[z|f]|];
    cbn [Sales.abs_int_float rate_in_range magnitude_field as_double truthy].
  - destruct (Z.eqb_spec z 0) as [->|Hnz]; cbn [negb].
    + intros H. injection H as <-. split; [reflexivity|].
      split; [reflexivity|]. split; [intros _; exact lossless_zero|reflexivity].
    + cbn [to_float]. unfold float_of_int.
      destruct (is_finite (round_int z)) eqn:Hfin; [|discriminate].
      cbn [bind]. rewrite (int_of_float_truncation _ Hfin). cbn [bind].
      intros H. injection H as <-. split; [reflexivity|].
      cbn [integer_value]. split; [reflexivity|].
      rewrite <- (lossless_magnitude z Hfin). cbn [truncation].
      split; [intros H; now injection H | intros ->; reflexivity].
  - destruct (is_zero f) eqn:Hzero; cbn [negb].
    + destruct f; try discriminate.
      intros H. injection H as <-. split; [reflexivity|].
      split; [reflexivity|].
      split; [intros _; now apply lossless_float | reflexivity].
    + cbn [to_float bind].
      destruct (is_finite f) eqn:Hfin.
      * rewrite (int_of_float_truncation f Hfin). cbn [bind].
        intros H. injection H as <-. split; [reflexivity|].
        split; [reflexivity|].
        split; [intros _; now apply lossless_float | reflexivity].
      * destruct f; discriminate.
  - intros H. injection H as <-. split; [exact I | reflexivity].
Qed.

Lemma abs_int_float_in_range (c : option number) :
  rate_in_range c -> exists shown, Sales.abs_int_float c = Ok shown.
Proof.
  destruct c as [[z|f]|];
    cbn [Sales.abs_int_float rate_in_range as_double truthy]; intros Hfin.
  - destruct (z =? 0); cbn [negb]; [eexists; reflexivity|].
    cbn [to_float]. unfold float_of_int. rewrite Hfin. cbn [bind].
    rewrite (int_of_float_truncation _ Hfin). eexists; reflexivity.
  - destruct (is_zero f); cbn [negb]; [eexists; reflexivity|].
    cbn [to_float bind]. rewrite (int_of_float_truncation _ Hfin).
    eexists; reflexivity.
  - eexists; reflexivity.
Qed.

(** A rate of [2^53 + 1] is shown as [2^53]: the conversion to a double
    drops the last bit before the value is truncated. *)
Lemma projected_demand_of_large_integer :
  exists shown,
    Sales.projected_demand
      (CStr "P1", Some (NInt 9007199254740993), None, None)
    = Ok (JObj [("Product Code", JStr "P1");
                ("Current Month Sales Rate", shown);
                ("Current Month Forecast Rate", JFloat fzero);
                ("Next Month Forecast Rate", JFloat fzero)]) /\
    integer_value shown = Some 9007199254740992 /\
    integer_value shown
      <> Some (Z.abs (truncation (NInt 9007199254740993))).
Proof.
  exists (JInt 9007199254740992).
  split; [vm_compute; reflexivity | split; [reflexivity | discriminate]].
Qed.

(** Integers beyond [2^53] that a double represents are converted without
    loss; their odd neighbours are not. *)
Example lossless_samples :
  lossless (NInt (2 ^ 60)) /\ lossless (NInt (2 ^ 53 + 2)) /\
  lossless (NInt (- 2 ^ 1000)) /\
  ~ lossless (NInt (2 ^ 53 + 1)) /\ ~ lossless (NInt (2 ^ 1024)).
Proof.
  repeat split; try (vm_compute; reflexivity);
    intros [Hfin Hsame]; vm_compute in Hfin, Hsame; discriminate.
Qed.

(** C6 (amended): the top-products report maps a row to a record, without
    an error, exactly when each rate column is [NULL] or within the range
    of a double.  In the record a [NULL] rate is shown as [0.0], and any
    other rate as the magnitude of the integer part of its double: this is
    the magnitude of the integer part of the rate itself exactly when
    [float] converts the rate without loss, as it does every finite float
    and every integer up to [2^53] in magnitude. *)
Theorem projected_demand_rates (row0 : cell) (row1 row2 row3 : option number) :
  ((exists item, Sales.projected_demand (row0, row1, row2, row3) = Ok item)
   <-> rate_in_range row1 /\ rate_in_range row2 /\ rate_in_range row3) /\
  (forall item,
     Sales.projected_demand (row0, row1, row2, row3) = Ok item ->
     exists sales forecast next,
       item = JObj [("Product Code", json_of_cell row0);
                    ("Current Month Sales Rate", sales);
                    ("Current Month Forecast Rate", forecast);
                    ("Next Month Forecast Rate", next)] /\
       magnitude_field row1 sales /\
       magnitude_field row2 forecast /\
       magnitude_field row3 next) /\
  (forall f, is_finite f = true -> lossless (NFloat f)) /\
  (forall z, Z.abs z <= 2 ^ 53 -> lossless (NInt z)).
Proof.
  assert (Hshown : forall item,
    Sales.projected_demand (row0, row1, row2, row3) = Ok item ->
    (rate_in_range row1 /\ rate_in_range row2 /\ rate_in_range row3) /\
    exists sales forecast next,
      item = JObj [("Product Code", json_of_cell row0);
                   ("Current Month Sales Rate", sales);
                   ("Current Month Forecast Rate", forecast);
                   ("Next Month Forecast Rate", next)] /\
      magnitude_field row1 sales /\
      magnitude_field row2 forecast /\
      magnitude_field row3 next).
  { intros item. unfold Sales.projected_demand.
    destruct (Sales.abs_int_float row1) as [sales|] eqn:E1; [|discriminate].
    destruct (Sales.abs_int_float row2) as [forecast|] eqn:E2; [|discriminate].
    destruct (Sales.abs_int_float row3) as [next|] eqn:E3; [|discriminate].
    cbn [bind]. intros H. injection H as <-.
    apply abs_int_float_shown in E1 as [R1 F1], E2 as [R2 F2], E3 as [R3 F3].
    split; [auto|]. exists sales, forecast, next. auto. }
  split; [split|split; [|split]].
  - intros [item Hitem]. exact (proj1 (Hshown item Hitem)).
  - intros (R1 & R2 & R3).
    destruct (abs_int_float_in_range row1 R1) as (sales & E1).
    destruct (abs_int_float_in_range row2 R2) as (forecast & E2).
    destruct (abs_int_float_in_range row3 R3) as (next & E3).
    unfold Sales.projected_demand. rewrite E1, E2, E3.
    eexists. reflexivity.
  - intros item Hitem. exact (proj2 (Hshown item Hitem)).
  - exact lossless_float.
  - exact lossless_small.
Qed.

Lemma projected_demand_rates_witness :
  exists sales forecast next,
    Sales.projected_demand
      (CStr "P1", None, Some (NInt 9007199254740993), Some (NInt 5))
    = Ok (JObj [("Product Code", JStr "P1");
                ("Current Month Sales Rate", sales);
                ("Current Month Forecast Rate", forecast);
                ("Next Month Forecast Rate", next)]) /\
    sales = JFloat fzero /\
    integer_value forecast = Some 9007199254740992 /\
    integer_value next = Some 5 /\
    lossless (NInt 5).
Proof.
  destruct (projected_demand_rates (CStr "P1") None
              (Some (NInt 9007199254740993)) (Some (NInt 5)))
    as (Hreturns & Hshown & _ & Hsmall).
  destruct (proj2 Hreturns) as (item & Hitem).
  { repeat split. }
  destruct (Hshown item Hitem)
    as (sales & forecast & next & Hrecord & F1 & (F2 & _) & (F3 & _)).
  exists sales, forecast, next.
  split; [rewrite Hitem, Hrecord; reflexivity|].
  split; [exact F1|]. split; [exact F2|].
  split; [exact F3|]. apply Hsmall. vm_compute. discriminate.
Defined.

Lemma zero_or_null_truthy (n : number) :
  zero_or_null (Some n) = negb (truthy n).
Proof. destruct n; cbn; now rewrite negb_involutive. Qed.

Lemma zero_or_null_falsy (n : number) :
  zero_or_null (Some n) = true -> truthy n = false.
Proof. rewrite zero_or_null_truthy. apply negb_true_iff. Qed.

Lemma abs_int_float_reported (c : option number) (shown : json) :
  Sales.abs_int_float c = Ok shown ->
  if zero_or_null c then shown = JFloat fzero else exists z, shown = JInt z.
Proof.
  destruct c as [n|]; [rewrite zero_or_null_truthy|];
    cbn [Sales.abs_int_float zero_or_null].
  - destruct (truthy n); cbn [negb].
    + destruct (to_float n) as [f|]; [|discriminate]. cbn [bind].
      destruct (int_of_float f) as [i|]; [|discriminate]. cbn [bind].
      intros H. injection H as <-. eexists; reflexivity.
    + intros H. injection H as <-. reflexivity.
  - intros H. injection H as <-. reflexivity.
Qed.

Lemma abs_int_reported (c : option number) (shown : json) :
  Sales.abs_int c = Ok shown ->
  if zero_or_null c then shown = JFloat fzero else exists z, shown = JInt z.
Proof.
  destruct c as [n|]; [rewrite zero_or_null_truthy|];
    cbn [Sales.abs_int zero_or_null].
  - destruct (truthy n); cbn [negb].
    + destruct (to_int n) as [i|]; [|discriminate]. cbn [bind].
      intros H. injection H as <-. eexists; reflexivity.
    + intros H. injection H as <-. reflexivity.
  - intros H. injection H as <-. reflexivity.
Qed.

Lemma abs_int_float_alike (c c' : option number) :
  alike c c' -> Sales.abs_int_float c = Sales.abs_int_float c'.
Proof.
  intros [->|[H H']]; [reflexivity|].
  destruct c as [n|], c' as [n'|];
    try apply zero_or_null_falsy in H; try apply zero_or_null_falsy in H';
    cbn; rewrite ?H, ?H'; reflexivity.
Qed.

Lemma abs_int_alike (c c' : option number) :
  alike c c' -> Sales.abs_int c = Sales.abs_int c'.
Proof.
  intros [->|[H H']]; [reflexivity|].
  destruct c as [n|], c' as [n'|];
    try apply zero_or_null_falsy in H; try apply zero_or_null_falsy in H';
    cbn; rewrite ?H, ?H'; reflexivity.
Qed.

Lemma abs_int_exact (c : option number) :
  exact_column c -> exists shown, Sales.abs_int c = Ok shown.
Proof.
  destruct c as [[z|f]|]; cbn [exact_column exact_in_double Sales.abs_int].
  - intros _. destruct (truthy (NInt z)); eexists; reflexivity.
  - intros Hfin. destruct (truthy (NFloat f)); [|eexists; reflexivity].
    cbn [to_int]. rewrite (int_of_float_truncation f Hfin).
    eexists; reflexivity.
  - intros _. eexists; reflexivity.
Qed.

Ltac reported_fields :=
  repeat match goal with
  | H : context [Sales.abs_int_float ?c] |- _ =>
      let shown := fresh "shown" in
      let E := fresh "E" in
      destruct (Sales.abs_int_float c) as [shown|] eqn:E;
      [apply abs_int_float_reported in E | discriminate]
  | H : context [Sales.abs_int ?c] |- _ =>
      let shown := fresh "shown" in
      let E := fresh "E" in
      destruct (Sales.abs_int c) as [shown|] eqn:E;
      [apply abs_int_reported in E | discriminate]
  end;
  cbn [bind] in *;
  match goal with
  | H : Ok _ = Ok _ |- _ => injection H as <-
  end;
  unfold reported; repeat split;
  match goal with
  | E : (if zero_or_null ?c then _ else _)
    |- (if zero_or_null ?c then _ else _) =>
      destruct (zero_or_null c);
      [rewrite E; reflexivity
      | let z := fresh "z" in destruct E as [z ->]; exists z; reflexivity]
  end.

(** C10: each of the five sales row mappers shows a metric that is exactly
    zero as the float [0.0], as it shows a [NULL] one, and shows an [int]
    for every other value; rows that differ only by zeros in place of
    [NULL]s are mapped to the same record; and the mappers do return a
    record for the values a double represents exactly. *)
Theorem zero_shown_as_null_in_sales_reports :
  (forall row0 row1 row2 row3 item,
     Sales.projected_demand (row0, row1, row2, row3) = Ok item ->
     reported item "Current Month Sales Rate" row1 /\
     reported item "Current Month Forecast Rate" row2 /\
     reported item "Next Month Forecast Rate" row3) /\
  (forall row0 row1 row2 row3 item,
     Sales.oversold (row0, row1, row2, row3) = Ok item ->
     reported item "Total Forecast per day" row2 /\
     reported item "Total Sales per day" row1 /\
     reported item "Oversold per day" row3) /\
  (forall row0 row1 row2 row3 item,
     Sales.undersold (row0, row1, row2, row3) = Ok item ->
     reported item "Total Forecast per day" row2 /\
     reported item "Total Sales per day" row1 /\
     reported item "Undersold per day" row3) /\
  (forall row0 row1 item,
     Sales.sales_rate (row0, row1) = Ok item ->
     reported item "Sales rate per day" row1) /\
  (forall row0 row1 row2 row3 row4 item,
     Sales.forecast_vs_actual (row0, row1, row2, row3, row4) = Ok item ->
     reported item "Average Forecast Rate" row2 /\
     reported item "Average Sales Rate" row3 /\
     reported item "Average Forecast Error" row4) /\
  (forall row0 row1 row2 row3 row1' row2' row3',
     alike row1 row1' -> alike row2 row2' -> alike row3 row3' ->
     Sales.projected_demand (row0, row1, row2, row3)
       = Sales.projected_demand (row0, row1', row2', row3') /\
     Sales.oversold (row0, row1, row2, row3)
       = Sales.oversold (row0, row1', row2', row3') /\
     Sales.undersold (row0, row1, row2, row3)
       = Sales.undersold (row0, row1', row2', row3') /\
     Sales.sales_rate (row0, row1) = Sales.sales_rate (row0, row1') /\
     forall location,
       Sales.forecast_vs_actual (location, row0, row1, row2, row3)
       = Sales.forecast_vs_actual (location, row0, row1', row2', row3')) /\
  (forall row0 row1 row2 row3,
     exact_column row1 -> exact_column row2 -> exact_column row3 ->
     (exists item, Sales.projected_demand (row0, row1, row2, row3) = Ok item) /\
     (exists item, Sales.oversold (row0, row1, row2, row3) = Ok item) /\
     (exists item, Sales.undersold (row0, row1, row2, row3) = Ok item) /\
     (exists item, Sales.sales_rate (row0, row1) = Ok item) /\
     (forall location, exists item,
        Sales.forecast_vs_actual (location, row0, row1, row2, row3)
        = Ok item)).
Proof.
  repeat match goal with |- _ /\ _ => split end.
  - intros row0 row1 row2 row3 item H.
    unfold Sales.projected_demand in H. cbn [bind] in H. reported_fields.
  - intros row0 row1 row2 row3 item H.
    unfold Sales.oversold in H. cbn [bind] in H. reported_fields.
  - intros row0 row1 row2 row3 item H.
    unfold Sales.undersold in H. cbn [bind] in H. reported_fields.
  - intros row0 row1 item H.
    unfold Sales.sales_rate in H. cbn [bind] in H. reported_fields.
  - intros row0 row1 row2 row3 row4 item H.
    unfold Sales.forecast_vs_actual in H. cbn [bind] in H. reported_fields.
  - intros row0 row1 row2 row3 row1' row2' row3' H1 H2 H3.
    unfold Sales.projected_demand, Sales.oversold, Sales.undersold,
      Sales.sales_rate, Sales.forecast_vs_actual.
    rewrite (abs_int_float_alike _ _ H1), (abs_int_float_alike _ _ H2),
      (abs_int_float_alike _ _ H3), (abs_int_alike _ _ H1).
    repeat split.
  - intros row0 row1 row2 row3 H1 H2 H3.
    destruct (abs_int_float_exact row1 H1) as (s1 & E1).
    destruct (abs_int_float_exact row2 H2) as (s2 & E2).
    destruct (abs_int_float_exact row3 H3) as (s3 & E3).
    destruct (abs_int_exact row1 H1) as (s4 & E4).
    unfold Sales.projected_demand, Sales.oversold, Sales.undersold,
      Sales.sales_rate, Sales.forecast_vs_actual.
    rewrite E1, E2, E3, E4. cbn [bind].
    repeat split; try intros location; eexists; reflexivity.
Qed.

Lemma zero_shown_as_null_in_sales_reports_witness :
  (reported
     (JObj [("Product Code", JStr "P1");
            ("Current Month Sales Rate", JFloat fzero);
            ("Current Month Forecast Rate", JFloat fzero);
            ("Next Month Forecast Rate", JInt 4)])
     "Current Month Sales Rate" (Some (NInt 0)) /\
   reported
     (JObj [("Product Code", JStr "P1");
            ("Current Month Sales Rate", JFloat fzero);
            ("Current Month Forecast Rate", JFloat fzero);
            ("Next Month Forecast Rate", JInt 4)])
     "Current Month Forecast Rate" None /\
   reported
     (JObj [("Product Code", JStr "P1");
            ("Current Month Sales Rate", JFloat fzero);
            ("Current Month Forecast Rate", JFloat fzero);
            ("Next Month Forecast Rate", JInt 4)])
     "Next Month Forecast Rate" (Some (NFloat (S754_finite true 9 (-1))))) /\
  Sales.projected_demand
    (CStr "P1", Some (NInt 0), None, Some (NFloat (S754_finite true 9 (-1))))
  = Sales.projected_demand
      (CStr "P1", None, Some (NFloat (S754_zero true)),
       Some (NFloat (S754_finite true 9 (-1)))).
Proof.
  split.
  - apply (proj1 zero_shown_as_null_in_sales_reports
             (CStr "P1") (Some (NInt 0)) None
             (Some (NFloat (S754_finite true 9 (-1))))).
    reflexivity.
  - apply (proj1 (proj2 (proj2 (proj2 (proj2 (proj2
             zero_shown_as_null_in_sales_reports)))))
             (CStr "P1") (Some (NInt 0)) None
             (Some (NFloat (S754_finite true 9 (-1))))
             None (Some (NFloat (S754_zero true)))
             (Some (NFloat (S754_finite true 9 (-1))))).
    + right. split; reflexivity.
    + right. split; reflexivity.
    + left. reflexivity.
Defined.

(** ** The variance percentage *)

(** A current stock of 150 against an ideal stock of 100 is shown as
    "50.0%". *)
Example variancy_150_100 :
  exists item,
    Inventory.variance_item
      (CStr "Pune", CStr "P1", CStr "Tools", CNum (NInt 50),
       Some (NInt 150), Some (NInt 100)) = Ok item /\
    field "Variancy" item = Some (JStr "50.0%").
Proof. eexists. split; vm_compute; reflexivity. Qed.

(** With a positive ideal stock the field is the percentage rounded to one
    decimal, formatted, and followed by "%". *)
Lemma variancy_with_positive_ideal_stock (row0 row1 row2 row3 : cell)
    (current ideal difference ratio percentage : number) :
  gt_zero ideal = true ->
  sub current ideal = Ok difference ->
  truediv difference ideal = Ok ratio ->
  mul ratio (NInt 100) = Ok percentage ->
  exists item,
    Inventory.variance_item
      (row0, row1, row2, row3, Some current, Some ideal) = Ok item /\
    field "Variancy" item
      = Some (JStr (format (round_1 percentage) ++ "%")).
Proof.
  intros Hpos Hsub Hdiv Hmul.
  unfold Inventory.variance_item, Inventory.variance_percentage.
  rewrite Hpos, Hsub. cbn [bind]. rewrite Hdiv. cbn [bind]. rewrite Hmul.
  eexists. split; reflexivity.
Qed.

(** C2, at an ideal stock that is not positive: the 'Variancy' field is
    the string "0%", and not the one-decimal "0.0%". *)
Theorem variancy_without_positive_ideal_stock (row0 row1 row2 row3 : cell)
    (current : option number) (ideal : number) :
  gt_zero ideal = false ->
  exists item,
    Inventory.variance_item
      (row0, row1, row2, row3, current, Some ideal) = Ok item /\
    field "Variancy" item = Some (JStr "0%") /\
    field "Variancy" item <> Some (JStr "0.0%").
Proof.
  intros Hnot.
  unfold Inventory.variance_item, Inventory.variance_percentage.
  rewrite Hnot. eexists. split; [reflexivity|].
  split; [reflexivity | discriminate].
Qed.

Lemma variancy_without_positive_ideal_stock_witness :
  exists item,
    Inventory.variance_item
      (CStr "Pune", CStr "P1", CStr "Tools", CNum (NInt 150),
       Some (NInt 150), Some (NInt 0)) = Ok item /\
    field "Variancy" item = Some (JStr "0%") /\
    field "Variancy" item <> Some (JStr "0.0%").
Proof.
  apply (variancy_without_positive_ideal_stock
           (CStr "Pune") (CStr "P1") (CStr "Tools") (CNum (NInt 150))
           (Some (NInt 150)) (NInt 0)).
  reflexivity.
Defined.

(* ===================================================================== *)
(** * Further properties of the view functions *)
(* ===================================================================== *)

(** ** Status codes and queries of every route *)

Ltac unfold_views :=
  unfold Inventory.unique_product_categories,
    Inventory.unique_warehouse_locations,
    Inventory.stocked_out_products_all_locations,
    Inventory.overstocked_products_by_location_and_product,
    Inventory.understocked_products_by_location_and_product,
    Inventory.stock_distribution_and_status_across_all_locations,
    Inventory.inventory_variance_analysis_across_locations,
    Inventory.expected_stock_requirements_for_products_till_month_ends,
    Inventory.cover_days_summary,
    Inventory.discontinued_products_across_all_warehouse_locations,
    Inventory.get_inventory_level_for_products_and_locations,
    Inventory.estimated_stockout_of_products_by_cover_days,
    Sales.unique_product_categories, Sales.unique_warehouse_locations,
    Sales.top_products_and_their_projected_demand,
    Sales.overselling_products_based_on_sales,
    Sales.underselling_products_based_on_sales,
    Sales.sales_rate_by_product_and_location,
    Sales.forecast_sales_vs_actual_sales_for_products_and_locations,
    Inventory.process_variance_data,
    try_except, early, bindM, execute, ret, lift.

(** Whether [jsonify] serialises the body it is given. *)
Ltac serialisable_cases b c :=
  let E := fresh "Ejson" in
  destruct (serialisable b) eqn:E;
  [ rewrite (jsonify_ok b c E) | rewrite (jsonify_raise b c E) ].

Ltac jsonify_case :=
  match goal with
  | |- context [jsonify ?b ?c] =>
      lazymatch b with
      | JList _ => serialisable_cases b c
      | _ => first [ rewrite (jsonify_ok b c) by reflexivity
                   | serialisable_cases b c ]
      end
  end.

(** Case analysis on everything a view function branches on: the
    validation of its parameters, the answer of the executor, the
    emptiness of the result and the outcome of the row mappers. *)
Ltac view_cases db :=
  unfold_views;
  repeat first
    [ progress cbn [fst snd status body list_truthy negb andb append app
                     returned]
    | jsonify_case
    | match goal with
      | |- context [str_truthy ?s] => destruct (str_truthy s)
      | |- context [int_of_str ?s] => destruct (int_of_str s)
      | |- context [Z.leb ?n 0] => destruct (Z.leb n 0)
      | |- context [db ?q] => destruct (db q) as [[|? ?]|?]
      | |- context [mapM ?f ?l] => destruct (mapM f l)
      | |- context [Inventory.stock_levels_loop ?l ?s] =>
          destruct (Inventory.stock_levels_loop l s)
      end ].

(** X1: every route answers 200, 400, 404 or 500; a route that reads no
    parameter never answers 400, and the variance analysis and the five
    sales reports, which have no no-data branch, never answer 404. *)
Theorem status_codes (ep : endpoint) (db : executor (row_of ep))
    (args : query_args) :
  let code := status (fst (view ep db args)) in
  (code = 200 \/ code = 400 \/ code = 404 \/ code = 500) /\
  (takes_parameters ep = false -> code <> 400) /\
  (no_data_message ep args = None -> code <> 404).
Proof.
  destruct ep; cbn [view takes_parameters no_data_message];
    view_cases db; cbn;
    (split; [tauto | split; intros; discriminate]).
Qed.

Lemma status_codes_witness :
  status (fst (view StockedOutProducts (fun _ => Raise "timeout") [])) <> 400
  /\ status (fst (view SalesRate (fun _ => Ok []) [("product_code", "7")]))
     <> 404.
Proof.
  split.
  - apply (proj1 (proj2 (status_codes StockedOutProducts
                           (fun _ => Raise "timeout") []))).
    reflexivity.
  - apply (proj2 (proj2 (status_codes SalesRate (fun _ => Ok [])
                           [("product_code", "7")]))).
    reflexivity.
Defined.

(** X2: a view function answers without a query exactly when it answers
    400; it issues at most one query, the variance analysis at most two. *)
Theorem queries_issued (ep : endpoint) (db : executor (row_of ep))
    (args : query_args) :
  (snd (view ep db args) = [] <-> status (fst (view ep db args)) = 400) /\
  (List.length (snd (view ep db args)) <= 2)%nat /\
  (ep <> VarianceAnalysis -> (List.length (snd (view ep db args)) <= 1)%nat).
Proof.
  destruct ep; cbn [view]; view_cases db; cbn;
    (split; [split; intros; discriminate || reflexivity
            | split; [lia | intros; try lia; congruence]]).
Qed.

Lemma queries_issued_witness :
  (List.length (snd (view TopProducts (fun _ => Raise "timeout") [])) <= 1)%nat.
Proof.
  apply (proj2 (proj2 (queries_issued TopProducts
                         (fun _ => Raise "timeout") []))).
  discriminate.
Defined.



(** ** One record per row *)

Lemma mapM_length {A B} (f : A -> result B) (l : list A) (l' : list B) :
  mapM f l = Ok l' -> List.length l' = List.length l.
Proof.
  revert l'. induction l as [|x l IH]; intros l'; cbn [mapM].
  - intros H. injection H as <-. reflexivity.
  - destruct (f x) as [y|]; [|discriminate]. cbn [bind].
    destruct (mapM f l) as [ys|]; [|discriminate]. cbn [bind].
    intros H. injection H as <-. cbn. now rewrite (IH ys).
Qed.

Lemma stock_levels_loop_length (rows : list Inventory.stock_levels_row)
    (st : Inventory.stock_levels_state) :
  Inventory.stock_levels_loop rows Inventory.stock_levels_init = Ok st ->
  List.length (Inventory.stock_levels_data st) = List.length rows.
Proof.
  intros H.
  apply stock_levels_loop_spec in H as (items & Hitems & Hdata & _).
  cbn in Hdata. rewrite Hdata. symmetry. exact (Forall2_length Hitems).
Qed.

(** X4: a 200 body holds exactly one record per row returned by the
    queries the view function issued, and at least one record on the
    routes that have a no-data branch. *)
Theorem one_record_per_row (ep : endpoint) (db : executor (row_of ep))
    (args : query_args) :
  status (fst (view ep db args)) = 200 ->
  exists items,
    records ep (body (fst (view ep db args))) = Some items /\
    List.length items = rows_returned db (snd (view ep db args)) /\
    (no_data_message ep args <> None -> items <> []).
Proof.
  destruct ep; cbn [view no_data_message]; unfold_views;
    repeat first
      [ progress cbn [fst snd status body list_truthy negb andb append app
                     returned]
    | jsonify_case
      | match goal with
        | |- context [str_truthy ?s] => destruct (str_truthy s)
        | |- context [int_of_str ?s] => destruct (int_of_str s)
        | |- context [Z.leb ?n 0] => destruct (Z.leb n 0)
        | |- context [db ?q] =>
            let E := fresh "Edb" in destruct (db q) as [[|? ?]|?] eqn:E
        | |- context [mapM ?f ?l] =>
            let E := fresh "Emap" in
            destruct (mapM f l) eqn:E; [apply mapM_length in E|]
        | |- context [Inventory.stock_levels_loop ?l ?s] =>
            let E := fresh "Eloop" in
            destruct (Inventory.stock_levels_loop l s) eqn:E;
            [apply stock_levels_loop_length in E|]
        end ];
    intros H200; try discriminate H200;
    eexists; (split; [reflexivity|]);
    unfold rows_returned; cbn [fold_right];
    repeat match goal with E : db _ = _ |- _ => rewrite E; clear E end;
    (split; [ rewrite ?length_app, ?length_map; cbn [List.length] in *;
              repeat match goal with
              | E : List.length _ = _ |- _ => rewrite E; clear E
              end;
              rewrite ?Nat.add_0_r; reflexivity
            | intros Hbranch; try (now contradiction Hbranch);
              try discriminate;
              intros Heq;
              match goal with
              | E : List.length _ = _ |- _ =>
                  rewrite Heq in E; discriminate E
              end ]).
Qed.

Lemma one_record_per_row_witness :
  exists items,
    records VarianceAnalysis
      (body (fst (view VarianceAnalysis
                    (fun _ => Ok [(CStr "Pune", CStr "P1", CStr "Tools",
                                   CNum (NInt 50), Some (NInt 150),
                                   Some (NInt 100))]) [])))
    = Some items /\
    List.length items
    = rows_returned
        (fun _ => Ok [(CStr "Pune", CStr "P1", CStr "Tools",
                       CNum (NInt 50), Some (NInt 150), Some (NInt 100))])
        (snd (view VarianceAnalysis
                (fun _ => Ok [(CStr "Pune", CStr "P1", CStr "Tools",
                               CNum (NInt 50), Some (NInt 150),
                               Some (NInt 100))]) [])) /\
    (no_data_message VarianceAnalysis [] <> None -> items <> []).
Proof.
  apply (one_record_per_row VarianceAnalysis
           (fun _ => Ok [(CStr "Pune", CStr "P1", CStr "Tools",
                          CNum (NInt 50), Some (NInt 150), Some (NInt 100))])
           []).
  vm_compute. reflexivity.
Defined.

(** ** The request *)

(** X5: the reply depends on the request only through the trimmed first
    value of the route's own parameters: other parameters, later
    repetitions and surrounding whitespace change nothing. *)
Theorem reply_of_normalised_request (ep : endpoint)
    (db : executor (row_of ep)) (args : query_args) :
  view ep db args = view ep db (normalised ep args).
Proof.
  destruct ep; cbn [view normalised]; try reflexivity.
  - unfold Inventory.get_inventory_level_for_products_and_locations.
    cbn [args_get String.eqb Ascii.eqb Bool.eqb].
    rewrite !strip_idempotent. reflexivity.
  - unfold Inventory.estimated_stockout_of_products_by_cover_days.
    cbn [args_get String.eqb Ascii.eqb Bool.eqb].
    rewrite !strip_idempotent. reflexivity.
  - unfold Sales.sales_rate_by_product_and_location.
    cbn [args_get String.eqb Ascii.eqb Bool.eqb].
    rewrite !strip_idempotent. reflexivity.
  - unfold Sales.forecast_sales_vs_actual_sales_for_products_and_locations.
    cbn [args_get String.eqb Ascii.eqb Bool.eqb].
    rewrite !strip_idempotent. reflexivity.
Qed.

(** ** Validation messages *)

(** X7: the stockout estimate names the cause of a 400: "Cover days
    parameter is required" for an empty value, "Must be a valid number."
    for one that is not an integer, "Must be a positive integer." for zero
    and below; and it answers 400 to an integer only if it is not
    positive. *)
Theorem cover_days_rejections (db : executor Inventory.estimate_row)
    (args : query_args) :
  let cover_days := strip (args_get args "cover_days" "") in
  let reply := Inventory.estimated_stockout_of_products_by_cover_days db args in
  (cover_days = "" ->
     fst reply = Response (Inventory.status_message 400
                            "Cover days parameter is required") 400) /\
  (cover_days <> "" -> int_of_str cover_days = None ->
     fst reply = Response (Inventory.status_message 400
                            "Invalid cover_days. Must be a valid number.") 400)
  /\
  (forall n, int_of_str cover_days = Some n -> n <= 0 ->
     fst reply = Response (Inventory.status_message 400
                            "Invalid cover_days. Must be a positive integer.")
                   400) /\
  (status (fst reply) = 400 ->
     forall n, int_of_str cover_days = Some n -> n <= 0).
Proof.
  intros cover_days reply. subst reply.
  unfold Inventory.estimated_stockout_of_products_by_cover_days.
  fold cover_days. repeat split.
  - intros ->. reflexivity.
  - intros Hne Hnone. apply str_truthy_true in Hne. rewrite Hne, Hnone.
    reflexivity.
  - intros n Hn Hle.
    destruct (str_truthy cover_days) eqn:Ht.
    + rewrite Hn. apply Z.leb_le in Hle. cbn [negb]. rewrite Hle. reflexivity.
    + apply str_truthy_false in Ht. rewrite Ht in Hn. discriminate.
  - intros H400 n Hn.
    destruct (str_truthy cover_days) eqn:Ht.
    + revert H400. rewrite Hn. cbn [negb].
      destruct (Z.leb_spec n 0) as [Hle|Hgt]; [intros _; exact Hle|].
      unfold try_except, bindM, execute, lift.
      destruct (db _) as [[|? ?]|?]; repeat jsonify_case; cbn; discriminate.
    + apply str_truthy_false in Ht. rewrite Ht in Hn. discriminate.
Qed.

Lemma cover_days_rejections_witness :
  fst (Inventory.estimated_stockout_of_products_by_cover_days
         (fun _ => Ok []) [("cover_days", "  ")])
  = Response (Inventory.status_message 400 "Cover days parameter is required")
      400 /\
  fst (Inventory.estimated_stockout_of_products_by_cover_days
         (fun _ => Ok []) [("cover_days", "five")])
  = Response (Inventory.status_message 400
               "Invalid cover_days. Must be a valid number.") 400 /\
  fst (Inventory.estimated_stockout_of_products_by_cover_days
         (fun _ => Ok []) [("cover_days", "-2")])
  = Response (Inventory.status_message 400
               "Invalid cover_days. Must be a positive integer.") 400.
Proof.
  split; [| split].
  - apply (proj1 (cover_days_rejections (fun _ => Ok [])
                    [("cover_days", "  ")])). reflexivity.
  - apply (proj1 (proj2 (cover_days_rejections (fun _ => Ok [])
                    [("cover_days", "five")]))); [discriminate | reflexivity].
  - apply (proj1 (proj2 (proj2 (cover_days_rejections (fun _ => Ok [])
                    [("cover_days", "-2")]))) (-2)); [reflexivity | lia].
Defined.

(** X8: the two sales routes with a [product_code] answer 400 with
    "Product code is required" to an empty value and with "Product code
    must be an integer" to one that is not an integer; every integer,
    zero and negative ones included, is accepted and issues one query. *)
Theorem product_code_rejections (ep : endpoint) (db : executor (row_of ep))
    (args : query_args) :
  ep = SalesRate \/ ep = ForecastVsActual ->
  let product_code := strip (args_get args "product_code" "") in
  (product_code = "" ->
     fst (view ep db args)
     = Response (Sales.error_message "Product code is required") 400) /\
  (product_code <> "" -> int_of_str product_code = None ->
     fst (view ep db args)
     = Response (Sales.error_message "Product code must be an integer") 400) /\
  (forall n, int_of_str product_code = Some n ->
     status (fst (view ep db args)) <> 400 /\
     List.length (snd (view ep db args)) = 1%nat).
Proof.
  intros [-> | ->] product_code; cbn [view];
    [unfold Sales.sales_rate_by_product_and_location
    |unfold Sales.forecast_sales_vs_actual_sales_for_products_and_locations];
    fold product_code.
  all: split; [intros ->; reflexivity|].
  all: split;
    [intros Hne Hnone; apply str_truthy_true in Hne; rewrite Hne, Hnone;
     reflexivity|].
  all: intros n Hn; destruct (str_truthy product_code) eqn:Ht;
    [| apply str_truthy_false in Ht; rewrite Ht in Hn; discriminate].
  all: rewrite Hn; cbn [negb]; unfold try_except, bindM, execute, ret, lift.
  all: destruct (db _) as [rows|msg]; cbn [fst snd];
    [match goal with |- context [mapM ?f rows] => destruct (mapM f rows) end|];
    repeat jsonify_case; split; cbn; (discriminate || reflexivity).
Qed.

Lemma product_code_rejections_witness :
  fst (view SalesRate (fun _ => Ok []) [("product_code", "SKU1")])
  = Response (Sales.error_message "Product code must be an integer") 400 /\
  status (fst (view ForecastVsActual (fun _ => Ok [])
                 [("product_code", "-7")])) <> 400.
Proof.
  split.
  - apply (proj1 (proj2 (product_code_rejections SalesRate (fun _ => Ok [])
                    [("product_code", "SKU1")] (or_introl eq_refl))));
      [discriminate | reflexivity].
  - apply (proj2 (proj2 (product_code_rejections ForecastVsActual
                    (fun _ => Ok []) [("product_code", "-7")]
                    (or_intror eq_refl))) (-7)).
    reflexivity.
Defined.

(** ** The product codes of the stocked-out and discontinued reports *)

Lemma split_join_codes (code : string) (codes : list string) :
  Forall clean_code (code :: codes) ->
  split "," (join ", " (code :: codes))
  = code :: map (fun c => String " " c) codes.
Proof.
  revert code. induction codes as [|c2 codes IH]; intros code Hclean.
  - cbn [join map]. apply split_free.
    inversion Hclean as [|? ? (_ & _ & Hfree) _]. exact Hfree.
  - inversion Hclean as [|? ? (_ & _ & Hfree) Hrest]; subst.
    change (join ", " (code :: c2 :: codes))
      with (code ++ String "," (String " " (join ", " (c2 :: codes)))).
    rewrite split_app by exact Hfree.
    cbn [split]. change (Ascii.eqb " " ",") with false. cbv iota.
    rewrite (IH c2 Hrest). reflexivity.
Qed.

Lemma strip_after_space (s : string) : strip (String " " s) = strip s.
Proof. reflexivity. Qed.

Lemma product_codes_of_join (codes : list string) :
  Forall clean_code codes ->
  Inventory.product_codes_of (Some (join ", " codes)) = codes.
Proof.
  destruct codes as [|code codes]; [reflexivity|]. intros Hclean.
  unfold Inventory.product_codes_of.
  assert (Hne : str_truthy (join ", " (code :: codes)) = true).
  { inversion Hclean as [|? ? (Hne & _) _]; subst.
    destruct code; [congruence|]. destruct codes; reflexivity. }
  rewrite Hne, split_join_codes by exact Hclean.
  inversion Hclean as [|? ? (Hcode & Hstrip & _) Hrest]; subst.
  cbn [filter map]. rewrite Hstrip.
  apply str_truthy_true in Hcode. rewrite Hcode. cbn [map]. rewrite Hstrip.
  f_equal. clear Hclean Hne Hcode Hstrip.
  induction Hrest as [|c cs (Hc & Hs & _) _ IH]; [reflexivity|].
  cbn [filter map]. rewrite strip_after_space, Hs.
  apply str_truthy_true in Hc. rewrite Hc. cbn [map].
  rewrite strip_after_space, Hs, IH. reflexivity.
Qed.

(** X9: the row mappers of the stocked-out and discontinued reports undo
    the concatenation of the query: codes that are not empty, carry no
    whitespace at their ends and contain no comma, joined with ", ", are
    mapped back to the same list. *)
Theorem product_codes_round_trip (row0 row1 : cell) (codes : list string) :
  Forall clean_code codes ->
  field "Product codes"
    (Inventory.stocked_out_location_data
       (row0, row1, Some (join ", " codes)))
  = Some (JList (map JStr codes)) /\
  field "Discontinued Product Codes"
    (Inventory.discontinued_data (row0, row1, Some (join ", " codes)))
  = Some (JList (map JStr codes)).
Proof.
  intros Hclean. unfold Inventory.discontinued_data.
  rewrite stocked_out_codes_field, product_codes_of_join by exact Hclean.
  split; reflexivity.
Qed.

Lemma product_codes_round_trip_witness :
  field "Product codes"
    (Inventory.stocked_out_location_data
       (CStr "Pune", CNum (NInt 2), Some "SKU 1, SKU-2"))
  = Some (JList [JStr "SKU 1"; JStr "SKU-2"]) /\
  field "Discontinued Product Codes"
    (Inventory.discontinued_data
       (CStr "Pune", CNum (NInt 2), Some "SKU 1, SKU-2"))
  = Some (JList [JStr "SKU 1"; JStr "SKU-2"]).
Proof.
  apply (product_codes_round_trip (CStr "Pune") (CNum (NInt 2))
           ["SKU 1"; "SKU-2"]).
  repeat constructor; discriminate.
Defined.






(** ** The stock distribution summary on convertible counts *)

Lemma clamped_count_convertible (c : option number) :
  convertible c -> Inventory.clamped_count c = Ok (shown_count c).
Proof.
  destruct c as [[z|f]|]; cbn [convertible]; intros H; try reflexivity.
  cbn [Inventory.clamped_count to_int].
  rewrite (int_of_float_truncation f H). reflexivity.
Qed.

Lemma stock_levels_loop_convertible (rows : list Inventory.stock_levels_row) :
  Forall convertible_row rows ->
  forall st, exists st',
    Inventory.stock_levels_loop rows st = Ok st' /\
    Inventory.stock_levels_data st'
    = (Inventory.stock_levels_data st ++ map summary_of rows)%list.
Proof.
  induction 1 as [|row rows Hrow _ IH]; intros st.
  - exists st. split; [reflexivity | now rewrite app_nil_r].
  - destruct row as [[[row0 row1] row2] row3].
    destruct Hrow as (H1 & H2 & H3).
    cbn [Inventory.stock_levels_loop]. unfold Inventory.stock_levels_step.
    rewrite (clamped_count_convertible row1 H1),
      (clamped_count_convertible row2 H2),
      (clamped_count_convertible row3 H3).
    cbn [bind].
    match goal with
    | |- context [Inventory.stock_levels_loop rows ?s] =>
        destruct (IH s) as (st' & Hloop & Hdata)
    end.
    exists st'. split; [exact Hloop|].
    rewrite Hdata. cbn [Inventory.stock_levels_data]. unfold append.
    rewrite <- app_assoc. cbn [app map]. do 2 f_equal.
    destruct row0 as [[|a s]|]; reflexivity.
Qed.

Lemma within_str_digits_small (z : Z) :
  Z.abs z < 2 ^ 65 -> within_str_digits z = true.
Proof.
  intros H. unfold within_str_digits. apply Z.ltb_lt.
  apply (Z.lt_le_trans _ (2 ^ 65)); [exact H|].
  vm_compute. discriminate.
Qed.

Lemma serialisable_small_counts (rows : list Inventory.stock_levels_row) :
  Forall small_counts rows ->
  serialisable (JList (map summary_of rows)) = true.
Proof.
  cbn [serialisable].
  induction 1 as [|row rows Hrow _ IH]; [reflexivity|].
  cbn [map forallb]. rewrite IH, andb_true_r.
  destruct row as [[[row0 row1] row2] row3].
  destruct Hrow as (H1 & H2 & H3).
  assert (P1 : 0 <= shown_count row1)
    by (destruct row1; cbn [shown_count]; lia).
  assert (P2 : 0 <= shown_count row2)
    by (destruct row2; cbn [shown_count]; lia).
  assert (P3 : 0 <= shown_count row3)
    by (destruct row3; cbn [shown_count]; lia).
  cbn [summary_of summary_record serialisable forallb snd].
  rewrite !within_str_digits_small; [reflexivity | lia..].
Qed.

(** X11: on a non-empty result whose counts are [NULL], integers or
    finite floats, the stock distribution summary builds one record per
    row, in order: a [NULL] or empty location is shown as "Unknown
    Location", a [NULL] or negative count as 0, any other count as its
    integer part.  It answers 200 with these records when [jsonify] can
    write them, that is when no count and no total has more than 4300
    digits, and 500 with the [ValueError] of the conversion otherwise. *)
Theorem stock_distribution_of_convertible_rows
    (db : executor Inventory.stock_levels_row)
    (rows : list Inventory.stock_levels_row) :
  db Inventory.stock_distribution_and_status_across_all_locations_stock_levels_query
    = Ok rows ->
  rows <> [] ->
  Forall convertible_row rows ->
  (serialisable (JList (map summary_of rows)) = true ->
   Inventory.stock_distribution_and_status_across_all_locations db
   = (Response (JList (map summary_of rows)) 200,
      [Inventory.stock_distribution_and_status_across_all_locations_stock_levels_query]))
  /\
  (serialisable (JList (map summary_of rows)) = false ->
   Inventory.stock_distribution_and_status_across_all_locations db
   = (Response
        (JObj [("error",
                JStr ("Error retrieving stock levels: "
                      ++ int_str_limit_message));
               ("status", JStr "error");
               ("data", JNull)]) 500,
      [Inventory.stock_distribution_and_status_across_all_locations_stock_levels_query]))
  /\
  (Forall small_counts rows ->
   serialisable (JList (map summary_of rows)) = true).
Proof.
  intros Hdb Hne Hrows.
  unfold Inventory.stock_distribution_and_status_across_all_locations,
    try_except, bindM, execute, lift, ret.
  rewrite Hdb. destruct rows as [|row rows]; [congruence|].
  cbn [list_truthy negb].
  destruct (stock_levels_loop_convertible (row :: rows) Hrows
              Inventory.stock_levels_init) as (st & Hloop & Hdata).
  rewrite Hloop, Hdata. cbn [Inventory.stock_levels_data
    Inventory.stock_levels_init app].
  split; [|split].
  - intros Hjson. rewrite (jsonify_ok _ _ Hjson). reflexivity.
  - intros Hjson. rewrite (jsonify_raise _ _ Hjson). reflexivity.
  - apply serialisable_small_counts.
Qed.

Lemma stock_distribution_of_convertible_rows_witness :
  (Inventory.stock_distribution_and_status_across_all_locations
     (fun _ => Ok [(Some "", Some (NInt (-4)),
                    Some (NFloat (S754_finite false 5 (-1))), None)])
   = (Response
        (JList [JObj [("Warehouse Location", JStr "Unknown Location");
                      ("Partially Stocked", JInt 0);
                      ("Fully Stocked", JInt 2);
                      ("Stocked Out", JInt 0);
                      ("Total Items", JInt 2)]]) 200,
      [Inventory.stock_distribution_and_status_across_all_locations_stock_levels_query]))
  /\
  (Inventory.stock_distribution_and_status_across_all_locations
     (fun _ => Ok [(Some "Pune", Some (NInt int_str_bound), None, None)])
   = (Response
        (JObj [("error",
                JStr ("Error retrieving stock levels: "
                      ++ int_str_limit_message));
               ("status", JStr "error");
               ("data", JNull)]) 500,
      [Inventory.stock_distribution_and_status_across_all_locations_stock_levels_query]))
  /\
  serialisable
    (JList (map summary_of [(Some "Pune", Some (NInt 7), None, None)]))
  = true.
Proof.
  split; [|split].
  - destruct (stock_distribution_of_convertible_rows
                (fun _ => Ok [(Some "", Some (NInt (-4)),
                               Some (NFloat (S754_finite false 5 (-1))),
                               None)])
                [(Some "", Some (NInt (-4)),
                  Some (NFloat (S754_finite false 5 (-1))), None)])
      as (Hshown & _ & _).
    + reflexivity.
    + discriminate.
    + repeat constructor.
    + apply Hshown. vm_compute. reflexivity.
  - destruct (stock_distribution_of_convertible_rows
                (fun _ => Ok [(Some "Pune", Some (NInt int_str_bound),
                               None, None)])
                [(Some "Pune", Some (NInt int_str_bound), None, None)])
      as (_ & Hlimit & _).
    + reflexivity.
    + discriminate.
    + repeat constructor.
    + apply Hlimit. vm_compute. reflexivity.
  - destruct (stock_distribution_of_convertible_rows
                (fun _ => Ok [(Some "Pune", Some (NInt 7), None, None)])
                [(Some "Pune", Some (NInt 7), None, None)])
      as (_ & _ & Hsmall).
    + reflexivity.
    + discriminate.
    + repeat constructor.
    + apply Hsmall. repeat constructor.
Defined.

(** ** The expected stock requirements *)

Lemma expected_stock_level_cases (row : Inventory.expected_stock_row) :
  integer_or_null (snd (fst row)) -> integer_or_null (snd row) ->
  (snd (fst row) <> None /\ snd row <> None /\
   Inventory.expected_stock_level row = Ok (expected_record row)) \/
  ((snd (fst row) = None \/ snd row = None) /\
   Inventory.expected_stock_level row = Raise int_of_none).
Proof.
  destruct row as [[row0 [[z1|f1]|]] [[z2|f2]|]]; cbn; intros H1 H2;
    try contradiction;
    solve [left; repeat split; discriminate || reflexivity
          | right; split; [auto | reflexivity]].
Qed.

(** X12: the expected stock report does not coalesce [NULL]: on integer
    columns, one [NULL] required stock or location count in any row turns
    the whole response into a 500 carrying the [TypeError] of [int(None)];
    without a [NULL] there is one record per row, and the response is 200
    with these records when [jsonify] can write them, that is when none of
    their integers has more than 4300 digits, and a 500 carrying the
    [ValueError] of the conversion otherwise. *)
Theorem expected_stock_with_null
    (db : executor Inventory.expected_stock_row)
    (rows : list Inventory.expected_stock_row) :
  db Inventory.expected_stock_requirements_for_products_till_month_ends_query
    = Ok rows ->
  Forall (fun row => integer_or_null (snd (fst row)) /\
                     integer_or_null (snd row)) rows ->
  (Exists (fun row => snd (fst row) = None \/ snd row = None) rows ->
   fst (Inventory.expected_stock_requirements_for_products_till_month_ends db)
   = Response (Inventory.status_message 500
                ("Error retrieving expected stock levels: " ++ int_of_none))
       500) /\
  (rows <> [] ->
   Forall (fun row => snd (fst row) <> None /\ snd row <> None) rows ->
   serialisable (JList (map expected_record rows)) = true ->
   fst (Inventory.expected_stock_requirements_for_products_till_month_ends db)
   = Response (JList (map expected_record rows)) 200) /\
  (rows <> [] ->
   Forall (fun row => snd (fst row) <> None /\ snd row <> None) rows ->
   serialisable (JList (map expected_record rows)) = false ->
   fst (Inventory.expected_stock_requirements_for_products_till_month_ends db)
   = Response (Inventory.status_message 500
                ("Error retrieving expected stock levels: "
                 ++ int_str_limit_message)) 500).
Proof.
  intros Hdb Hint.
  assert (Hfull : Forall (fun row => snd (fst row) <> None /\ snd row <> None)
                    rows ->
                  mapM Inventory.expected_stock_level rows
                  = Ok (map expected_record rows)).
  { clear Hdb. intros Hfull.
    induction Hint as [|row rows [H1 H2] _ IH]; [reflexivity|].
    inversion Hfull as [|? ? [N1 N2] Hrest]; subst.
    cbn [mapM map].
    destruct (expected_stock_level_cases row H1 H2)
      as [(_ & _ & ->) | ([E|E] & _)]; [|congruence|congruence].
    cbn [bind]. rewrite (IH Hrest). reflexivity. }
  unfold Inventory.expected_stock_requirements_for_products_till_month_ends,
    try_except, bindM, execute, lift, ret.
  rewrite Hdb. split; [|split].
  - intros Hnull.
    assert (Hmap : mapM Inventory.expected_stock_level rows = Raise int_of_none).
    { clear Hdb Hfull. revert Hnull.
      induction Hint as [|row rows [H1 H2] _ IH]; intros Hnull;
        [inversion Hnull|].
      cbn [mapM].
      destruct (expected_stock_level_cases row H1 H2)
        as [(N1 & N2 & ->) | (_ & ->)]; [|reflexivity].
      cbn [bind]. rewrite IH; [reflexivity|].
      inversion Hnull as [? ? Hhere | ? ? Hlater]; subst;
        [destruct Hhere; congruence | assumption]. }
    destruct rows as [|row rows]; [inversion Hnull|].
    cbn [list_truthy negb]. rewrite Hmap. reflexivity.
  - intros Hne Hnonnull Hjson.
    destruct rows as [|row rows]; [congruence|].
    cbn [list_truthy negb]. rewrite (Hfull Hnonnull).
    rewrite (jsonify_ok _ _ Hjson). reflexivity.
  - intros Hne Hnonnull Hjson.
    destruct rows as [|row rows]; [congruence|].
    cbn [list_truthy negb]. rewrite (Hfull Hnonnull).
    rewrite (jsonify_raise _ _ Hjson). reflexivity.
Qed.

Lemma expected_stock_with_null_witness :
  fst (Inventory.expected_stock_requirements_for_products_till_month_ends
         (fun _ => Ok [(CStr "P1", Some (NInt 40), Some (NInt 3));
                       (CStr "P2", None, Some (NInt 1))]))
  = Response (Inventory.status_message 500
               ("Error retrieving expected stock levels: " ++ int_of_none))
      500 /\
  fst (Inventory.expected_stock_requirements_for_products_till_month_ends
         (fun _ => Ok [(CStr "P1", Some (NInt 40), Some (NInt 3))]))
  = Response (JList [JObj [("Product Code", JStr "P1");
                          ("Required Stock", JInt 40);
                          ("Warehouse Location Count", JInt 3)]]) 200 /\
  fst (Inventory.expected_stock_requirements_for_products_till_month_ends
         (fun _ => Ok [(CStr "P1", Some (NInt int_str_bound), Some (NInt 3))]))
  = Response (Inventory.status_message 500
               ("Error retrieving expected stock levels: "
                ++ int_str_limit_message)) 500.
Proof.
  split; [|split].
  - destruct (expected_stock_with_null
                (fun _ => Ok [(CStr "P1", Some (NInt 40), Some (NInt 3));
                              (CStr "P2", None, Some (NInt 1))])
                [(CStr "P1", Some (NInt 40), Some (NInt 3));
                 (CStr "P2", None, Some (NInt 1))]) as [Hnull _].
    + reflexivity.
    + repeat constructor.
    + apply Hnull. right. left. left. reflexivity.
  - destruct (expected_stock_with_null
                (fun _ => Ok [(CStr "P1", Some (NInt 40), Some (NInt 3))])
                [(CStr "P1", Some (NInt 40), Some (NInt 3))])
      as (_ & Hfull & _).
    + reflexivity.
    + repeat constructor.
    + apply Hfull; [discriminate | repeat constructor; discriminate |].
      vm_compute. reflexivity.
  - destruct (expected_stock_with_null
                (fun _ => Ok [(CStr "P1", Some (NInt int_str_bound),
                               Some (NInt 3))])
                [(CStr "P1", Some (NInt int_str_bound), Some (NInt 3))])
      as (_ & _ & Hlimit).
    + reflexivity.
    + repeat constructor.
    + apply Hlimit; [discriminate | repeat constructor; discriminate |].
      vm_compute. reflexivity.
Defined.

(** ** The two queries of the variance analysis *)

(** X13: the variance analysis issues its positive query first and stops
    there if it fails; once it succeeded the negative query is issued too,
    whatever the rows of the positive one hold. *)
Theorem variance_analysis_queries (db : executor Inventory.variance_row) :
  (forall msg,
     db Inventory.inventory_variance_analysis_across_locations_positive_query
       = Raise msg ->
     snd (Inventory.inventory_variance_analysis_across_locations db)
     = [Inventory.inventory_variance_analysis_across_locations_positive_query])
  /\
  (forall rows,
     db Inventory.inventory_variance_analysis_across_locations_positive_query
       = Ok rows ->
     snd (Inventory.inventory_variance_analysis_across_locations db)
     = [Inventory.inventory_variance_analysis_across_locations_positive_query;
        Inventory.inventory_variance_analysis_across_locations_negative_query]).
Proof.
  unfold Inventory.inventory_variance_analysis_across_locations,
    try_except, bindM, execute, lift, ret.
  split.
  - intros msg ->. reflexivity.
  - intros rows ->.
    destruct (db Inventory.inventory_variance_analysis_across_locations_negative_query)
      as [rows'|msg]; [|reflexivity].
    destruct (Inventory.process_variance_data rows); [|reflexivity].
    destruct (Inventory.process_variance_data rows'); [|reflexivity].
    cbn [bind]. destruct (jsonify _ 200); reflexivity.
Qed.

Lemma variance_analysis_queries_witness :
  snd (Inventory.inventory_variance_analysis_across_locations
         (fun _ => Ok [(CStr "Pune", CStr "P1", CStr "Tools", CNum (NInt 5),
                        Some (NInt 5), None)]))
  = [Inventory.inventory_variance_analysis_across_locations_positive_query;
     Inventory.inventory_variance_analysis_across_locations_negative_query].
Proof.
  apply (proj2 (variance_analysis_queries
                  (fun _ => Ok [(CStr "Pune", CStr "P1", CStr "Tools",
                                 CNum (NInt 5), Some (NInt 5), None)]))
           [(CStr "Pune", CStr "P1", CStr "Tools", CNum (NInt 5),
             Some (NInt 5), None)]).
  reflexivity.
Defined.

(** ** Magnitudes in the sales reports *)

Lemma abs_int_float_magnitude (c : option number) (shown : json) :
  Sales.abs_int_float c = Ok shown -> magnitude_shown shown.
Proof.
  destruct c as [n|]; cbn [Sales.abs_int_float].
  - destruct (truthy n).
    + destruct (to_float n) as [f|]; [|discriminate]. cbn [bind].
      destruct (int_of_float f) as [i|]; [|discriminate]. cbn [bind].
      intros H. injection H as <-. apply Z.abs_nonneg.
    + intros H. injection H as <-. reflexivity.
  - intros H. injection H as <-. reflexivity.
Qed.

Lemma abs_int_magnitude (c : option number) (shown : json) :
  Sales.abs_int c = Ok shown -> magnitude_shown shown.
Proof.
  destruct c as [n|]; cbn [Sales.abs_int].
  - destruct (truthy n).
    + destruct (to_int n) as [i|]; [|discriminate]. cbn [bind].
      intros H. injection H as <-. apply Z.abs_nonneg.
    + intros H. injection H as <-. reflexivity.
  - intros H. injection H as <-. reflexivity.
Qed.

Ltac magnitude_fields :=
  repeat match goal with
  | H : context [Sales.abs_int_float ?c] |- _ =>
      let shown := fresh "shown" in
      let E := fresh "E" in
      destruct (Sales.abs_int_float c) as [shown|] eqn:E;
      [apply abs_int_float_magnitude in E | discriminate]
  | H : context [Sales.abs_int ?c] |- _ =>
      let shown := fresh "shown" in
      let E := fresh "E" in
      destruct (Sales.abs_int c) as [shown|] eqn:E;
      [apply abs_int_magnitude in E | discriminate]
  end;
  cbn [bind] in *;
  match goal with
  | H : Ok _ = Ok _ |- _ => injection H as <-
  end;
  repeat split; eexists; (split; [reflexivity | assumption]).

(** X15: every metric of a record of the five sales reports is a
    magnitude: a non-negative [int], or the float [0.0]. *)
Theorem sales_metrics_are_magnitudes :
  (forall row item,
     Sales.projected_demand row = Ok item ->
     (exists shown, field "Current Month Sales Rate" item = Some shown
                    /\ magnitude_shown shown) /\
     (exists shown, field "Current Month Forecast Rate" item = Some shown
                    /\ magnitude_shown shown) /\
     (exists shown, field "Next Month Forecast Rate" item = Some shown
                    /\ magnitude_shown shown)) /\
  (forall row item,
     Sales.oversold row = Ok item ->
     (exists shown, field "Total Forecast per day" item = Some shown
                    /\ magnitude_shown shown) /\
     (exists shown, field "Total Sales per day" item = Some shown
                    /\ magnitude_shown shown) /\
     (exists shown, field "Oversold per day" item = Some shown
                    /\ magnitude_shown shown)) /\
  (forall row item,
     Sales.undersold row = Ok item ->
     (exists shown, field "Total Forecast per day" item = Some shown
                    /\ magnitude_shown shown) /\
     (exists shown, field "Total Sales per day" item = Some shown
                    /\ magnitude_shown shown) /\
     (exists shown, field "Undersold per day" item = Some shown
                    /\ magnitude_shown shown)) /\
  (forall row item,
     Sales.sales_rate row = Ok item ->
     exists shown, field "Sales rate per day" item = Some shown
                   /\ magnitude_shown shown) /\
  (forall row item,
     Sales.forecast_vs_actual row = Ok item ->
     (exists shown, field "Average Forecast Rate" item = Some shown
                    /\ magnitude_shown shown) /\
     (exists shown, field "Average Sales Rate" item = Some shown
                    /\ magnitude_shown shown) /\
     (exists shown, field "Average Forecast Error" item = Some shown
                    /\ magnitude_shown shown)).
Proof.
  repeat match goal with |- _ /\ _ => split end.
  - intros [[[row0 row1] row2] row3] item H.
    unfold Sales.projected_demand in H. magnitude_fields.
  - intros [[[row0 row1] row2] row3] item H.
    unfold Sales.oversold in H. magnitude_fields.
  - intros [[[row0 row1] row2] row3] item H.
    unfold Sales.undersold in H. magnitude_fields.
  - intros [row0 row1] item H.
    unfold Sales.sales_rate in H. magnitude_fields.
  - intros [[[[row0 row1] row2] row3] row4] item H.
    unfold Sales.forecast_vs_actual in H. magnitude_fields.
Qed.

Lemma sales_metrics_are_magnitudes_witness :
  (exists shown,
     field "Total Forecast per day"
       (JObj [("Product Code", JStr "P1");
              ("Total Forecast per day", JInt 3);
              ("Total Sales per day", JInt 12);
              ("Oversold per day", JFloat fzero)]) = Some shown
     /\ magnitude_shown shown) /\
  (exists shown,
     field "Total Sales per day"
       (JObj [("Product Code", JStr "P1");
              ("Total Forecast per day", JInt 3);
              ("Total Sales per day", JInt 12);
              ("Oversold per day", JFloat fzero)]) = Some shown
     /\ magnitude_shown shown) /\
  (exists shown,
     field "Oversold per day"
       (JObj [("Product Code", JStr "P1");
              ("Total Forecast per day", JInt 3);
              ("Total Sales per day", JInt 12);
              ("Oversold per day", JFloat fzero)]) = Some shown
     /\ magnitude_shown shown).
Proof.
  apply (proj1 (proj2 sales_metrics_are_magnitudes)
           (CStr "P1", Some (NInt (-12)),
            Some (NFloat (S754_finite true 7 (-1))), None)).
  reflexivity.
Defined.

(** ** The sign of a metric *)

Lemma binary_round_aux_opp (m : Z) (e : Z) (l : location) :
  binary_round_aux prec emax true m e l
  = SFopp (binary_round_aux prec emax false m e l).
Proof.
  unfold binary_round_aux.
  destruct (shr_fexp prec emax m e l) as [mrs e'].
  destruct (shr_fexp prec emax _ e' loc_Exact) as [mrs' e''].
  destruct (shr_m mrs') as [|p|p]; [reflexivity | | reflexivity].
  destruct (e'' <=? emax - prec); reflexivity.
Qed.

Lemma round_int_opp (z : Z) :
  z <> 0 -> round_int (- z) = SFopp (round_int z).
Proof.
  unfold round_int, binary_normalize, binary_round.
  destruct z as [|m|m]; [congruence | |]; intros _; cbn [Z.opp];
    destruct (shl_align m 0 _) as [mz ez]; rewrite binary_round_aux_opp.
  - reflexivity.
  - destruct (binary_round_aux prec emax false (Z.pos mz) ez loc_Exact)
      as [[|]|[|]| |[|] ? ?]; reflexivity.
Qed.

Lemma int_of_float_opp (f : float) :
  int_of_float (SFopp f)
  = match int_of_float f with
    | Ok i => Ok (- i)
    | Raise msg => Raise msg
    end.
Proof.
  destruct f as [s|s| |s m e]; try reflexivity.
  cbn [SFopp int_of_float]. destruct s; cbn [negb]; f_equal; lia.
Qed.

Lemma is_finite_opp (f : float) : is_finite (SFopp f) = is_finite f.
Proof. destruct f; reflexivity. Qed.

Lemma is_zero_opp (f : float) : is_zero (SFopp f) = is_zero f.
Proof. destruct f; reflexivity. Qed.

Lemma abs_after_opp (f : float) :
  bind (int_of_float (SFopp f)) (fun i => Ok (JInt (Z.abs i)))
  = bind (int_of_float f) (fun i => Ok (JInt (Z.abs i))).
Proof.
  rewrite int_of_float_opp. destruct (int_of_float f); cbn [bind];
    [rewrite Z.abs_opp|]; reflexivity.
Qed.

Lemma abs_int_float_opposite (n : number) :
  Sales.abs_int_float (Some (opposite n)) = Sales.abs_int_float (Some n).
Proof.
  destruct n as [z|f]; cbn [opposite Sales.abs_int_float truthy to_float].
  - destruct (Z.eqb_spec z 0) as [->|Hz]; [reflexivity|].
    replace (- z =? 0) with false by (symmetry; apply Z.eqb_neq; lia).
    cbn [negb]. unfold float_of_int.
    rewrite (round_int_opp z Hz), is_finite_opp.
    destruct (is_finite (round_int z)); cbn [bind];
      [apply abs_after_opp | reflexivity].
  - rewrite is_zero_opp. destruct (is_zero f); cbn [negb bind];
      [reflexivity | apply abs_after_opp].
Qed.

Lemma abs_int_opposite (n : number) :
  Sales.abs_int (Some (opposite n)) = Sales.abs_int (Some n).
Proof.
  destruct n as [z|f]; cbn [opposite Sales.abs_int truthy to_int].
  - destruct (Z.eqb_spec z 0) as [->|Hz]; [reflexivity|].
    replace (- z =? 0) with false by (symmetry; apply Z.eqb_neq; lia).
    cbn [negb bind]. rewrite Z.abs_opp. reflexivity.
  - rewrite is_zero_opp. destruct (is_zero f); cbn [negb];
      [reflexivity | apply abs_after_opp].
Qed.

Lemma abs_int_float_negated (c : option number) :
  Sales.abs_int_float (negated c) = Sales.abs_int_float c.
Proof. destruct c; [apply abs_int_float_opposite | reflexivity]. Qed.

Lemma abs_int_negated (c : option number) :
  Sales.abs_int (negated c) = Sales.abs_int c.
Proof. destruct c; [apply abs_int_opposite | reflexivity]. Qed.

(** X16: the five sales row mappers drop the sign: changing the sign of
    every metric of a row leaves its record unchanged. *)
Theorem sales_reports_drop_the_sign (row0 location : cell)
    (row1 row2 row3 : option number) :
  Sales.projected_demand (row0, negated row1, negated row2, negated row3)
  = Sales.projected_demand (row0, row1, row2, row3) /\
  Sales.oversold (row0, negated row1, negated row2, negated row3)
  = Sales.oversold (row0, row1, row2, row3) /\
  Sales.undersold (row0, negated row1, negated row2, negated row3)
  = Sales.undersold (row0, row1, row2, row3) /\
  Sales.sales_rate (row0, negated row1) = Sales.sales_rate (row0, row1) /\
  Sales.forecast_vs_actual
    (location, row0, negated row1, negated row2, negated row3)
  = Sales.forecast_vs_actual (location, row0, row1, row2, row3).
Proof.
  unfold Sales.projected_demand, Sales.oversold, Sales.undersold,
    Sales.sales_rate, Sales.forecast_vs_actual.
  rewrite !abs_int_float_negated, abs_int_negated. repeat split.
Qed.

(** ** The sales rate of any integer *)

(** X17: the sales rate report, which truncates without converting to a
    float first, shows the exact magnitude of the integer part of every
    integer and of every finite float. *)
Theorem sales_rate_is_exact (row0 : cell) (n : number) :
  convertible (Some n) ->
  exists shown,
    Sales.sales_rate (row0, Some n)
    = Ok (JObj [("Warehouse Location", json_of_cell row0);
                ("Sales rate per day", shown)]) /\
    integer_value shown = Some (Z.abs (truncation n)).
Proof.
  intros Hn. unfold Sales.sales_rate, Sales.abs_int.
  destruct n as [z|f]; cbn [truthy to_int].
  - destruct (Z.eqb_spec z 0) as [->|Hz]; cbn [negb bind];
      eexists; split; reflexivity.
  - cbn [convertible] in Hn.
    destruct (is_zero f) eqn:Hzero; cbn [negb bind].
    + destruct f; try discriminate. eexists; split; reflexivity.
    + rewrite (int_of_float_truncation f Hn). cbn [bind].
      eexists; split; reflexivity.
Qed.

Lemma sales_rate_is_exact_witness :
  exists shown,
    Sales.sales_rate (CStr "Pune", Some (NInt (-9007199254740993)))
    = Ok (JObj [("Warehouse Location", JStr "Pune");
                ("Sales rate per day", shown)]) /\
    integer_value shown = Some 9007199254740993.
Proof.
  apply (sales_rate_is_exact (CStr "Pune") (NInt (-9007199254740993))).
  exact I.
Defined.

(** ** Equal stocks in the variance analysis *)

(** X14: a current stock equal to a positive integer ideal stock is shown
    with the variance "0.0%". *)
Theorem variancy_of_equal_stocks (row0 row1 row2 row3 : cell) (z : Z) :
  0 < z ->
  exists item,
    Inventory.variance_item
      (row0, row1, row2, row3, Some (NInt z), Some (NInt z)) = Ok item /\
    field "Variancy" item = Some (JStr "0.0%").
Proof.
  intros Hz.
  unfold Inventory.variance_item, Inventory.variance_percentage.
  cbn [gt_zero sub]. apply Z.ltb_lt in Hz. rewrite Hz, Z.sub_diag.
  cbn [bind truediv].
  replace (z =? 0) with false
    by (symmetry; apply Z.eqb_neq; apply Z.ltb_lt in Hz; lia).
  cbn [round_ratio].
  replace (z <? 0) with false
    by (symmetry; apply Z.ltb_ge; apply Z.ltb_lt in Hz; lia).
  cbn [is_finite bind].
  replace (mul (NFloat (S754_zero false)) (NInt 100))
    with (Ok (NFloat (S754_zero false))) by (vm_compute; reflexivity).
  eexists. split; [reflexivity|]. vm_compute. reflexivity.
Qed.

Lemma variancy_of_equal_stocks_witness :
  exists item,
    Inventory.variance_item
      (CStr "Pune", CStr "P1", CStr "Tools", CNum (NInt 0),
       Some (NInt 80), Some (NInt 80)) = Ok item /\
    field "Variancy" item = Some (JStr "0.0%").
Proof.
  apply (variancy_of_equal_stocks (CStr "Pune") (CStr "P1") (CStr "Tools")
           (CNum (NInt 0)) 80).
  lia.
Defined.

(** ** The integer of a parameter and its decimal *)

Lemma parse_digits_acc (d : Decimal.uint) :
  forall acc : positive,
  parse_digits (Zpos acc) true (NilEmpty.string_of_uint d)
  = Some (Zpos (Pos.of_uint_acc d acc)).
Proof.
  induction d; intros acc; cbn [NilEmpty.string_of_uint Pos.of_uint_acc];
    [reflexivity | ..];
    (cbn [parse_digits];
     match goal with
     | |- context [digit_of ?c] =>
         let v := eval vm_compute in (digit_of c) in
         change (digit_of c) with v
     end; cbv iota; rewrite <- IHd; f_equal; lia).
Qed.

Lemma parse_digits_zero (d : Decimal.uint) :
  forall after_digit : bool,
  d <> Decimal.Nil ->
  parse_digits 0 after_digit (NilEmpty.string_of_uint d)
  = Some (Z.of_N (Pos.of_uint d)).
Proof.
  induction d; intros after_digit Hd; [congruence | ..];
    cbn [NilEmpty.string_of_uint Pos.of_uint parse_digits];
    match goal with
    | |- context [digit_of ?c] =>
        let v := eval vm_compute in (digit_of c) in
        change (digit_of c) with v
    end; cbv iota.
  - destruct d; [reflexivity | ..]; apply IHd; discriminate.
  - apply (parse_digits_acc d 1).
  - apply (parse_digits_acc d 2).
  - apply (parse_digits_acc d 3).
  - apply (parse_digits_acc d 4).
  - apply (parse_digits_acc d 5).
  - apply (parse_digits_acc d 6).
  - apply (parse_digits_acc d 7).
  - apply (parse_digits_acc d 8).
  - apply (parse_digits_acc d 9).
Qed.

Lemma digit_not_space (c : ascii) :
  digit_of c <> None -> isspace c = false /\ int_space c = false.
Proof.
  destruct c as [[] [] [] [] [] [] [] []]; vm_compute; intros H;
    solve [split; reflexivity | congruence].
Qed.

Lemma rstrip_by_nothing (p : ascii -> bool) (s : string) :
  all_by (fun c => negb (p c)) s = true -> rstrip_by p s = s.
Proof.
  induction s as [|c s IH]; cbn [all_by rstrip_by]; [reflexivity|].
  intros H. apply andb_true_iff in H as [Hc Hs]. rewrite (IH Hs).
  apply negb_true_iff in Hc. rewrite Hc. destruct s; reflexivity.
Qed.

Lemma lstrip_by_nothing (p : ascii -> bool) (s : string) :
  all_by (fun c => negb (p c)) s = true -> lstrip_by p s = s.
Proof.
  destruct s as [|c s]; cbn [all_by lstrip_by]; [reflexivity|].
  intros H. apply andb_true_iff in H as [Hc _].
  apply negb_true_iff in Hc. now rewrite Hc.
Qed.

Lemma digits_without_space (p : ascii -> bool) (d : Decimal.uint) :
  (forall c, digit_of c <> None -> p c = false) ->
  all_by (fun c => negb (p c)) (NilEmpty.string_of_uint d) = true.
Proof.
  intros Hp. induction d; cbn [NilEmpty.string_of_uint all_by];
    [reflexivity | ..];
    (rewrite IHd, Hp; [reflexivity | vm_compute; discriminate]).
Qed.

Lemma int_of_str_of_int (z : Z) :
  (digit_count (str_of_int z) <= max_str_digits)%nat ->
  int_of_str (str_of_int z) = Some z /\
  strip (str_of_int z) = str_of_int z /\
  str_truthy (str_of_int z) = true.
Proof.
  intros Hcount. apply Nat.ltb_ge in Hcount. revert Hcount.
  destruct z as [|p|p]; [repeat split | |];
    unfold str_of_int, int_of_str, strip;
    cbn [Z.to_int NilZero.string_of_int NilZero.string_of_uint];
    pose proof (DecimalPos.Unsigned.to_uint_nonnil p) as Hnil;
    pose proof (DecimalPos.Unsigned.of_to p) as Hback;
    pose proof (digits_without_space isspace (Pos.to_uint p)
                  (fun c H => proj1 (digit_not_space c H))) as Hsp;
    pose proof (digits_without_space int_space (Pos.to_uint p)
                  (fun c H => proj2 (digit_not_space c H))) as Hint;
    pose proof (parse_digits_zero (Pos.to_uint p) false Hnil) as Hparse;
    rewrite Hback in Hparse;
    replace (NilZero.string_of_uint (Pos.to_uint p))
      with (NilEmpty.string_of_uint (Pos.to_uint p))
      by (unfold NilZero.string_of_uint;
          destruct (Pos.to_uint p); congruence || reflexivity);
    intros Hcount; cbv zeta.
  - rewrite (lstrip_by_nothing isspace _ Hsp), (rstrip_by_nothing isspace _ Hsp),
      (lstrip_by_nothing int_space _ Hint), (rstrip_by_nothing int_space _ Hint).
    rewrite Hcount. repeat split.
    + destruct (Pos.to_uint p); try congruence; exact Hparse.
    + destruct (Pos.to_uint p); try congruence; reflexivity.
  - assert (Hminus : forall q, (q "-"%char = false) ->
              all_by (fun c => negb (q c)) (NilEmpty.string_of_uint (Pos.to_uint p)) = true ->
              all_by (fun c => negb (q c))
                (String "-" (NilEmpty.string_of_uint (Pos.to_uint p))) = true).
    { intros q Hq Hall. cbn [all_by]. now rewrite Hq, Hall. }
    rewrite (lstrip_by_nothing isspace _ (Hminus isspace eq_refl Hsp)),
      (rstrip_by_nothing isspace _ (Hminus isspace eq_refl Hsp)),
      (lstrip_by_nothing int_space _ (Hminus int_space eq_refl Hint)),
      (rstrip_by_nothing int_space _ (Hminus int_space eq_refl Hint)).
    rewrite Hcount. repeat split. rewrite Hparse. reflexivity.
Qed.

(** *** The digits of a literal and of the integer it denotes *)

Lemma digit_of_range (c : ascii) (d : Z) :
  digit_of c = Some d ->
  d = 0 \/ d = 1 \/ d = 2 \/ d = 3 \/ d = 4 \/ d = 5 \/ d = 6 \/ d = 7 \/
  d = 8 \/ d = 9.
Proof.
  unfold digit_of.
  destruct ((48 <=? N_of_ascii c) && (N_of_ascii c <=? 57))%N eqn:H;
    [|discriminate].
  apply andb_true_iff in H as [Hlo Hhi].
  apply N.leb_le in Hlo, Hhi. intros E. injection E as <-. lia.
Qed.

Lemma literal_digits_count (s : string) :
  Decimal.nb_digits (literal_digits s) = digit_count s.
Proof.
  induction s as [|c s IH]; cbn [literal_digits digit_count]; [reflexivity|].
  destruct (digit_of c) as [d|] eqn:E; [|exact IH].
  rewrite <- IH.
  destruct (digit_of_range c d E)
    as [->|[->|[->|[->|[->|[->|[->|[->|[->| ->]]]]]]]]]; reflexivity.
Qed.

Lemma parse_digits_literal_acc (s : string) :
  forall (acc : positive) (after_digit : bool) (v : Z),
  parse_digits (Zpos acc) after_digit s = Some v ->
  v = Zpos (Pos.of_uint_acc (literal_digits s) acc).
Proof.
  induction s as [|c s IH]; intros acc after_digit v;
    cbn [parse_digits literal_digits].
  - destruct after_digit; [|discriminate]. intros H. now injection H as <-.
  - destruct (digit_of c) as [d|] eqn:E.
    + destruct (digit_of_range c d E)
        as [->|[->|[->|[->|[->|[->|[->|[->|[->| ->]]]]]]]]];
        cbn [digit_cons Pos.of_uint_acc]; intros H;
        match goal with
        | |- _ = Zpos (Pos.of_uint_acc _ ?a) => apply (IH a true)
        end;
        rewrite <- H; f_equal; lia.
    + destruct (Ascii.eqb c "_" && after_digit); [|discriminate].
      apply IH.
Qed.

Lemma parse_digits_literal (s : string) :
  forall (after_digit : bool) (v : Z),
  parse_digits 0 after_digit s = Some v ->
  v = Z.of_N (Pos.of_uint (literal_digits s)).
Proof.
  induction s as [|c s IH]; intros after_digit v;
    cbn [parse_digits literal_digits].
  - destruct after_digit; [|discriminate]. intros H. now injection H as <-.
  - destruct (digit_of c) as [d|] eqn:E.
    + destruct (digit_of_range c d E)
        as [->|[->|[->|[->|[->|[->|[->|[->|[->| ->]]]]]]]]];
        cbn [digit_cons Pos.of_uint Z.of_N];
        [apply IH | apply parse_digits_literal_acc ..].
    + destruct (Ascii.eqb c "_" && after_digit); [|discriminate].
      apply IH.
Qed.

Lemma parse_digits_nonnil (s : string) :
  forall (acc : Z) (after_digit : bool) (v : Z),
  parse_digits acc after_digit s = Some v ->
  after_digit = true \/ literal_digits s <> Decimal.Nil.
Proof.
  induction s as [|c s IH]; intros acc after_digit v;
    cbn [parse_digits literal_digits].
  - destruct after_digit; [auto | discriminate].
  - destruct (digit_of c) as [d|] eqn:E.
    + intros _. right.
      destruct (digit_of_range c d E)
        as [->|[->|[->|[->|[->|[->|[->|[->|[->| ->]]]]]]]]]; discriminate.
    + destruct (Ascii.eqb c "_" && after_digit); [|discriminate].
      intros H. destruct (IH _ _ _ H) as [H'|H']; [discriminate | auto].
Qed.

Lemma string_of_uint_count (u : Decimal.uint) :
  digit_count (NilEmpty.string_of_uint u) = Decimal.nb_digits u.
Proof.
  induction u; cbn [NilEmpty.string_of_uint digit_count Decimal.nb_digits];
    [reflexivity | ..];
    match goal with
    | |- context [digit_of ?c] =>
        let v := eval vm_compute in (digit_of c) in
        change (digit_of c) with v
    end; cbv iota; now rewrite IHu.
Qed.

Lemma unorm_nonnil (u : Decimal.uint) : Decimal.unorm u <> Decimal.Nil.
Proof.
  unfold Decimal.unorm. destruct (Decimal.nzhead u); discriminate.
Qed.

(** The decimal of a parsed integer has no more digits than its literal. *)
Lemma parsed_digit_count (r : string) (v : Z) :
  parse_digits 0 false r = Some v ->
  (digit_count (str_of_int v) <= digit_count r)%nat /\
  (digit_count (str_of_int (- v)) <= digit_count r)%nat.
Proof.
  intros H.
  destruct (parse_digits_nonnil r 0 false v H) as [?|Hnil]; [discriminate|].
  apply parse_digits_literal in H.
  pose proof (DecimalPos.Unsigned.to_of (literal_digits r)) as Hnorm.
  pose proof (DecimalFacts.nb_digits_unorm (literal_digits r) Hnil) as Hle.
  pose proof (unorm_nonnil (literal_digits r)) as Hnn.
  rewrite literal_digits_count in Hle. rewrite <- Hnorm in Hle, Hnn.
  rewrite <- string_of_uint_count in Hle.
  subst v. unfold str_of_int.
  destruct (Pos.of_uint (literal_digits r)) as [|p];
    cbn [Z.of_N Z.opp Z.to_int N.to_uint NilZero.string_of_int
         NilZero.string_of_uint] in *.
  - split; exact Hle.
  - destruct (Pos.to_uint p); [congruence | ..];
      (split; [exact Hle | cbn [digit_count] in *;
                change (digit_of "-") with (@None Z); exact Hle]).
Qed.

Lemma digit_count_cons (c : ascii) (s : string) :
  (digit_count s <= digit_count (String c s))%nat.
Proof. cbn [digit_count]. destruct (digit_of c); lia. Qed.

(** What [int] accepts: a literal of at most [max_str_digits] digits. *)
Lemma int_of_str_literal (s : string) (n : Z) :
  int_of_str s = Some n ->
  exists r v,
    parse_digits 0 false r = Some v /\ (n = v \/ n = - v) /\
    (digit_count r <= max_str_digits)%nat.
Proof.
  unfold int_of_str.
  set (literal := rstrip_by int_space (lstrip_by int_space s)).
  cbv zeta.
  destruct (Nat.ltb_spec max_str_digits (digit_count literal)) as [|Hle];
    [discriminate|].
  destruct literal as [|c r].
  - intros H. exists "", n. auto.
  - pose proof (digit_count_cons c r) as Hr.
    assert (Hcases :
      parse_digits 0 false (String c r) = Some n \/
      parse_digits 0 false r = Some n \/
      option_map Z.opp (parse_digits 0 false r) = Some n ->
      exists r v,
        parse_digits 0 false r = Some v /\ (n = v \/ n = - v) /\
        (digit_count r <= max_str_digits)%nat).
    { intros [H|[H|H]].
      - exists (String c r), n. auto.
      - exists r, n. split; [exact H|]. split; [auto | lia].
      - destruct (parse_digits 0 false r) as [v|] eqn:Hv; [|discriminate].
        injection H as <-. exists r, v. split; [exact Hv|].
        split; [auto | lia]. }
    clear Hr Hle.
    destruct c as [[] [] [] [] [] [] [] []]; intros H; apply Hcases; auto.
Qed.

(** An integer [int] returns is one [str] can write: its decimal has at
    most [max_str_digits] digits. *)
Lemma int_of_str_digit_count (s : string) (n : Z) :
  int_of_str s = Some n ->
  (digit_count (str_of_int n) <= max_str_digits)%nat.
Proof.
  intros H. destruct (int_of_str_literal s n H) as (r & v & Hv & Hn & Hle).
  destruct (parsed_digit_count r v Hv) as [Hpos Hneg].
  destruct Hn as [-> | ->]; lia.
Qed.

(** X6: on the three routes with an integer parameter, a request whose
    parameter parses to [n] gets the reply of the request that spells [n]
    as [str(n)]: the decimal written into the query reads back as [n]. *)
Theorem reply_of_canonical_request (ep : endpoint) (key : string)
    (db : executor (row_of ep)) (args : query_args) (n : Z) :
  required_parameter ep = Some key ->
  int_of_str (strip (args_get args key "")) = Some n ->
  view ep db args = view ep db [(key, str_of_int n)].
Proof.
  intros Hreq Hparse.
  destruct (int_of_str_of_int n (int_of_str_digit_count _ n Hparse))
    as (Hback & Hstrip & Htruthy).
  assert (Hne : str_truthy (strip (args_get args key "")) = true).
  { destruct (str_truthy (strip (args_get args key ""))) eqn:Ht;
      [reflexivity|].
    apply str_truthy_false in Ht. rewrite Ht in Hparse. discriminate. }
  destruct ep; cbn [required_parameter] in Hreq; try discriminate;
    injection Hreq as <-; cbn [view];
    [unfold Inventory.estimated_stockout_of_products_by_cover_days
    |unfold Sales.sales_rate_by_product_and_location
    |unfold Sales.forecast_sales_vs_actual_sales_for_products_and_locations];
    cbn [args_get String.eqb Ascii.eqb Bool.eqb];
    rewrite Hstrip, Htruthy, Hback, Hne, Hparse; reflexivity.
Qed.

Lemma reply_of_canonical_request_witness :
  view SalesRate (fun _ => Ok [(CStr "Pune", Some (NInt 3))])
    [("product_code", " +0_07 "); ("product_code", "9")]
  = view SalesRate (fun _ => Ok [(CStr "Pune", Some (NInt 3))])
      [("product_code", "7")].
Proof.
  apply (reply_of_canonical_request SalesRate "product_code"
           (fun _ => Ok [(CStr "Pune", Some (NInt 3))])
           [("product_code", " +0_07 "); ("product_code", "9")] 7).
  - reflexivity.
  - reflexivity.
Defined.
